(** * GRAPH-CP: the validation and path-security core of [server.py]

    A shallow embedding of [src/server.py] and the properties its
    specification states about it.

    Modelling conventions.
    - A Python [str] is a Rocq [string]; its characters are the code points
      0..255.  Every literal and character class of the source lies in that
      range, and the classes [\s] and [\w] below are CPython's Unicode
      classes restricted to it.
    - A Python [int] is a [Z].
    - Exceptions are values of [exn]; code that can raise lives in the
      monad [M] (state passing with an exception result), and [try]/[except]
      is [try_except].
    - The filesystem is a finite map from absolute paths to nodes, POSIX
      flavoured and without symbolic links, so that [Path.resolve()] is the
      lexical normalisation against the working directory.  A statement
      that needs to know what [resolve] makes of a path says so in a
      hypothesis on [Path_resolve].  The functions of [pathlib], [os], [re]
      and [str] behave as in CPython 3.11.
    - A call that changes the filesystem returns or raises, and leaves a
      filesystem either way: what [mkdir(parents=True)] has made before it
      fails stays, and a file that has been opened for writing stays when
      the write fails.
    - The graphviz package ([Source.pipe], [Source.render]), the working
      directory, the temporary directory, the umask, and the errors with
      which the system refuses a call for reasons of its own (a name too
      long, a full or read-only device) are the fields of the class
      [Platform]: every statement holds for all of them. *)

From Stdlib Require Import Ascii String DecimalString ZArith QArith Qminmax List Bool Lia.
From stdpp Require Import gmap strings list.
#[local] Open Scope string_scope.
#[local] Open Scope Z_scope.
#[local] Open Scope list_scope.

(* ===================================================================== *)
(** * Part I: definitions *)
(* ===================================================================== *)

(** ** Python strings *)

Module Py.

Definition chars (s : string) : list ascii := list_ascii_of_string s.
Definition of_chars (l : list ascii) : string := string_of_list_ascii l.

Definition code (c : ascii) : nat := nat_of_ascii c.

Definition between (lo hi : nat) (c : ascii) : bool :=
  ((lo <=? code c) && (code c <=? hi))%nat.

(** [str.isspace] on one character; it is also the class [\s] of [re]. *)
Definition isspace (c : ascii) : bool :=
  between 9 13 c || between 28 32 c || between 133 133 c
  || between 160 160 c.

(** The class [\w] of [re] for [str] patterns. *)
Definition isword (c : ascii) : bool :=
  between 48 57 c || between 65 90 c || between 95 95 c
  || between 97 122 c || between 170 170 c || between 178 179 c
  || between 181 181 c || between 185 186 c || between 188 190 c
  || between 192 214 c || between 216 246 c || between 248 255 c.

(** ASCII lower-casing, the case folding that [re.IGNORECASE] applies to
    the ASCII letters of a pattern. *)
Definition lower (c : ascii) : ascii :=
  if between 65 90 c then ascii_of_nat (code c + 32) else c.

(** [c in s] for a one-character [c]. *)
Definition mem (c : ascii) (s : string) : bool :=
  existsb (Ascii.eqb c) (chars s).

Fixpoint lstrip_by (p : ascii -> bool) (l : list ascii) : list ascii :=
  match l with
  | [] => []
  | c :: l' => if p c then lstrip_by p l' else l
  end.

Definition rstrip_by (p : ascii -> bool) (l : list ascii) : list ascii :=
  rev (lstrip_by p (rev l)).

Definition strip_by (p : ascii -> bool) (l : list ascii) : list ascii :=
  rstrip_by p (lstrip_by p l).

(** [s.strip()] *)
Definition strip (s : string) : string :=
  of_chars (strip_by isspace (chars s)).

(** [s.strip(cs)] *)
Definition strip_chars (cs : string) (s : string) : string :=
  of_chars (strip_by (fun c => mem c cs) (chars s)).

(** [s.count(c)] for a one-character [c]. *)
Definition count (c : ascii) (s : string) : nat :=
  List.length (List.filter (Ascii.eqb c) (chars s)).

Fixpoint starts (pre l : list ascii) : bool :=
  match pre, l with
  | [], _ => true
  | a :: pre', b :: l' => Ascii.eqb a b && starts pre' l'
  | _ :: _, [] => false
  end.

(** [s.startswith(pre)] and [s.endswith(suf)] *)
Definition startswith (s pre : string) : bool :=
  starts (chars pre) (chars s).
Definition endswith (s suf : string) : bool :=
  starts (rev (chars suf)) (rev (chars s)).

(** [len(s)] *)
Definition len (s : string) : nat := List.length (chars s).

(** [s.split(sep)] for a one-character separator, on character lists:
    the pieces between the separators, empty pieces kept. *)
Fixpoint split_on (sep : ascii) (l : list ascii) : list (list ascii) :=
  match l with
  | [] => [[]]
  | c :: l' =>
      if Ascii.eqb c sep then [] :: split_on sep l'
      else match split_on sep l' with
           | [] => [[c]]
           | w :: ws => (c :: w) :: ws
           end
  end.

Definition split (sep : ascii) (s : string) : list string :=
  List.map of_chars (split_on sep (chars s)).

(** [sep.join(ws)] *)
Fixpoint join (sep : string) (ws : list string) : string :=
  match ws with
  | [] => ""
  | [w] => w
  | w :: ws' => w +:+ sep +:+ join sep ws'
  end.

(** [str(n)] for an [int]. *)
Definition str_int (n : Z) : string :=
  DecimalString.NilZero.string_of_int (Z.to_int n).

(** [s.encode('utf-8')]: one byte below 128, two bytes from 128 to 255. *)
Definition utf8_char (c : ascii) : list ascii :=
  if (code c <? 128)%nat then [c]
  else [ascii_of_nat (192 + code c / 64); ascii_of_nat (128 + code c mod 64)].

Definition encode_utf8 (s : string) : string :=
  of_chars (List.concat (List.map utf8_char (chars s))).

End Py.

(** ** Regular expressions, as far as the two patterns of the source go *)

Module Re.

Inductive regex : Type :=
| Eps : regex
| Cls : (ascii -> bool) -> regex
| Cat : regex -> regex -> regex
| Alt : regex -> regex -> regex
| Star : regex -> regex.

(** [r?], [r+], a literal character under [re.IGNORECASE], a literal
    word under [re.IGNORECASE], and [.] under [re.DOTALL]. *)
Definition Opt (r : regex) : regex := Alt r Eps.
Definition Plus (r : regex) : regex := Cat r (Star r).
Definition Chr_i (l : ascii) : regex :=
  Cls (fun c => Ascii.eqb (Py.lower c) (Py.lower l)).
Definition Lit_i (w : string) : regex :=
  List.fold_right (fun l r => Cat (Chr_i l) r) Eps (Py.chars w).
Definition Any : regex := Cls (fun _ => true).

(** Matching by derivatives. *)
Fixpoint nullable (r : regex) : bool :=
  match r with
  | Eps => true
  | Cls _ => false
  | Cat r1 r2 => nullable r1 && nullable r2
  | Alt r1 r2 => nullable r1 || nullable r2
  | Star _ => true
  end.

(** [deriv] yields [None] for the empty language, which keeps the
    derivatives small. *)
Definition cat_opt (o : option regex) (r2 : regex) : option regex :=
  match o with Some r1 => Some (Cat r1 r2) | None => None end.

Definition alt_opt (o1 o2 : option regex) : option regex :=
  match o1, o2 with
  | Some r1, Some r2 => Some (Alt r1 r2)
  | Some r1, None => Some r1
  | None, o => o
  end.

Fixpoint deriv (c : ascii) (r : regex) : option regex :=
  match r with
  | Eps => None
  | Cls p => if p c then Some Eps else None
  | Cat r1 r2 =>
      if nullable r1
      then alt_opt (cat_opt (deriv c r1) r2) (deriv c r2)
      else cat_opt (deriv c r1) r2
  | Alt r1 r2 => alt_opt (deriv c r1) (deriv c r2)
  | Star r1 => cat_opt (deriv c r1) (Star r1)
  end.

(** [re.fullmatch(r, s) is not None] *)
Fixpoint accepts (r : regex) (l : list ascii) : bool :=
  match l with
  | [] => nullable r
  | c :: l' =>
      match deriv c r with
      | Some r' => accepts r' l'
      | None => false
      end
  end.

(** [re.compile('^' r '$').match(s) is not None], without [re.MULTILINE]:
    [^] holds at the start only, and [$] at the end of the string or just
    before a newline that ends it. *)
Definition match_anchored (r : regex) (s : string) : bool :=
  accepts r (Py.chars s)
  || match rev (Py.chars s) with
     | c :: rl => Ascii.eqb c "010" && accepts r (rev rl)
     | [] => false
     end.

(** The language of a pattern, for the statements about it. *)
Inductive Matches : regex -> list ascii -> Prop :=
| MEps : Matches Eps []
| MCls p c : p c = true -> Matches (Cls p) [c]
| MCat r1 r2 l1 l2 :
    Matches r1 l1 -> Matches r2 l2 -> Matches (Cat r1 r2) (l1 ++ l2)
| MAltL r1 r2 l : Matches r1 l -> Matches (Alt r1 r2) l
| MAltR r1 r2 l : Matches r2 l -> Matches (Alt r1 r2) l
| MStarNil r : Matches (Star r) []
| MStarApp r l1 l2 :
    Matches r l1 -> Matches (Star r) l2 -> Matches (Star r) (l1 ++ l2).

End Re.

(** ** The module-level constants of [server.py] *)

Definition ws : Re.regex := Re.Cls Py.isspace.
Definition word : Re.regex := Re.Cls Py.isword.
Definition chr (c : ascii) : Re.regex := Re.Cls (Ascii.eqb c).

(** [^\s*(strict\s+)?(graph|digraph)\s+\w*\s*\{.*\}\s*$] with
    [re.DOTALL | re.IGNORECASE]; the anchors are in [Re.match_anchored]. *)
Definition DOT_GRAPH_PATTERN : Re.regex :=
  Re.Cat (Re.Star ws)
  (Re.Cat (Re.Opt (Re.Cat (Re.Lit_i "strict") (Re.Plus ws)))
  (Re.Cat (Re.Alt (Re.Lit_i "graph") (Re.Lit_i "digraph"))
  (Re.Cat (Re.Plus ws)
  (Re.Cat (Re.Star word)
  (Re.Cat (Re.Star ws)
  (Re.Cat (chr "{")
  (Re.Cat (Re.Star Re.Any)
  (Re.Cat (chr "}")
          (Re.Star ws))))))))).

(** The characters of the class [[<>|*?]]. *)
Definition forbidden_chars : string := "<>|*?".

(** [^[^<>|*?]*$] *)
Definition DOT_BASIC_VALIDATION : Re.regex :=
  Re.Star (Re.Cls (fun c => negb (Py.mem c forbidden_chars))).

(** ** NameSanitizer *)

(** The characters of the class of [sanitize_filename]: less-than,
    greater-than, colon, double quote, slash, backslash, bar, question
    mark and star. *)
Definition reserved_chars : string :=
  "<>:" +:+ String "034" "/\|?*".

(** [re.sub(cls, repl, s)] for a pattern that is one character class. *)
Definition re_sub_class (cls : string) (repl : string) (s : string) : string :=
  Py.of_chars
    (List.concat
       (List.map (fun c => if Py.mem c cls then Py.chars repl else [c])
                 (Py.chars s))).

Definition sanitize_filename (filename : string) : string :=
  let filename := re_sub_class reserved_chars "_" filename in
  let filename := Py.strip_chars ". " filename in
  if (Py.len filename =? 0)%nat then "output" else filename.

(** ** Exceptions *)

(** Errors of a system call that the state of the model does not decide:
    a name or a path too long for the filesystem, a device that is full or
    mounted read-only, an exhausted quota, an input/output error. *)
Inductive env_error : Type := ENAMETOOLONG | ENOSPC | EROFS | EDQUOT | EIO.

(** [errno] values of the [OSError]s that the filesystem calls raise: those
    that the entries of the filesystem decide, and those of the
    environment. *)
Inductive oserror : Type :=
| ENOENT | EEXIST | ENOTDIR | EISDIR | EACCES
| Environment (e : env_error).

(** The exceptions that reach the code of [server.py]: its own three
    classes, [ValueError], [OSError] with the offending file name, whatever
    the graphviz package raises, and [OSError] without a file name, as a
    failed [write] or [close] raises it. *)
Inductive exn : Type :=
| SecurityError (msg : string)
| DOTSyntaxError (msg : string)
| FileOperationError (msg : string)
| ValueError (msg : string)
| OSError (e : oserror) (filename : string)
| GraphvizError (msg : string)
| OSError0 (e : oserror).

Inductive exn_class : Type :=
| SecurityError_ | DOTSyntaxError_ | FileOperationError_
| ValueError_ | OSError_ | GraphvizError_.

Definition class_of (e : exn) : exn_class :=
  match e with
  | SecurityError _ => SecurityError_
  | DOTSyntaxError _ => DOTSyntaxError_
  | FileOperationError _ => FileOperationError_
  | ValueError _ => ValueError_
  | OSError _ _ | OSError0 _ => OSError_
  | GraphvizError _ => GraphvizError_
  end.

Definition exn_class_eqb (a b : exn_class) : bool :=
  match a, b with
  | SecurityError_, SecurityError_ | DOTSyntaxError_, DOTSyntaxError_
  | FileOperationError_, FileOperationError_ | ValueError_, ValueError_
  | OSError_, OSError_ | GraphvizError_, GraphvizError_ => true
  | _, _ => false
  end.

(** [isinstance(e, (c1, ..., cn))] *)
Definition isinstance (e : exn) (cs : list exn_class) : bool :=
  existsb (exn_class_eqb (class_of e)) cs.

Definition strerror (e : oserror) : string :=
  match e with
  | ENOENT => "[Errno 2] No such file or directory"
  | EEXIST => "[Errno 17] File exists"
  | ENOTDIR => "[Errno 20] Not a directory"
  | EISDIR => "[Errno 21] Is a directory"
  | EACCES => "[Errno 13] Permission denied"
  | Environment ENAMETOOLONG => "[Errno 36] File name too long"
  | Environment ENOSPC => "[Errno 28] No space left on device"
  | Environment EROFS => "[Errno 30] Read-only file system"
  | Environment EDQUOT => "[Errno 122] Disk quota exceeded"
  | Environment EIO => "[Errno 5] Input/output error"
  end.

(** [str(e)] *)
Definition str_exn (e : exn) : string :=
  match e with
  | SecurityError m | DOTSyntaxError m | FileOperationError m
  | ValueError m | GraphvizError m => m
  | OSError c f => strerror c +:+ ": '" +:+ f +:+ "'"
  | OSError0 c => strerror c
  end.

Inductive result (A : Type) : Type :=
| Ok (a : A)
| Err (e : exn).
Arguments Ok {A} a.
Arguments Err {A} e.

Definition is_ok {A} (r : result A) : bool :=
  match r with Ok _ => true | Err _ => false end.

(** The class of the exception a call ended with, if it did. *)
Definition raised {A} (r : result A) : option exn_class :=
  match r with Ok _ => None | Err e => Some (class_of e) end.

(** ** Paths and the filesystem *)

(** An absolute [pathlib.Path]: the names below the root, outermost
    first.  [/tmp/out] is [["tmp"; "out"]], the root is [[]]. *)
Abbreviation Path := (list string).

(** [str(p)] *)
Definition Path_str (p : Path) : string := "/" +:+ Py.join "/" p.

(** [p.parts] *)
Definition Path_parts (p : Path) : list string := "/" :: p.

Definition is_name (c : string) : bool :=
  negb (String.eqb c "") && negb (String.eqb c ".").

(** [p / seg] *)
Definition Path_joinpath (p : Path) (seg : string) : Path :=
  let names := List.filter is_name (Py.split "/" seg) in
  if Py.startswith seg "/" then names else p ++ names.

(** One component of [os.path.realpath] where nothing is a symbolic
    link: empty and [.] components are skipped, [..] drops the last name
    (and stays at the root), any other name is appended. *)
Definition realpath_step (acc : Path) (c : string) : Path :=
  if negb (is_name c) then acc
  else if String.eqb c ".." then removelast acc
  else acc ++ [c].

Definition realpath (cwd : Path) (s : string) : Path :=
  List.fold_left realpath_step (Py.split "/" s)
                 (if Py.startswith s "/" then [] else cwd).

Fixpoint is_prefix_of (base p : Path) : bool :=
  match base, p with
  | [], _ => true
  | b :: base', n :: p' => String.eqb b n && is_prefix_of base' p'
  | _ :: _, [] => false
  end.

(** [p.relative_to(other)] *)
Definition Path_relative_to (p other : Path) : result Path :=
  if is_prefix_of other p then Ok (drop (List.length other) p)
  else Err (ValueError ("'" +:+ Path_str p +:+ "' is not in the subpath of '"
                        +:+ Path_str other +:+
            "' OR one path is relative and the other is absolute.")).

(** The reversed name cut at its last dot: what is before the dot
    (reversed) and what is after it. *)
Fixpoint cut_last_dot (r acc : list ascii) : option (list ascii * list ascii) :=
  match r with
  | [] => None
  | c :: r' =>
      if Ascii.eqb c "." then Some (r', acc) else cut_last_dot r' (c :: acc)
  end.

(** The stem and the suffix of a name, as [PurePath.suffix] splits it: the
    suffix starts at the last dot unless that dot is the first or the last
    character of the name. *)
Definition split_suffix (name : string) : string * string :=
  match cut_last_dot (rev (Py.chars name)) [] with
  | Some (c :: r', a :: acc) =>
      (Py.of_chars (rev (c :: r')), Py.of_chars ("."%char :: a :: acc))
  | _ => (name, "")
  end.

(** [p.with_suffix(suffix)], for a [suffix] that is empty or starts with a
    dot. *)
Definition Path_with_suffix (p : Path) (suffix : string) : result Path :=
  match rev p with
  | [] => Err (ValueError ("PosixPath('/') has an empty name"))
  | name :: rq => Ok (rev rq ++ [fst (split_suffix name) +:+ suffix])
  end.

(** A directory or a regular file, with the write permission of the
    process on it; a file has its bytes. *)
Inductive node : Type :=
| Dir (writable : bool)
| File (writable : bool) (data : string).

Abbreviation FS := (gmap (list string) node).

(** [os.stat]: the root always exists and is a directory; its permission
    is the one recorded for it, writable if none is. *)
Definition stat (fs : FS) (p : Path) : option node :=
  match p with
  | [] => Some (Dir (match fs !! p with Some (Dir w) => w | _ => true end))
  | _ => fs !! p
  end.

Definition is_dir (fs : FS) (p : Path) : bool :=
  match stat fs p with Some (Dir _) => true | _ => false end.

Definition exists_ (fs : FS) (p : Path) : bool :=
  match stat fs p with Some _ => true | None => false end.

(** [os.access(p, os.W_OK)] *)
Definition access_W_OK (fs : FS) (p : Path) : bool :=
  match stat fs p with
  | Some (Dir w) | Some (File w _) => w
  | None => false
  end.

(** The bytes of the regular file at [p], if there is one. *)
Definition read_bytes (fs : FS) (p : Path) : option string :=
  match stat fs p with Some (File _ d) => Some d | _ => None end.

(** The walk of the kernel from the directory [here] through [names] to
    the directory that they name: the first name on the way that is missing
    gives [ENOENT], the first that is a regular file [ENOTDIR]; else the
    answer is the write permission on the directory reached. *)
Fixpoint resolve_dir (fs : FS) (here : Path) (names : list string)
  : oserror + bool :=
  match stat fs here with
  | None => inl ENOENT
  | Some (File _ _) => inl ENOTDIR
  | Some (Dir w) =>
      match names with
      | [] => inr w
      | n :: names' => resolve_dir fs (here ++ [n]) names'
      end
  end.

(** ** The platform and the process state *)

(** The arguments of one [Source(...).render(...)] call. *)
Record render_call : Type := {
  rc_source : string;
  rc_format : string;
  rc_filename : string;
  rc_cleanup : bool;
  rc_quiet_view : bool
}.

(** What the code takes from outside: the working directory of the
    process, [tempfile.gettempdir()] as a [Path], the write permission the
    umask leaves on new directories and files, what the system refuses for
    reasons of its own, and the two calls into the graphviz package.
    [mkdir_refused p fs] is the error, if any, with which the system
    refuses [os.mkdir(p)] whatever the entries of [fs] say, and
    [open_refused p fs] the same for opening [p] for writing.
    [write_cut p data fs] says whether writing [data] to [p], once it is
    open, fails, and then with which error and after how many bytes.
    [Source_pipe] reads the filesystem at most; [Source_render] may change
    it. *)
Class Platform : Type := {
  getcwd : Path;
  gettempdir : Path;
  umask_w : bool;
  mkdir_refused : Path -> FS -> option env_error;
  open_refused : Path -> FS -> option env_error;
  write_cut : Path -> string -> FS -> option (env_error * nat);
  Source_pipe : string -> FS -> result string;
  Source_render : render_call -> FS -> result string * FS
}.

(** ** The calls that change the filesystem *)

Section SystemCalls.

Context `{Platform}.

(** [os.mkdir(p)]; [w] is the write permission that the umask leaves on
    what the process creates. *)
Definition os_mkdir (w : bool) (p : Path) (fs : FS) : result FS :=
  match mkdir_refused p fs with
  | Some e => Err (OSError (Environment e) (Path_str p))
  | None =>
      match rev p with
      | [] => Err (OSError EEXIST (Path_str p))
      | _ :: rq =>
          match resolve_dir fs [] (rev rq) with
          | inl e => Err (OSError e (Path_str p))
          | inr pw =>
              match fs !! p with
              | Some _ => Err (OSError EEXIST (Path_str p))
              | None =>
                  if pw then Ok (<[p := Dir w]> fs)
                  else Err (OSError EACCES (Path_str p))
              end
          end
      end
  end.

(** [Path.mkdir(parents=False, exist_ok=True)]: an [OSError] other than
    [FileNotFoundError] is swallowed when the path is a directory. *)
Definition mkdir_exist_ok (w : bool) (p : Path) (fs : FS) : result FS :=
  match os_mkdir w p fs with
  | Ok fs' => Ok fs'
  | Err (OSError ENOENT f) => Err (OSError ENOENT f)
  | Err e => if is_dir fs p then Ok fs else Err e
  end.

(** [Path.mkdir(parents=True, exist_ok=True)] on the reversed path [rp]:
    when the parent is missing, make the parent in the same way and try
    once more.  The answer comes with the filesystem that the call leaves:
    when it fails, the ancestors that it has made stay. *)
Fixpoint mkdir_parents (w : bool) (rp : list string) (fs : FS)
  : result unit * FS :=
  match os_mkdir w (rev rp) fs with
  | Ok fs' => (Ok tt, fs')
  | Err (OSError ENOENT f) =>
      match rp with
      | [] => (Err (OSError ENOENT f), fs)
      | _ :: rq =>
          match mkdir_parents w rq fs with
          | (Ok _, fs1) =>
              match mkdir_exist_ok w (rev rp) fs1 with
              | Ok fs2 => (Ok tt, fs2)
              | Err e => (Err e, fs1)
              end
          | (Err e, fs1) => (Err e, fs1)
          end
      end
  | Err e => if is_dir fs (rev rp) then (Ok tt, fs) else (Err e, fs)
  end.

(** [p.mkdir(parents=True, exist_ok=True)] as a call: how it ends, and the
    filesystem it leaves. *)
Definition mkdir_p (w : bool) (p : Path) (fs : FS) : result unit * FS :=
  mkdir_parents w (rev p) fs.

(** The same call by its outcome alone: the filesystem after it when it
    returns, the exception when it raises. *)
Definition Path_mkdir (w : bool) (p : Path) (fs : FS) : result FS :=
  match mkdir_p w p fs with
  | (Ok _, fs') => Ok fs'
  | (Err e, _) => Err e
  end.

(** [with open(p, 'w', encoding='utf-8') as f: f.write(text)].  Opening
    creates the file or truncates it; then the encoded text is written.
    When the write, the flush or the close fails, the file stays, with the
    bytes that reached it, and the [OSError] names no file. *)
Definition open_w_write (w : bool) (p : Path) (text : string) (fs : FS)
  : result unit * FS :=
  let store (fw : bool) :=
    let data := Py.encode_utf8 text in
    match write_cut p data fs with
    | None => (Ok tt, <[p := File fw data]> fs)
    | Some (e, n) =>
        (Err (OSError0 (Environment e)),
         <[p := File fw (Py.of_chars (take n (Py.chars data)))]> fs)
    end in
  match open_refused p fs with
  | Some e => (Err (OSError (Environment e) (Path_str p)), fs)
  | None =>
      match rev p with
      | [] => (Err (OSError EISDIR (Path_str p)), fs)
      | _ :: rq =>
          match resolve_dir fs [] (rev rq) with
          | inl e => (Err (OSError e (Path_str p)), fs)
          | inr pw =>
              match fs !! p with
              | Some (Dir _) => (Err (OSError EISDIR (Path_str p)), fs)
              | Some (File fw _) =>
                  if fw then store fw
                  else (Err (OSError EACCES (Path_str p)), fs)
              | None =>
                  if pw then store w
                  else (Err (OSError EACCES (Path_str p)), fs)
              end
          end
      end
  end.

End SystemCalls.

Inductive level : Type := WARNING | INFO | ERROR.

(** The filesystem, the module-level [_output_directory], what went to
    [logger], and the [render] calls made so far. *)
Record State : Type := {
  fs : FS;
  _output_directory : option Path;
  log : list (level * string);
  renders : list render_call
}.

(** Computations that read and write the state and may raise. *)
Definition M (A : Type) : Type := State -> result A * State.

#[global] Instance M_ret : MRet M := fun A a st => (Ok a, st).

#[global] Instance M_bind : MBind M := fun A B f m st =>
  match m st with
  | (Ok a, st') => f a st'
  | (Err e, st') => (Err e, st')
  end.

Definition raise {A} (e : exn) : M A := fun st => (Err e, st).

(** [if b: raise e] *)
Definition raise_if (b : bool) (e : exn) : M unit :=
  if b then raise e else mret tt.

(** [try: body / except Exception as e: handler(e)] *)
Definition try_except {A} (body : M A) (handler : exn -> M A) : M A :=
  fun st =>
    match body st with
    | (Ok a, st') => (Ok a, st')
    | (Err e, st') => handler e st'
    end.

(** [try: body / except C: handler(e)] for one class [C] *)
Definition try_except_class {A} (c : exn_class) (body : M A)
           (handler : exn -> M A) : M A :=
  try_except body (fun e => if isinstance e [c] then handler e else raise e).

Definition lift {A} (r : result A) : M A := fun st => (r, st).

Definition with_fs (st : State) (f : FS) : State :=
  {| fs := f; _output_directory := _output_directory st;
     log := log st; renders := renders st |}.

(** A filesystem call: it returns or raises, and leaves a filesystem
    either way. *)
Definition os_call (f : FS -> result unit * FS) : M unit := fun st =>
  let '(r, f') := f (fs st) in (r, with_fs st f').

(** A filesystem call that only looks. *)
Definition os_query {A} (f : FS -> A) : M A := fun st => (Ok (f (fs st)), st).

Definition get_output_directory : M (option Path) :=
  fun st => (Ok (_output_directory st), st).

Definition set_output_directory (d : Path) : M unit := fun st =>
  (Ok tt, {| fs := fs st; _output_directory := Some d;
             log := log st; renders := renders st |}).

Definition logger (l : level) (msg : string) : M unit := fun st =>
  (Ok tt, {| fs := fs st; _output_directory := _output_directory st;
             log := log st ++ [(l, msg)]; renders := renders st |}).

Fixpoint for_each {A} (l : list A) (body : A -> M unit) : M unit :=
  match l with
  | [] => mret tt
  | a :: l' => body a;; for_each l' body
  end.

Section Server.

Context `{Platform}.

(** [Path(s).resolve()]: a NUL character makes the underlying [lstat]
    raise [ValueError]; otherwise, since nothing in this filesystem is a
    symbolic link, the result is the normalisation of the text against the
    working directory, and the filesystem is not consulted. *)
Definition Path_resolve_str (s : string) : result Path :=
  if Py.mem "000" s then Err (ValueError "embedded null byte")
  else Ok (realpath getcwd s).

(** [p.resolve()] *)
Definition Path_resolve (p : Path) : result Path :=
  Path_resolve_str (Path_str p).

(** [Source(dot_content).pipe()] *)
Definition source_pipe (dot_content : string) : M string := fun st =>
  (Source_pipe dot_content (fs st), st).

(** [source.render(...)] *)
Definition source_render (c : render_call) : M string := fun st =>
  let '(r, f') := Source_render c (fs st) in
  (r, {| fs := f'; _output_directory := _output_directory st;
         log := log st; renders := renders st ++ [c] |}).

(** *** PathGuard *)

Definition validate_path_security (file_path : string)
           (base_directory : option Path) : M Path :=
  try_except
    (path ← lift (Path_resolve_str file_path);
     raise_if (negb (Re.match_anchored DOT_BASIC_VALIDATION (Path_str path)))
              (SecurityError "Path contains invalid characters");;
     match base_directory with
     | Some base_directory =>
         base_resolved ← lift (Path_resolve base_directory);
         try_except_class ValueError_
           (lift (Path_relative_to path base_resolved);; mret tt)
           (fun _ => raise (SecurityError
              ("Path '" +:+ Path_str path +:+ "' is outside allowed directory '"
               +:+ Path_str base_resolved +:+ "'")))
     | None => mret tt
     end;;
     let parts := Path_parts path in
     for_each parts (fun part =>
       if Py.startswith part "." && (1 <? Py.len part)%nat
       then logger WARNING ("Suspicious path component detected: " +:+ part)
       else mret tt);;
     mret path)
    (fun e =>
       if isinstance e [SecurityError_] then raise e
       else raise (SecurityError ("Path validation failed: " +:+ str_exn e))).

(** *** ContentValidator *)

Definition validate_dot_content (dot_content : string) : M unit :=
  raise_if (Py.len (Py.strip dot_content) =? 0)%nat
           (DOTSyntaxError "DOT content is empty");;
  raise_if (negb (Re.match_anchored DOT_GRAPH_PATTERN (Py.strip dot_content)))
           (DOTSyntaxError "DOT content does not match basic graph syntax");;
  let open_braces := Py.count "{" dot_content in
  let close_braces := Py.count "}" dot_content in
  raise_if (negb (open_braces =? close_braces)%nat)
           (DOTSyntaxError "Unbalanced braces in DOT content");;
  try_except
    (source_pipe dot_content;; mret tt)
    (fun e => raise (DOTSyntaxError ("Invalid DOT syntax: " +:+ str_exn e))).

(** *** OutputStore *)

Definition ensure_output_directory : M Path :=
  current ← get_output_directory;
  output_directory ←
    match current with
    | None =>
        let d := Path_joinpath gettempdir "mcp_graphviz_output" in
        set_output_directory d;; mret d
    | Some d => mret d
    end;
  try_except
    (os_call (mkdir_p umask_w output_directory);;
     mret output_directory)
    (fun e => raise (FileOperationError
                       ("Failed to create output directory: " +:+ str_exn e))).

Definition set_output_location_file (directory_path : string) : M string :=
  try_except
    (validated_path ← validate_path_security directory_path None;
     os_call (mkdir_p umask_w validated_path);;
     writable ← os_query (fun f => access_W_OK f validated_path);
     raise_if (negb writable)
              (FileOperationError ("No write permission for directory: "
                                   +:+ Path_str validated_path));;
     set_output_directory validated_path;;
     logger INFO ("Output directory set to: " +:+ Path_str validated_path);;
     mret ("Output directory successfully set to: "
           +:+ Path_str validated_path))
    (fun e =>
       logger ERROR ("Failed to set output directory: " +:+ str_exn e);;
       if isinstance e [SecurityError_; FileOperationError_] then raise e
       else raise (FileOperationError
                     ("Failed to set output directory: " +:+ str_exn e))).

(** *** RenderOrchestrator *)

Definition generate_dot_file (dot_content filename : string) : M string :=
  try_except
    (validate_dot_content dot_content;;
     output_dir ← ensure_output_directory;
     let clean_filename := sanitize_filename filename in
     let clean_filename :=
       if negb (Py.endswith clean_filename ".dot")
       then clean_filename +:+ ".dot" else clean_filename in
     let file_path := Path_joinpath output_dir clean_filename in
     validate_path_security (Path_str file_path) (Some output_dir);;
     try_except
       (os_call (open_w_write umask_w file_path dot_content))
       (fun e => raise (FileOperationError
                          ("Failed to write DOT file: " +:+ str_exn e)));;
     logger INFO ("DOT file created: " +:+ Path_str file_path);;
     mret ("DOT file successfully created: " +:+ Path_str file_path))
    (fun e =>
       logger ERROR ("Failed to generate DOT file: " +:+ str_exn e);;
       if isinstance e [DOTSyntaxError_; FileOperationError_; SecurityError_]
       then raise e
       else raise (FileOperationError
                     ("Failed to generate DOT file: " +:+ str_exn e))).

Definition generate_png (dot_content filename : string) (width height : Z)
  : M string :=
  try_except
    (validate_dot_content dot_content;;
     raise_if ((width <=? 0) || (height <=? 0))
              (ValueError "Width and height must be positive integers");;
     raise_if ((10000 <? width) || (10000 <? height))
              (ValueError "Width and height must be less than 10000 pixels");;
     output_dir ← ensure_output_directory;
     let clean_filename := sanitize_filename filename in
     let clean_filename :=
       if negb (Py.endswith clean_filename ".png")
       then clean_filename +:+ ".png" else clean_filename in
     let file_path := Path_joinpath output_dir clean_filename in
     validate_path_security (Path_str file_path) (Some output_dir);;
     actual_file_path ←
       try_except
         (let dpi := (inject_Z (Z.min width height) / inject_Z 5)%Q in
          let dpi := Qmax (inject_Z 72) (Qmin (inject_Z 300) dpi) in
          stem ← lift (Path_with_suffix file_path "");
          source_render {| rc_source := dot_content; rc_format := "png";
                           rc_filename := Path_str stem;
                           rc_cleanup := true; rc_quiet_view := true |};;
          actual_file_path ← lift (Path_with_suffix file_path ".png");
          created ← os_query (fun f => exists_ f actual_file_path);
          raise_if (negb created)
                   (FileOperationError "PNG file was not created successfully");;
          mret actual_file_path)
         (fun e => raise (FileOperationError
                            ("Failed to render PNG: " +:+ str_exn e)));
     logger INFO ("PNG file created: " +:+ Path_str actual_file_path);;
     mret ("PNG file successfully created: " +:+ Path_str actual_file_path
           +:+ " (" +:+ Py.str_int width +:+ "x" +:+ Py.str_int height
           +:+ " target size)"))
    (fun e =>
       logger ERROR ("Failed to generate PNG: " +:+ str_exn e);;
       if isinstance e [DOTSyntaxError_; FileOperationError_;
                        SecurityError_; ValueError_]
       then raise e
       else raise (FileOperationError
                     ("Failed to generate PNG: " +:+ str_exn e))).

End Server.

(** ** Auxiliary definitions of the statements *)

(** A character outside the class that [sanitize_filename] replaces. *)
Definition unreserved (c : ascii) : Prop := Py.mem c reserved_chars = false.

(** The name that [sanitize_filename] has before the fallback applies. *)
Definition stripped_name (x : string) : string :=
  Py.strip_chars ". " (re_sub_class reserved_chars "_" x).

(** The language of an optional pattern; [None] has no word. *)
Definition OMatches (o : option Re.regex) (l : list ascii) : Prop :=
  match o with Some r => Re.Matches r l | None => False end.

(** A run of whitespace characters. *)
Definition all_space (l : list ascii) : Prop := forallb Py.isspace l = true.

(** A run of word characters: the optional identifier of a graph. *)
Definition all_word (l : list ascii) : Prop := forallb Py.isword l = true.

(** [l] spells the keyword [w], upper or lower case. *)
Definition keyword_i (w : string) (l : list ascii) : Prop :=
  List.map Py.lower l = List.map Py.lower (Py.chars w).

(** The outer shape of a graph description, on the trimmed text: an
    optional [strict] followed by whitespace, then [graph] or [digraph],
    whitespace, an optional identifier, optional whitespace, and a body in
    braces that ends the text. *)
Definition outer_shape (t : string) : Prop :=
  exists (strict kw sep ident gap body : list ascii),
    Py.chars t = strict ++ kw ++ sep ++ ident ++ gap ++ ["{"%char] ++ body ++ ["}"%char]
    /\ (strict = []
        \/ exists k s, strict = k ++ s /\ keyword_i "strict" k
                       /\ s <> [] /\ all_space s)
    /\ (keyword_i "graph" kw \/ keyword_i "digraph" kw)
    /\ sep <> [] /\ all_space sep
    /\ all_word ident
    /\ all_space gap.

(** What the structural checks of [validate_dot_content] ask of a
    description: the outer shape after trimming, and as many opening as
    closing braces. *)
Definition structurally_valid (dot_content : string) : Prop :=
  outer_shape (Py.strip dot_content)
  /\ Py.count "{" dot_content = Py.count "}" dot_content.

(** The outer shape in the words of the specification: an optional
    [strict], then [graph] or [digraph] in any letter case, an optional
    identifier, then a body in braces that ends the text.  The words ask for
    no whitespace between the parts, so here any of it may be absent. *)
Definition spec_outer_shape (t : string) : Prop :=
  exists (strict gap0 kw gap1 ident gap2 body : list ascii),
    Py.chars t = strict ++ gap0 ++ kw ++ gap1 ++ ident ++ gap2
                 ++ ["{"%char] ++ body ++ ["}"%char]
    /\ (strict = [] \/ keyword_i "strict" strict)
    /\ all_space gap0
    /\ (keyword_i "graph" kw \/ keyword_i "digraph" kw)
    /\ all_space gap1
    /\ all_word ident
    /\ all_space gap2.

(** What [validate_dot_content] answers once the structural checks have
    passed: the verdict of [Source.pipe], its failure wrapped. *)
Definition pipe_verdict `{Platform} (dot_content : string) (f : FS)
  : result unit :=
  match Source_pipe dot_content f with
  | Ok _ => Ok tt
  | Err e => Err (DOTSyntaxError ("Invalid DOT syntax: " +:+ str_exn e))
  end.

(** A text without whitespace at either end. *)
Definition trimmed (l : list ascii) : Prop :=
  Py.lstrip_by Py.isspace l = l
  /\ Py.lstrip_by Py.isspace (rev l) = rev l.

(** A text free of the characters that [DOT_BASIC_VALIDATION] excludes. *)
Definition no_forbidden (s : string) : Prop :=
  forallb (fun c => negb (Py.mem c forbidden_chars)) (Py.chars s) = true.

(** [base] is [p] or an ancestor of [p]. *)
Definition within (base p : Path) : Prop := exists rest, p = base ++ rest.

(** The parts that [validate_path_security] warns about, and the warnings. *)
Definition suspicious (part : string) : bool :=
  Py.startswith part "." && (1 <? Py.len part)%nat.

Definition warnings (p : Path) : list (level * string) :=
  List.map (fun part => (WARNING, "Suspicious path component detected: " +:+ part))
           (List.filter suspicious (Path_parts p)).

Definition with_log (st : State) (entries : list (level * string)) : State :=
  {| fs := fs st; _output_directory := _output_directory st;
     log := log st ++ entries; renders := renders st |}.

(** A platform and states for the closed instances of the statements: the
    process runs in [/home/user], the temporary directory is [/tmp], the
    system refuses nothing for reasons of its own, the renderer's check
    accepts everything and its [render] writes the image. *)
Definition sample_render (c : render_call) (f : FS) : result string * FS :=
  let target := rc_filename c +:+ "." +:+ rc_format c in
  (Ok target, <[realpath [] target := File true "PNG"]> f).

Definition sample_platform : Platform :=
  {| getcwd := ["home"; "user"];
     gettempdir := ["tmp"];
     umask_w := true;
     mkdir_refused := fun _ _ => None;
     open_refused := fun _ _ => None;
     write_cut := fun _ _ _ => None;
     Source_pipe := fun _ _ => Ok "%PDF";
     Source_render := sample_render |}.

(** A platform whose umask leaves no write permission on what the process
    creates, and whose temporary directory [/tmp/x] is not there. *)
Definition sample_platform_umask : Platform :=
  {| getcwd := ["home"; "user"];
     gettempdir := ["tmp"; "x"];
     umask_w := false;
     mkdir_refused := fun _ _ => None;
     open_refused := fun _ _ => None;
     write_cut := fun _ _ _ => None;
     Source_pipe := fun _ _ => Ok "%PDF";
     Source_render := sample_render |}.

Definition sample_fs : FS :=
  <[["srv"; "ro"] := Dir false]>
    (<[["srv"] := Dir true]> (<[["tmp"] := Dir true]> ∅)).

Definition sample_state : State :=
  {| fs := sample_fs; _output_directory := None; log := []; renders := [] |}.

(** A well-formed filesystem: whatever exists lies in a directory. *)
Definition fs_wf (f : FS) : Prop :=
  forall q n, is_Some (f !! (q ++ [n])) -> is_dir f q = true.

(** The same, as a check on the entries of the map. *)
Definition fs_wfb (f : FS) : bool :=
  forallb (fun e => match rev (fst e) with
                    | [] => true
                    | _ :: rq => is_dir f (rev rq)
                    end)
          (map_to_list f).

(** What the outer handler of a tool re-raises for [e]: [e] itself when it
    is of one of the classes [keep], else a [FileOperationError] that wraps
    it. *)
Definition reraised (prefix : string) (keep : list exn_class) (e : exn) : exn :=
  if isinstance e keep then e
  else FileOperationError (prefix +:+ str_exn e).

(** The default output root. *)
Definition default_output_directory `{Platform} : Path :=
  gettempdir ++ ["mcp_graphviz_output"].

(** The steps of [generate_dot_file] after the description has been
    validated, up to the write; the answer is the path written. *)
Definition write_dot `{Platform} (dot_content filename : string) : M Path :=
  output_dir ← ensure_output_directory;
  let clean_filename := sanitize_filename filename in
  let clean_filename :=
    if negb (Py.endswith clean_filename ".dot")
    then clean_filename +:+ ".dot" else clean_filename in
  let file_path := Path_joinpath output_dir clean_filename in
  validate_path_security (Path_str file_path) (Some output_dir);;
  try_except
    (os_call (open_w_write umask_w file_path dot_content))
    (fun e => raise (FileOperationError
                       ("Failed to write DOT file: " +:+ str_exn e)));;
  mret file_path.

(** The steps of [generate_png] after the description and the dimensions
    have been checked, up to the check that the image exists; the answer
    is the path of the image.  Neither [width] nor [height] occurs. *)
Definition render_png `{Platform} (dot_content filename : string) : M Path :=
  output_dir ← ensure_output_directory;
  let clean_filename := sanitize_filename filename in
  let clean_filename :=
    if negb (Py.endswith clean_filename ".png")
    then clean_filename +:+ ".png" else clean_filename in
  let file_path := Path_joinpath output_dir clean_filename in
  validate_path_security (Path_str file_path) (Some output_dir);;
  try_except
    (stem ← lift (Path_with_suffix file_path "");
     source_render {| rc_source := dot_content; rc_format := "png";
                      rc_filename := Path_str stem;
                      rc_cleanup := true; rc_quiet_view := true |};;
     actual_file_path ← lift (Path_with_suffix file_path ".png");
     created ← os_query (fun f => exists_ f actual_file_path);
     raise_if (negb created)
              (FileOperationError "PNG file was not created successfully");;
     mret actual_file_path)
    (fun e => raise (FileOperationError
                       ("Failed to render PNG: " +:+ str_exn e))).

(** The confirmation that [generate_png] returns. *)
Definition png_message (actual_file_path : Path) (width height : Z) : string :=
  "PNG file successfully created: " +:+ Path_str actual_file_path
  +:+ " (" +:+ Py.str_int width +:+ "x" +:+ Py.str_int height
  +:+ " target size)".

(** The dimensions that [generate_png] refuses. *)
Definition bad_dimensions (width height : Z) : Prop :=
  width <= 0 \/ height <= 0 \/ 10000 < width \/ 10000 < height.

(** How a tool ends when [e] reaches its outer handler in state [s]. *)
Definition tool_failed (tool_prefix : string) (keep : list exn_class)
           (e : exn) (s : State) : result string * State :=
  (Err (reraised tool_prefix keep e),
   with_log s [(ERROR, tool_prefix +:+ str_exn e)]).

(** A name as it occurs in a canonical path: not empty, not [.] or [..],
    without slash and without NUL. *)
Definition proper_name (n : string) : bool :=
  is_name n && negb (String.eqb n "..")
  && negb (Py.mem "/" n) && negb (Py.mem "000" n).

(** A canonical path: [Path.resolve()] leaves it as it is. *)
Definition canonical (p : Path) : Prop := forallb proper_name p = true.

(** The density that [generate_png] derives from the dimensions:
    [min(width, height) / 5] clamped to 72..300. *)
Definition dpi_of (width height : Z) : Q :=
  let dpi := (inject_Z (Z.min width height) / inject_Z 5)%Q in
  Qmax (inject_Z 72) (Qmin (inject_Z 300) dpi).

(** The file name that [generate_dot_file] derives from [filename]. *)
Definition dot_filename (filename : string) : string :=
  let clean_filename := sanitize_filename filename in
  if negb (Py.endswith clean_filename ".dot")
  then clean_filename +:+ ".dot" else clean_filename.

(** ** Further notions for the properties of the tools *)

(** A name that [sanitize_filename] has nothing to do on: not empty, no
    reserved character, no dot or blank at either end. *)
Definition clean_name (x : string) : Prop :=
  x <> ""
  /\ Forall unreserved (Py.chars x)
  /\ Py.lstrip_by (fun c => Py.mem c ". ") (Py.chars x) = Py.chars x
  /\ Py.lstrip_by (fun c => Py.mem c ". ") (rev (Py.chars x))
     = rev (Py.chars x).

(** The file name that a tool derives from [filename] for the extension
    [ext]: the sanitized name, with [ext] appended unless it ends with it. *)
Definition ext_filename (ext filename : string) : string :=
  let clean_filename := sanitize_filename filename in
  if negb (Py.endswith clean_filename ext)
  then clean_filename +:+ ext else clean_filename.

(** The file name that [generate_png] derives from [filename]. *)
Definition png_filename (filename : string) : string :=
  ext_filename ".png" filename.

(** [f'] is [f] with directories added at [p] or above it, where [f] had
    nothing, and no other change. *)
Definition dirs_added (p : Path) (f f' : FS) : Prop :=
  forall q : Path,
    f' !! q = f !! q
    \/ (within q p /\ f !! q = None /\ exists w, f' !! q = Some (Dir w)).

(** The output root that a tool works with in state [st]. *)
Definition effective_root `{Platform} (st : State) : Path :=
  match _output_directory st with
  | None => default_output_directory
  | Some d => d
  end.

(** The name that [generate_png] hands to the renderer: the derived file
    name without its suffix. *)
Definition png_stem (filename : string) : string :=
  fst (split_suffix (png_filename filename)).

(** The [render] call that [generate_png] makes for an output root. *)
Definition png_render_call (root : Path) (dot_content filename : string)
  : render_call :=
  {| rc_source := dot_content; rc_format := "png";
     rc_filename := Path_str (root ++ [png_stem filename]);
     rc_cleanup := true; rc_quiet_view := true |}.

(** An output root that the path check accepts as it stands: canonical,
    and without forbidden characters. *)
Definition clean_root (d : Path) : Prop :=
  canonical d /\ no_forbidden (Path_str d).

(** The recorded output root, if there is one, is clean. *)
Definition root_ok (st : State) : Prop :=
  forall d, _output_directory st = Some d -> clean_root d.

(** The failure [e] of [run], started in [st], is in the log: after
    warnings at most, the last entry is an [ERROR] with [prefix] and the
    text of [e]. *)
Definition logged_as (prefix : string) (st : State)
           (run : result string * State) (e : exn) : Prop :=
  exists warned,
    Forall (fun entry => fst entry = WARNING) warned
    /\ log (snd run) = log st ++ warned ++ [(ERROR, prefix +:+ str_exn e)].

(** A state in which the output root has been set to [/srv]. *)
Definition sample_state_srv : State :=
  {| fs := sample_fs; _output_directory := Some ["srv"];
     log := []; renders := [] |}.

(* ===================================================================== *)
(** * Part II: lemmas and theorems *)
(* ===================================================================== *)

Example sanitize_ex1 : sanitize_filename "../a<b>.c " = "_a_b_.c".
Proof. reflexivity. Qed.

(** ** Strings *)

Section PyFacts.

Lemma chars_of_chars l : Py.chars (Py.of_chars l) = l.
Proof. apply list_ascii_of_string_of_list_ascii. Qed.

Lemma of_chars_chars s : Py.of_chars (Py.chars s) = s.
Proof. apply string_of_list_ascii_of_string. Qed.

Lemma chars_inj s t : Py.chars s = Py.chars t -> s = t.
Proof. intros E. rewrite <- (of_chars_chars s), E. apply of_chars_chars. Qed.

Lemma len_0 s : Py.len s = 0%nat <-> s = "".
Proof.
  unfold Py.len, Py.chars. destruct s; simpl; split; intros E; congruence.
Qed.

Variable p : ascii -> bool.

Lemma lstrip_by_app_keep a c :
  p c = false -> Py.lstrip_by p (a ++ [c]) = Py.lstrip_by p a ++ [c].
Proof.
  intros Hc. induction a as [|x a IH]; simpl.
  - now rewrite Hc.
  - destruct (p x); [exact IH | reflexivity].
Qed.

Lemma lstrip_by_fix l :
  Py.lstrip_by p l = l <-> match l with [] => True | c :: _ => p c = false end.
Proof.
  destruct l as [|c l]; simpl; [tauto|].
  destruct (p c) eqn:E; split; intros Hx; try congruence.
  exfalso. assert (Hlen : (length (Py.lstrip_by p l) <= length l)%nat).
  { clear. induction l as [|x l IH]; simpl; [lia|]. destruct (p x); simpl; lia. }
  rewrite Hx in Hlen. simpl in Hlen. lia.
Qed.

Lemma lstrip_by_idem l : Py.lstrip_by p (Py.lstrip_by p l) = Py.lstrip_by p l.
Proof.
  induction l as [|c l IH]; simpl; [reflexivity|].
  destruct (p c) eqn:E; [exact IH|]. simpl. now rewrite E.
Qed.

Lemma rstrip_by_keeps_head c l :
  p c = false -> exists l', Py.rstrip_by p (c :: l) = c :: l'.
Proof.
  intros Hc. unfold Py.rstrip_by. simpl rev.
  rewrite lstrip_by_app_keep by exact Hc.
  rewrite rev_app_distr. simpl. eauto.
Qed.

Lemma strip_by_idem l : Py.strip_by p (Py.strip_by p l) = Py.strip_by p l.
Proof.
  unfold Py.strip_by.
  assert (Hl : Py.lstrip_by p (Py.rstrip_by p (Py.lstrip_by p l))
               = Py.rstrip_by p (Py.lstrip_by p l)).
  { pose proof (lstrip_by_idem l) as Hi. apply lstrip_by_fix in Hi.
    destruct (Py.lstrip_by p l) as [|c m]; [reflexivity|].
    destruct (rstrip_by_keeps_head c m Hi) as [l' ->].
    apply lstrip_by_fix. exact Hi. }
  rewrite Hl. unfold Py.rstrip_by at 1 2.
  rewrite rev_involutive, lstrip_by_idem. reflexivity.
Qed.

Lemma lstrip_by_Forall (P : ascii -> Prop) l :
  Forall P l -> Forall P (Py.lstrip_by p l).
Proof.
  induction 1 as [|c l Hc Hl IH]; simpl; [constructor|].
  destruct (p c); [exact IH | now constructor].
Qed.

Lemma strip_by_Forall (P : ascii -> Prop) l :
  Forall P l -> Forall P (Py.strip_by p l).
Proof.
  intros Hl. unfold Py.strip_by, Py.rstrip_by.
  apply Forall_rev, lstrip_by_Forall, Forall_rev, lstrip_by_Forall, Hl.
Qed.

End PyFacts.

(** ** NameSanitizer *)

Lemma re_sub_class_chars cls repl s :
  Py.chars (re_sub_class cls repl s)
  = List.concat (List.map (fun c => if Py.mem c cls then Py.chars repl else [c])
                          (Py.chars s)).
Proof. apply chars_of_chars. Qed.

Lemma re_sub_reserved_unreserved s :
  Forall unreserved (Py.chars (re_sub_class reserved_chars "_" s)).
Proof.
  rewrite re_sub_class_chars.
  induction (Py.chars s) as [|c l IH]; simpl; [constructor|].
  apply Forall_app. split; [|exact IH].
  destruct (Py.mem c reserved_chars) eqn:E.
  - repeat constructor.
  - repeat constructor. exact E.
Qed.

Lemma concat_map_singletons {A} (f : A -> list A) (l : list A) :
  Forall (fun c => f c = [c]) l -> List.concat (List.map f l) = l.
Proof.
  induction 1 as [|c l Hc Hl IH]; [reflexivity|].
  cbn [List.map List.concat]. now rewrite Hc, IH.
Qed.

Lemma re_sub_reserved_id s :
  Forall unreserved (Py.chars s) -> re_sub_class reserved_chars "_" s = s.
Proof.
  intros Hs. apply chars_inj. rewrite re_sub_class_chars.
  apply concat_map_singletons.
  eapply Forall_impl; [exact Hs|].
  intros c Hc. unfold unreserved in Hc. now rewrite Hc.
Qed.

Lemma sanitize_filename_unfold x :
  sanitize_filename x
  = if (Py.len (stripped_name x) =? 0)%nat then "output" else stripped_name x.
Proof. reflexivity. Qed.

Lemma stripped_name_fixed x :
  stripped_name (stripped_name x) = stripped_name x.
Proof.
  unfold stripped_name at 1.
  rewrite re_sub_reserved_id.
  - unfold stripped_name, Py.strip_chars.
    rewrite chars_of_chars, strip_by_idem. reflexivity.
  - unfold stripped_name, Py.strip_chars. rewrite chars_of_chars.
    apply strip_by_Forall, re_sub_reserved_unreserved.
Qed.

(** C4. [sanitize_filename] is a total function on strings; applying it
    twice gives what applying it once gives; its result is never the empty
    string; the empty name and the name of three dots both give the
    fallback [output]. *)
Theorem sanitize_filename_idempotent :
  (forall x : string,
      sanitize_filename (sanitize_filename x) = sanitize_filename x)
  /\ (forall x : string, sanitize_filename x <> "")
  /\ sanitize_filename "" = "output"
  /\ sanitize_filename "..." = "output".
Proof.
  split; [|split; [|split; reflexivity]].
  - intros x. rewrite (sanitize_filename_unfold x).
    destruct (Py.len (stripped_name x) =? 0)%nat eqn:E; [reflexivity|].
    rewrite sanitize_filename_unfold, stripped_name_fixed, E. reflexivity.
  - intros x. rewrite sanitize_filename_unfold.
    destruct (Py.len (stripped_name x) =? 0)%nat eqn:E; [discriminate|].
    intros Hx. rewrite Hx in E. discriminate.
Qed.

(** ** Regular expressions: the matcher decides the language *)

Section ReFacts.

Import Re.

Lemma Matches_nil_nullable r : Matches r [] <-> nullable r = true.
Proof.
  split.
  - intros Hm. remember [] as l eqn:El.
    induction Hm; simpl; try reflexivity; try discriminate.
    + apply app_eq_nil in El as [-> ->].
      rewrite IHHm1, IHHm2; reflexivity.
    + rewrite IHHm by exact El. reflexivity.
    + rewrite IHHm by exact El. apply orb_true_r.
  - induction r as [|p|r1 IH1 r2 IH2|r1 IH1 r2 IH2|r IH]; simpl; intros Hn.
    + constructor.
    + discriminate.
    + apply andb_true_iff in Hn as [H1 H2].
      apply (MCat r1 r2 [] []); auto.
    + apply orb_true_iff in Hn as [H1|H2];
        [apply MAltL | apply MAltR]; auto.
    + constructor.
Qed.

Lemma Matches_Cat r1 r2 l :
  Matches (Cat r1 r2) l
  <-> exists l1 l2, l = l1 ++ l2 /\ Matches r1 l1 /\ Matches r2 l2.
Proof.
  split.
  - inversion 1; subst; eauto.
  - intros (l1 & l2 & -> & H1 & H2). now constructor.
Qed.

Lemma Matches_Alt r1 r2 l :
  Matches (Alt r1 r2) l <-> Matches r1 l \/ Matches r2 l.
Proof.
  split.
  - inversion 1; subst; auto.
  - intros [H1|H2]; [apply MAltL | apply MAltR]; assumption.
Qed.

Lemma Matches_Eps l : Matches Eps l <-> l = [].
Proof. split; [inversion 1; reflexivity | intros ->; constructor]. Qed.

Lemma Matches_Cls p l : Matches (Cls p) l <-> exists c, l = [c] /\ p c = true.
Proof.
  split.
  - inversion 1; subst; eauto.
  - intros (c & -> & Hc). now constructor.
Qed.

(** A non-empty word of [r*] starts with a non-empty word of [r]. *)
Lemma Matches_Star_cons r c l :
  Matches (Star r) (c :: l)
  <-> exists l1 l2, l = l1 ++ l2 /\ Matches r (c :: l1) /\ Matches (Star r) l2.
Proof.
  split.
  - intros Hm. remember (Star r) as s eqn:Es. remember (c :: l) as cl eqn:El.
    revert c l El.
    induction Hm as [| | | | | |r' l1 l2 H1 _ H2 IH2]; intros c0 l0 El;
      try discriminate.
    injection Es as ->.
    destruct l1 as [|x l1]; simpl in El.
    + apply IH2; [reflexivity | exact El].
    + injection El as -> <-. eauto.
  - intros (l1 & l2 & -> & H1 & H2).
    change (c :: l1 ++ l2) with ((c :: l1) ++ l2). now constructor.
Qed.

Lemma OMatches_cat_opt o r2 l :
  OMatches (cat_opt o r2) l
  <-> exists l1 l2, l = l1 ++ l2 /\ OMatches o l1 /\ Matches r2 l2.
Proof.
  destruct o as [r1|]; simpl.
  - apply Matches_Cat.
  - split; [tauto | intros (? & ? & _ & [] & _)].
Qed.

Lemma OMatches_alt_opt o1 o2 l :
  OMatches (alt_opt o1 o2) l <-> OMatches o1 l \/ OMatches o2 l.
Proof.
  destruct o1 as [r1|], o2 as [r2|]; simpl;
    rewrite ?Matches_Alt; tauto.
Qed.

Lemma deriv_Matches c r l : OMatches (deriv c r) l <-> Matches r (c :: l).
Proof.
  revert l.
  induction r as [|p|r1 IH1 r2 IH2|r1 IH1 r2 IH2|r IH]; intros l; simpl.
  - split; [tauto | inversion 1].
  - rewrite Matches_Cls. destruct (p c) eqn:E; simpl.
    + rewrite Matches_Eps. split.
      * intros ->. eauto.
      * intros (x & [= -> ->] & _). reflexivity.
    + split; [tauto|]. intros (x & [= -> ->] & Hx). congruence.
  - rewrite Matches_Cat.
    assert (Hsplit :
      (exists l1 l2, c :: l = l1 ++ l2 /\ Matches r1 l1 /\ Matches r2 l2)
      <-> (exists l1 l2, l = l1 ++ l2 /\ Matches r1 (c :: l1) /\ Matches r2 l2)
          \/ (nullable r1 = true /\ Matches r2 (c :: l))).
    { split.
      - intros (l1 & l2 & El & H1 & H2). destruct l1 as [|x l1]; simpl in El.
        + right. subst l2. split; [now apply Matches_nil_nullable | exact H2].
        + injection El as <- ->. left. eauto.
      - intros [(l1 & l2 & -> & H1 & H2) | [Hn H2]].
        + exists (c :: l1), l2. auto.
        + exists [], (c :: l). split; [reflexivity|].
          split; [now apply Matches_nil_nullable | exact H2]. }
    rewrite Hsplit. destruct (nullable r1) eqn:En.
    + rewrite OMatches_alt_opt, OMatches_cat_opt, IH2.
      split.
      * intros [(l1 & l2 & -> & H1 & H2) | H2]; [left | right; auto].
        exists l1, l2. rewrite <- IH1. auto.
      * intros [(l1 & l2 & -> & H1 & H2) | [_ H2]]; [left | right; auto].
        exists l1, l2. rewrite IH1. auto.
    + rewrite OMatches_cat_opt. split.
      * intros (l1 & l2 & -> & H1 & H2). left.
        exists l1, l2. rewrite <- IH1. auto.
      * intros [(l1 & l2 & -> & H1 & H2) | [Hn _]]; [|discriminate].
        exists l1, l2. rewrite IH1. auto.
  - rewrite OMatches_alt_opt, Matches_Alt, IH1, IH2. reflexivity.
  - rewrite OMatches_cat_opt, Matches_Star_cons.
    split; intros (l1 & l2 & -> & H1 & H2); exists l1, l2;
      [rewrite <- IH | rewrite IH]; auto.
Qed.

(** The matcher accepts exactly the words of the language. *)
Lemma accepts_Matches r l : accepts r l = true <-> Matches r l.
Proof.
  revert r. induction l as [|c l IH]; intros r; simpl.
  - symmetry. apply Matches_nil_nullable.
  - rewrite <- deriv_Matches. destruct (deriv c r) as [r'|]; simpl.
    + apply IH.
    + split; [discriminate | tauto].
Qed.

Lemma Matches_Star_Cls p l : Matches (Star (Cls p)) l <-> forallb p l = true.
Proof.
  induction l as [|c l IH]; simpl.
  - split; [reflexivity | constructor].
  - rewrite Matches_Star_cons, andb_true_iff, <- IH. split.
    + intros (l1 & l2 & -> & H1 & H2).
      apply Matches_Cls in H1 as (x & [= -> ->] & Hx). auto.
    + intros [Hc Hl]. exists [], l. split; [reflexivity|].
      split; [now constructor | exact Hl].
Qed.

Lemma Matches_Plus_Cls p l :
  Matches (Plus (Cls p)) l <-> l <> [] /\ forallb p l = true.
Proof.
  unfold Plus. rewrite Matches_Cat. split.
  - intros (l1 & l2 & -> & H1 & H2).
    apply Matches_Cls in H1 as (x & -> & Hx).
    apply Matches_Star_Cls in H2. simpl. rewrite Hx, H2. split; [discriminate | reflexivity].
  - intros [Hne Hl]. destruct l as [|c l]; [congruence|].
    simpl in Hl. apply andb_true_iff in Hl as [Hc Hl].
    exists [c], l. split; [reflexivity|].
    split; [now constructor | now apply Matches_Star_Cls].
Qed.

Lemma Matches_Opt r l : Matches (Opt r) l <-> Matches r l \/ l = [].
Proof. unfold Opt. now rewrite Matches_Alt, Matches_Eps. Qed.

Lemma Matches_chr c l : Matches (chr c) l <-> l = [c].
Proof.
  unfold chr. rewrite Matches_Cls. split.
  - intros (x & -> & Hx). apply Ascii.eqb_eq in Hx. now subst.
  - intros ->. exists c. split; [reflexivity | apply Ascii.eqb_refl].
Qed.

Lemma Matches_Lit_i w l : Matches (Lit_i w) l <-> keyword_i w l.
Proof.
  unfold Lit_i, keyword_i. revert l.
  induction (Py.chars w) as [|c cs IH]; intros l; simpl.
  - rewrite Matches_Eps. destruct l; simpl; split; congruence.
  - rewrite Matches_Cat. split.
    + intros (l1 & l2 & -> & H1 & H2).
      apply Matches_Cls in H1 as (x & -> & Hx). apply Ascii.eqb_eq in Hx.
      apply IH in H2. simpl. congruence.
    + destruct l as [|x l]; simpl; [discriminate|].
      intros [= Hx Hl]. exists [x], l. split; [reflexivity|]. split.
      * constructor. rewrite Hx. apply Ascii.eqb_refl.
      * now apply IH.
Qed.

End ReFacts.

(** ** ContentValidator *)

Lemma strip_by_lstrip_fix p l :
  Py.lstrip_by p (Py.strip_by p l) = Py.strip_by p l.
Proof.
  unfold Py.strip_by.
  pose proof (lstrip_by_idem p l) as Hi. apply lstrip_by_fix in Hi.
  destruct (Py.lstrip_by p l) as [|c m]; [reflexivity|].
  destruct (rstrip_by_keeps_head p c m Hi) as [l' ->].
  apply lstrip_by_fix. exact Hi.
Qed.

Lemma strip_by_rstrip_fix p l :
  Py.lstrip_by p (rev (Py.strip_by p l)) = rev (Py.strip_by p l).
Proof.
  unfold Py.strip_by, Py.rstrip_by.
  rewrite rev_involutive. apply lstrip_by_idem.
Qed.

Lemma strip_trimmed d : trimmed (Py.chars (Py.strip d)).
Proof.
  unfold Py.strip. rewrite chars_of_chars.
  split; [apply strip_by_lstrip_fix | apply strip_by_rstrip_fix].
Qed.

(** On a trimmed text the final newline that [$] tolerates cannot occur. *)
Lemma match_anchored_trimmed r t :
  trimmed (Py.chars t) ->
  Re.match_anchored r t = Re.accepts r (Py.chars t).
Proof.
  intros [_ Hr]. unfold Re.match_anchored.
  destruct (rev (Py.chars t)) as [|c rl] eqn:E; [apply orb_false_r|].
  apply lstrip_by_fix in Hr.
  destruct (Ascii.eqb c "010") eqn:Ec; [|apply orb_false_r].
  apply Ascii.eqb_eq in Ec. subst c. discriminate Hr.
Qed.

Lemma trimmed_no_leading_space s l :
  all_space s -> trimmed (s ++ l) -> l <> [] -> s = [].
Proof.
  intros Hs [Hl _] Hne. destruct s as [|c s]; [reflexivity|].
  apply lstrip_by_fix in Hl. simpl in Hl.
  unfold all_space in Hs. simpl in Hs. rewrite Hl in Hs. discriminate.
Qed.

Lemma trimmed_no_trailing_space s l :
  all_space s -> trimmed (l ++ s) -> s = [].
Proof.
  intros Hs [_ Hr]. rewrite rev_app_distr in Hr.
  destruct (rev s) as [|c rs] eqn:E.
  - apply (f_equal (@rev ascii)) in E. rewrite rev_involutive in E. exact E.
  - apply lstrip_by_fix in Hr. simpl in Hr.
    assert (Hc : Py.isspace c = true).
    { unfold all_space in Hs. rewrite forallb_forall in Hs.
      apply Hs. apply in_rev. rewrite E. now left. }
    congruence.
Qed.

(** The compiled pattern accepts a trimmed text exactly when the text has
    the outer shape. *)
Lemma DOT_GRAPH_PATTERN_shape t :
  trimmed (Py.chars t) ->
  Re.Matches DOT_GRAPH_PATTERN (Py.chars t) <-> outer_shape t.
Proof.
  intros Ht. unfold DOT_GRAPH_PATTERN, outer_shape. split.
  - intros Hm.
    apply Matches_Cat in Hm as (s0 & l1 & E0 & H0 & Hm).
    apply Matches_Cat in Hm as (o & l2 & E1 & Ho & Hm).
    apply Matches_Cat in Hm as (kw & l3 & E2 & Hkw & Hm).
    apply Matches_Cat in Hm as (sep & l4 & E3 & Hsep & Hm).
    apply Matches_Cat in Hm as (ident & l5 & E4 & Hid & Hm).
    apply Matches_Cat in Hm as (gap & l6 & E5 & Hgap & Hm).
    apply Matches_Cat in Hm as (ob & l7 & E6 & Hob & Hm).
    apply Matches_Cat in Hm as (body & l8 & E7 & Hbody & Hm).
    apply Matches_Cat in Hm as (cb & tail & E8 & Hcb & Htail).
    apply Matches_chr in Hob, Hcb. subst ob cb.
    apply Matches_Star_Cls in H0, Hid, Hgap, Htail.
    apply Matches_Plus_Cls in Hsep as [Hsep1 Hsep2].
    subst l8 l7 l6 l5 l4 l3 l2 l1.
    assert (tail = []) as ->.
    { rewrite E0 in Ht. repeat rewrite app_assoc in Ht.
      eapply trimmed_no_trailing_space; [exact Htail | exact Ht]. }
    assert (s0 = []) as ->.
    { rewrite E0 in Ht.
      eapply trimmed_no_leading_space; [exact H0 | exact Ht |].
      destruct o, kw, sep; simpl; congruence. }
    exists o, kw, sep, ident, gap, body.
    split; [rewrite E0; reflexivity|].
    split.
    { apply Matches_Opt in Ho as [Ho | ->]; [right | now left].
      apply Matches_Cat in Ho as (k & s & -> & Hk & Hs).
      apply Matches_Lit_i in Hk.
      apply Matches_Plus_Cls in Hs as [Hs1 Hs2]. eauto 6. }
    split.
    { apply Matches_Alt in Hkw as [Hk | Hk]; apply Matches_Lit_i in Hk; auto. }
    auto.
  - intros (o & kw & sep & ident & gap & body & E & Ho & Hkw & Hsep1 & Hsep2
            & Hid & Hgap).
    rewrite E.
    change (o ++ kw ++ sep ++ ident ++ gap ++ ["{"%char] ++ body ++ ["}"%char])
      with ([] ++ o ++ kw ++ sep ++ ident ++ gap ++ ["{"%char] ++ body ++ ["}"%char]).
    replace ["}"%char] with (["}"%char] ++ @nil ascii) by reflexivity.
    repeat apply Re.MCat.
    + constructor.
    + apply Matches_Opt. destruct Ho as [-> | (k & s & -> & Hk & Hs1 & Hs2)];
        [now right | left].
      apply Re.MCat; [now apply Matches_Lit_i | now apply Matches_Plus_Cls].
    + apply Matches_Alt. destruct Hkw as [Hk | Hk]; [left | right];
        now apply Matches_Lit_i.
    + now apply Matches_Plus_Cls.
    + now apply Matches_Star_Cls.
    + now apply Matches_Star_Cls.
    + now apply Matches_chr.
    + apply Matches_Star_Cls. clear. induction body; simpl; auto.
    + now apply Matches_chr.
    + constructor.
Qed.

Section ContentValidator.

Context `{Platform}.

Lemma validate_dot_content_unfold d st :
  validate_dot_content d st
  = if (Py.len (Py.strip d) =? 0)%nat
    then (Err (DOTSyntaxError "DOT content is empty"), st)
    else if negb (Re.match_anchored DOT_GRAPH_PATTERN (Py.strip d))
    then (Err (DOTSyntaxError "DOT content does not match basic graph syntax"), st)
    else if negb (Py.count "{" d =? Py.count "}" d)%nat
    then (Err (DOTSyntaxError "Unbalanced braces in DOT content"), st)
    else (pipe_verdict d (fs st), st).
Proof.
  unfold validate_dot_content, pipe_verdict, mbind, M_bind, raise_if,
    try_except, source_pipe, raise, mret, M_ret.
  destruct (Py.len (Py.strip d) =? 0)%nat; [reflexivity|].
  destruct (Re.match_anchored DOT_GRAPH_PATTERN (Py.strip d)); [|reflexivity].
  destruct (Py.count "{" d =? Py.count "}" d)%nat; [|reflexivity].
  simpl. destruct (Source_pipe d (fs st)); reflexivity.
Qed.

Lemma structurally_valid_checks d :
  structurally_valid d
  <-> (Py.len (Py.strip d) =? 0)%nat = false
      /\ Re.match_anchored DOT_GRAPH_PATTERN (Py.strip d) = true
      /\ (Py.count "{" d =? Py.count "}" d)%nat = true.
Proof.
  unfold structurally_valid.
  rewrite (match_anchored_trimmed _ _ (strip_trimmed d)).
  rewrite accepts_Matches, (DOT_GRAPH_PATTERN_shape _ (strip_trimmed d)).
  rewrite Nat.eqb_eq. split.
  - intros [Hs Hc]. split; [|auto].
    destruct Hs as (o & kw & sep & ident & gap & body & E & _).
    unfold Py.len. rewrite E. apply Nat.eqb_neq.
    repeat rewrite length_app. simpl. lia.
  - tauto.
Qed.

(** The structural checks of [validate_dot_content] as the pattern is
    written.  They pass exactly the descriptions that, once trimmed, have
    the outer shape
    [strict]? [graph|digraph] identifier? [{ body }], any letter case in the
    keywords, at least one whitespace character after [strict] and after
    the graph keyword, the identifier a run of word characters, the closing
    brace ending the text, and as many opening as closing braces.  For those
    the answer is the one of the renderer's check; all others are rejected
    with [DOTSyntaxError] by one of the three structural checks.  The empty
    text, [not a graph], [digraph { ] and the compact [digraph{a->b}] are
    rejected; [digraph G { a -> b; }] goes to the renderer's check. *)
Theorem validate_dot_content_outer_shape :
  (forall d st, structurally_valid d ->
                validate_dot_content d st = (pipe_verdict d (fs st), st))
  /\ (forall d st, ~ structurally_valid d ->
        exists m, validate_dot_content d st = (Err (DOTSyntaxError m), st)
                  /\ In m ["DOT content is empty";
                           "DOT content does not match basic graph syntax";
                           "Unbalanced braces in DOT content"])
  /\ (forall st, validate_dot_content "" st
                 = (Err (DOTSyntaxError "DOT content is empty"), st))
  /\ (forall st, validate_dot_content "not a graph" st
                 = (Err (DOTSyntaxError
                      "DOT content does not match basic graph syntax"), st))
  /\ (forall st, validate_dot_content "digraph { " st
                 = (Err (DOTSyntaxError
                      "DOT content does not match basic graph syntax"), st))
  /\ (forall st, validate_dot_content "digraph{a->b}" st
                 = (Err (DOTSyntaxError
                      "DOT content does not match basic graph syntax"), st))
  /\ (forall st, validate_dot_content "digraph G { a -> b; }" st
                 = (pipe_verdict "digraph G { a -> b; }" (fs st), st)).
Proof.
  split; [|split; [|repeat split; intros st;
                    rewrite validate_dot_content_unfold; reflexivity]].
  - intros d st Hv. apply structurally_valid_checks in Hv as (H1 & H2 & H3).
    rewrite validate_dot_content_unfold, H1, H2, H3. reflexivity.
  - intros d st Hv. rewrite validate_dot_content_unfold.
    destruct (Py.len (Py.strip d) =? 0)%nat eqn:H1.
    { eexists. split; [reflexivity | simpl; auto]. }
    destruct (Re.match_anchored DOT_GRAPH_PATTERN (Py.strip d)) eqn:H2; simpl.
    2: { eexists. split; [reflexivity | simpl; auto]. }
    destruct (Py.count "{" d =? Py.count "}" d)%nat eqn:H3; simpl.
    2: { eexists. split; [reflexivity | simpl; auto]. }
    exfalso. apply Hv. apply structurally_valid_checks. auto.
Qed.

(** C2. [validate_dot_content] evaluated at [digraph{a->b}]: the text has
    the outer shape in the words of the specification (the keyword, no
    identifier, a body in braces that ends the text) and as many opening as
    closing braces, and on every platform and in every state the structural
    check refuses it with [DOTSyntaxError], before the renderer is asked.
    With one blank after the keyword the same text passes the three
    structural checks and gets the answer of the renderer's check. *)
Theorem validate_dot_content_compact (st : State) :
  spec_outer_shape (Py.strip "digraph{a->b}")
  /\ Py.count "{" "digraph{a->b}" = Py.count "}" "digraph{a->b}"
  /\ validate_dot_content "digraph{a->b}" st
     = (Err (DOTSyntaxError "DOT content does not match basic graph syntax"),
        st)
  /\ validate_dot_content "digraph {a->b}" st
     = (pipe_verdict "digraph {a->b}" (fs st), st).
Proof.
  split; [|split; [reflexivity|split]].
  - exists [], [], (Py.chars "digraph"), [], [], [], (Py.chars "a->b").
    repeat split; auto. now right.
  - rewrite validate_dot_content_unfold. reflexivity.
  - rewrite validate_dot_content_unfold. reflexivity.
Qed.

End ContentValidator.

(** What the pattern accepts has the shape that the specification
    words. *)
Lemma outer_shape_spec_outer_shape t : outer_shape t -> spec_outer_shape t.
Proof.
  intros (o & kw & sep & ident & gap & body & E & Ho & Hkw & _ & Hsep
          & Hid & Hgap).
  destruct Ho as [-> | (k & s & -> & Hk & _ & Hs)].
  - exists [], [], kw, sep, ident, gap, body.
    repeat split; auto.
  - exists k, s, kw, sep, ident, gap, body.
    rewrite <- app_assoc in E. repeat split; auto.
Qed.

Lemma validate_dot_content_outer_shape_witness :
  @validate_dot_content sample_platform "digraph G { a -> b; }" sample_state
  = (Ok tt, sample_state).
Proof.
  apply (proj1 (@validate_dot_content_outer_shape sample_platform)
               "digraph G { a -> b; }" sample_state).
  split; [|reflexivity].
  exists [], (Py.chars "digraph"), (Py.chars " "), (Py.chars "G"),
    (Py.chars " "), (Py.chars " a -> b; ").
  repeat split; try reflexivity; try discriminate.
  - now left.
  - now right.
Defined.

(** ** PathGuard *)

Lemma is_prefix_of_within base p : is_prefix_of base p = true <-> within base p.
Proof.
  unfold within. revert p. induction base as [|b base IH]; intros p; simpl.
  - split; eauto.
  - destruct p as [|n p].
    + split; [discriminate | intros [rest Hr]; discriminate].
    + rewrite andb_true_iff, String.eqb_eq, IH. split.
      * intros [-> [rest ->]]. eauto.
      * intros [rest [= -> ->]]. eauto.
Qed.

(** The pattern of forbidden characters accepts exactly the texts without
    them; the newline that [$] tolerates is not one of them. *)
Lemma DOT_BASIC_VALIDATION_spec s :
  Re.match_anchored DOT_BASIC_VALIDATION s = true <-> no_forbidden s.
Proof.
  unfold Re.match_anchored, DOT_BASIC_VALIDATION, no_forbidden.
  set (q := fun c => negb (Py.mem c forbidden_chars)).
  assert (Hacc : forall l, Re.accepts (Re.Star (Re.Cls q)) l = true
                           <-> forallb q l = true).
  { intros l. now rewrite accepts_Matches, Matches_Star_Cls. }
  rewrite orb_true_iff, Hacc. split; [|auto].
  intros [Hl | Hnl]; [exact Hl|].
  destruct (rev (Py.chars s)) as [|c rl] eqn:E; [discriminate|].
  apply andb_true_iff in Hnl as [Hc Hrl].
  apply Ascii.eqb_eq in Hc. subst c. apply Hacc in Hrl.
  apply (f_equal (@rev ascii)) in E. rewrite rev_involutive in E.
  rewrite E. simpl. rewrite forallb_app, Hrl. reflexivity.
Qed.

Lemma with_log_nil st : with_log st [] = st.
Proof. destruct st. unfold with_log. simpl. now rewrite app_nil_r. Qed.

Lemma with_log_app st a b : with_log (with_log st a) b = with_log st (a ++ b).
Proof. unfold with_log. simpl. now rewrite app_assoc. Qed.

Lemma for_each_warnings parts (body : string -> M unit) st :
  (forall part s,
      body part s
      = (Ok tt,
         with_log s
           (if suspicious part
            then [(WARNING, "Suspicious path component detected: " +:+ part)]
            else []))) ->
  for_each parts body st
  = (Ok tt,
     with_log st
       (List.map (fun part =>
                    (WARNING, "Suspicious path component detected: " +:+ part))
                 (List.filter suspicious parts))).
Proof.
  intros Hbody. revert st. induction parts as [|part parts IH]; intros st.
  - simpl. now rewrite with_log_nil.
  - cbn [for_each List.filter]. unfold mbind, M_bind.
    rewrite Hbody, IH, with_log_app.
    destruct (suspicious part); reflexivity.
Qed.

(** Unfolding of the monad operations, for running a definition step by
    step. *)
Ltac run_monad :=
  cbv [mbind M_bind mret M_ret try_except try_except_class raise raise_if
       lift os_call os_query logger get_output_directory
       set_output_directory with_fs].

Section PathGuard.

Context `{Platform}.

Lemma validate_path_security_unfold file_path base st :
  validate_path_security file_path base st
  = if Py.mem "000" file_path
    then (Err (SecurityError
                 "Path validation failed: embedded null byte"), st)
    else
      let path := realpath getcwd file_path in
      if negb (Re.match_anchored DOT_BASIC_VALIDATION (Path_str path))
      then (Err (SecurityError "Path contains invalid characters"), st)
      else
        match base with
        | None => (Ok path, with_log st (warnings path))
        | Some base_directory =>
            if Py.mem "000" (Path_str base_directory)
            then (Err (SecurityError
                         "Path validation failed: embedded null byte"), st)
            else
              let base_resolved := realpath getcwd (Path_str base_directory) in
              if is_prefix_of base_resolved path
              then (Ok path, with_log st (warnings path))
              else (Err (SecurityError
                      ("Path '" +:+ Path_str path
                       +:+ "' is outside allowed directory '"
                       +:+ Path_str base_resolved +:+ "'")), st)
        end.
Proof.
  assert (Hwarn : forall (path : Path) s,
    for_each (Path_parts path)
      (fun part =>
         if Py.startswith part "." && (1 <? Py.len part)%nat
         then logger WARNING ("Suspicious path component detected: " +:+ part)
         else mret tt) s
    = (Ok tt, with_log s (warnings path))).
  { intros path s. apply for_each_warnings. intros part s'.
    unfold suspicious. destruct (Py.startswith part "." && _).
    - reflexivity.
    - unfold mret, M_ret. now rewrite with_log_nil. }
  revert Hwarn.
  unfold validate_path_security, Path_resolve, Path_resolve_str,
    Path_relative_to.
  run_monad. intros Hwarn.
  destruct (Py.mem "000" file_path); [reflexivity|].
  destruct (Re.match_anchored DOT_BASIC_VALIDATION
              (Path_str (realpath getcwd file_path))); [|reflexivity].
  cbn [negb]. destruct base as [base_directory|].
  - destruct (Py.mem "000" (Path_str base_directory)); [reflexivity|].
    destruct (is_prefix_of (realpath getcwd (Path_str base_directory))
                (realpath getcwd file_path)).
    + rewrite Hwarn. reflexivity.
    + reflexivity.
  - rewrite Hwarn. reflexivity.
Qed.

End PathGuard.

(** ** Canonical paths are fixed by [resolve] *)

Lemma chars_append a b : Py.chars (a +:+ b) = Py.chars a ++ Py.chars b.
Proof.
  unfold Py.chars. induction a as [|c a IH]; simpl; [reflexivity|].
  now rewrite IH.
Qed.

Lemma mem_append c a b : Py.mem c (a +:+ b) = Py.mem c a || Py.mem c b.
Proof. unfold Py.mem. now rewrite chars_append, existsb_app. Qed.

Lemma split_on_sep_free sep w :
  existsb (Ascii.eqb sep) w = false -> Py.split_on sep w = [w].
Proof.
  induction w as [|c w IH]; simpl; [reflexivity|].
  intros Hw. apply orb_false_iff in Hw as [Hc Hw].
  rewrite Ascii.eqb_sym, Hc, (IH Hw). reflexivity.
Qed.

Lemma split_on_app_sep sep w l :
  existsb (Ascii.eqb sep) w = false ->
  Py.split_on sep (w ++ sep :: l) = w :: Py.split_on sep l.
Proof.
  induction w as [|c w IH]; simpl.
  - intros _. now rewrite Ascii.eqb_refl.
  - intros Hw. apply orb_false_iff in Hw as [Hc Hw].
    rewrite Ascii.eqb_sym, Hc, (IH Hw). reflexivity.
Qed.

Lemma proper_name_step acc n :
  proper_name n = true -> realpath_step acc n = acc ++ [n].
Proof.
  unfold proper_name, realpath_step. intros Hn.
  apply andb_true_iff in Hn as [Hn _]. apply andb_true_iff in Hn as [Hn _].
  apply andb_true_iff in Hn as [Hn Hdd].
  rewrite Hn. apply negb_true_iff in Hdd. rewrite Hdd. reflexivity.
Qed.

Lemma proper_name_no_slash n :
  proper_name n = true -> existsb (Ascii.eqb "/") (Py.chars n) = false.
Proof.
  unfold proper_name. intros Hn.
  apply andb_true_iff in Hn as [Hn _]. apply andb_true_iff in Hn as [_ Hs].
  now apply negb_true_iff in Hs.
Qed.

(** Walking the text of a canonical path appends its names. *)
Lemma realpath_walk_join p : canonical p -> forall acc,
  (forall t,
      List.fold_left realpath_step
        (List.map Py.of_chars
           (Py.split_on "/" (Py.chars (Py.join "/" p) ++ "/"%char :: t))) acc
      = List.fold_left realpath_step
          (List.map Py.of_chars (Py.split_on "/" t)) (acc ++ p))
  /\ List.fold_left realpath_step
       (List.map Py.of_chars (Py.split_on "/" (Py.chars (Py.join "/" p)))) acc
     = acc ++ p.
Proof.
  unfold canonical. induction p as [|n p IH]; intros Hp acc.
  - simpl. rewrite app_nil_r. split; [intros t|]; reflexivity.
  - cbn [forallb] in Hp. apply andb_true_iff in Hp as [Hn Hp].
    pose proof (proper_name_no_slash n Hn) as Hs.
    pose proof (proper_name_step acc n Hn) as Hstep.
    destruct p as [|n2 p].
    + cbn [Py.join]. split; [intros t|].
      * rewrite (split_on_app_sep _ _ _ Hs). cbn [List.map List.fold_left].
        now rewrite of_chars_chars, Hstep.
      * rewrite (split_on_sep_free _ _ Hs). cbn [List.map List.fold_left].
        now rewrite of_chars_chars, Hstep.
    + specialize (IH Hp (acc ++ [n])). destruct IH as [IH1 IH2].
      change (Py.join "/" (n :: n2 :: p))
        with (n +:+ "/" +:+ Py.join "/" (n2 :: p)).
      rewrite !chars_append. change (Py.chars "/") with ["/"%char].
      split; [intros t|].
      * rewrite <- !app_assoc. cbn [app].
        rewrite (split_on_app_sep _ _ _ Hs). cbn [List.map List.fold_left].
        rewrite of_chars_chars, Hstep, IH1, <- app_assoc. reflexivity.
      * cbn [app].
        rewrite (split_on_app_sep _ _ _ Hs). cbn [List.map List.fold_left].
        rewrite of_chars_chars, Hstep, IH2, <- app_assoc. reflexivity.
Qed.

Lemma Path_str_startswith p s : Py.startswith (Path_str p +:+ s) "/" = true.
Proof. reflexivity. Qed.

(** [resolve] of a canonical path followed by more text walks that text
    from the path. *)
Lemma realpath_canonical_then cwd p rest :
  canonical p ->
  realpath cwd (Path_str p +:+ "/" +:+ rest)
  = List.fold_left realpath_step (Py.split "/" rest) p.
Proof.
  intros Hp. unfold realpath. rewrite Path_str_startswith.
  unfold Py.split, Path_str. rewrite !chars_append.
  change (Py.chars "/") with ["/"%char]. cbn [app Py.split_on Ascii.eqb].
  change (Ascii.eqb "/" "/") with true. cbn iota.
  cbn [List.map List.fold_left].
  change (realpath_step [] (Py.of_chars [])) with (@nil string).
  apply (proj1 (realpath_walk_join p Hp [])).
Qed.

Lemma realpath_canonical cwd p : canonical p -> realpath cwd (Path_str p) = p.
Proof.
  intros Hp. unfold realpath.
  change (Py.startswith (Path_str p) "/") with true. cbn iota.
  unfold Py.split, Path_str. rewrite chars_append.
  change (Py.chars "/") with ["/"%char]. cbn [app Py.split_on].
  change (Ascii.eqb "/" "/") with true. cbn iota.
  cbn [List.map List.fold_left].
  change (realpath_step [] (Py.of_chars [])) with (@nil string).
  apply (proj2 (realpath_walk_join p Hp [])).
Qed.

Lemma canonical_no_NUL p : canonical p -> Py.mem "000" (Path_str p) = false.
Proof.
  unfold canonical, Path_str. intros Hp. rewrite mem_append.
  change (Py.mem "000" "/") with false. cbn [orb].
  induction p as [|n p IH]; [reflexivity|].
  cbn [forallb] in Hp. apply andb_true_iff in Hp as [Hn Hp].
  assert (Hnul : Py.mem "000" n = false).
  { unfold proper_name in Hn. apply andb_true_iff in Hn as [_ Hn].
    now apply negb_true_iff in Hn. }
  destruct p as [|n2 p]; [exact Hnul|].
  change (Py.join "/" (n :: n2 :: p))
    with (n +:+ "/" +:+ Py.join "/" (n2 :: p)).
  rewrite !mem_append, Hnul, (IH Hp). reflexivity.
Qed.

(** The text of a path is free of forbidden characters when its names
    are. *)
Lemma no_forbidden_Path_str p :
  no_forbidden (Path_str p) <-> Forall no_forbidden p.
Proof.
  unfold no_forbidden, Path_str. rewrite chars_append.
  change (Py.chars "/") with ["/"%char]. cbn [app forallb].
  change (negb (Py.mem "/" forbidden_chars)) with true. cbn [andb].
  induction p as [|n p IH].
  - split; [constructor | reflexivity].
  - destruct p as [|n2 p].
    + cbn [Py.join]. split.
      * intros Hn. repeat constructor. exact Hn.
      * inversion 1; assumption.
    + change (Py.join "/" (n :: n2 :: p))
        with (n +:+ "/" +:+ Py.join "/" (n2 :: p)).
      rewrite !chars_append, !forallb_app.
      change (forallb _ (Py.chars "/")) with true. cbn [andb].
      rewrite andb_true_iff, IH. split.
      * intros [Hn Hp]. now constructor.
      * inversion 1; auto.
Qed.

Section PathGuardTheorems.

Context `{Platform}.

Lemma Path_resolve_str_Ok s c :
  Path_resolve_str s = Ok c <-> Py.mem "000" s = false /\ c = realpath getcwd s.
Proof.
  unfold Path_resolve_str. destruct (Py.mem "000" s); split.
  - discriminate.
  - intros [? _]. discriminate.
  - intros [= <-]. auto.
  - intros [_ ->]. reflexivity.
Qed.

(** What [validate_path_security] leaves behind: only warnings are added
    to the log. *)
Lemma validate_path_security_state file_path base st r st' :
  validate_path_security file_path base st = (r, st') ->
  exists entries, st' = with_log st entries.
Proof.
  rewrite validate_path_security_unfold. cbv zeta.
  repeat case_match; intros [= <- <-];
    solve [ exists []; now rewrite with_log_nil | eauto ].
Qed.

Lemma validate_path_security_raises file_path base st e st' :
  validate_path_security file_path base st = (Err e, st') ->
  exists m, e = SecurityError m.
Proof.
  rewrite validate_path_security_unfold. cbv zeta.
  repeat case_match; intros [= <- <-]; eauto.
Qed.

(** C1, amended. [validate_path_security P (Some R)] succeeds and returns the
    canonical form of [P] exactly when that canonical form exists, contains
    none of the characters [< > | * ?], and is the canonical form of [R] or
    lies below it; every failure is a [SecurityError].  The forbidden
    characters are looked for in the canonical form of [P], not in [P]
    itself.  The two instances are stated for paths that [resolve] only
    normalises, as it does where no symbolic link lies on them: when
    [resolve] leaves [R] as it is and takes [R/sub/file] to itself, and [R]
    has no forbidden character, [R/sub/file] is accepted; when [resolve]
    leaves [R] as it is and takes [R/../../etc/passwd] to [etc/passwd] under
    the grandparent of [R], that path is refused unless it is [R] or lies
    below [R]. *)
Theorem validate_path_security_confines :
  (forall P R st c,
      (exists st', validate_path_security P (Some R) st = (Ok c, st'))
      <-> (Path_resolve_str P = Ok c
           /\ no_forbidden (Path_str c)
           /\ exists b, Path_resolve R = Ok b /\ within b c))
  /\ (forall P R st e st',
         validate_path_security P (Some R) st = (Err e, st') ->
         exists m, e = SecurityError m)
  /\ (forall R st,
         Path_resolve R = Ok R ->
         Path_resolve_str (Path_str R +:+ "/sub/file")
         = Ok (R ++ ["sub"; "file"]) ->
         no_forbidden (Path_str R) ->
         fst (validate_path_security (Path_str R +:+ "/sub/file") (Some R) st)
         = Ok (R ++ ["sub"; "file"]))
  /\ (forall R st,
         Path_resolve R = Ok R ->
         Path_resolve_str (Path_str R +:+ "/../../etc/passwd")
         = Ok (removelast (removelast R) ++ ["etc"; "passwd"]) ->
         ~ within R (removelast (removelast R) ++ ["etc"; "passwd"]) ->
         exists m,
           fst (validate_path_security (Path_str R +:+ "/../../etc/passwd")
                                       (Some R) st)
           = Err (SecurityError m)).
Proof.
  split; [|split; [|split]].
  - intros P R st c. rewrite Path_resolve_str_Ok.
    rewrite validate_path_security_unfold. cbv zeta.
    split.
    + intros [st' Hv].
      destruct (Py.mem "000" P); [discriminate|].
      destruct (Re.match_anchored DOT_BASIC_VALIDATION
                  (Path_str (realpath getcwd P))) eqn:Hm; [|discriminate].
      cbn [negb] in Hv.
      destruct (Py.mem "000" (Path_str R)) eqn:HR; [discriminate|].
      destruct (is_prefix_of (realpath getcwd (Path_str R))
                  (realpath getcwd P)) eqn:Hp; [|discriminate].
      injection Hv as <- <-.
      split; [auto|]. split; [now apply DOT_BASIC_VALIDATION_spec|].
      exists (realpath getcwd (Path_str R)). split.
      * unfold Path_resolve. apply Path_resolve_str_Ok. auto.
      * now apply is_prefix_of_within.
    + intros ([-> ->] & Hf & b & Hb & Hw).
      apply DOT_BASIC_VALIDATION_spec in Hf. rewrite Hf. cbn [negb].
      unfold Path_resolve in Hb. apply Path_resolve_str_Ok in Hb as [-> ->].
      apply is_prefix_of_within in Hw. rewrite Hw. eauto.
  - intros P R st e st'. apply validate_path_security_raises.
  - intros R st HR HP Hf.
    unfold Path_resolve in HR.
    apply Path_resolve_str_Ok in HR as [HRn HRc].
    apply Path_resolve_str_Ok in HP as [HPn HPc].
    rewrite validate_path_security_unfold. cbv zeta.
    rewrite HPn, HRn, <- HPc, <- HRc.
    assert (Hok : no_forbidden (Path_str (R ++ ["sub"; "file"]))).
    { apply no_forbidden_Path_str, Forall_app. split.
      - now apply no_forbidden_Path_str.
      - repeat constructor. }
    apply DOT_BASIC_VALIDATION_spec in Hok. rewrite Hok. cbn [negb].
    assert (Hpre : is_prefix_of R (R ++ ["sub"; "file"]) = true).
    { apply is_prefix_of_within. now exists ["sub"; "file"]. }
    rewrite Hpre. reflexivity.
  - intros R st HR HP Hout.
    unfold Path_resolve in HR.
    apply Path_resolve_str_Ok in HR as [HRn HRc].
    apply Path_resolve_str_Ok in HP as [HPn HPc].
    rewrite validate_path_security_unfold. cbv zeta.
    rewrite HPn, HRn, <- HPc, <- HRc.
    destruct (Re.match_anchored DOT_BASIC_VALIDATION _); cbn [negb];
      [|eauto].
    destruct (is_prefix_of R _) eqn:Hpre; [|cbn; eauto].
    apply is_prefix_of_within in Hpre. contradiction.
Qed.

(** Where no symbolic link is met, [resolve] is the normalisation of the
    text: a canonical [R] stays as it is, [R/sub/file] stays as it is, and
    [R/../../etc/passwd] is [etc/passwd] under the grandparent of [R]. *)
Lemma Path_resolve_instances R :
  canonical R ->
  Path_resolve R = Ok R
  /\ Path_resolve_str (Path_str R +:+ "/sub/file") = Ok (R ++ ["sub"; "file"])
  /\ Path_resolve_str (Path_str R +:+ "/../../etc/passwd")
     = Ok (removelast (removelast R) ++ ["etc"; "passwd"]).
Proof.
  intros HR. unfold Path_resolve.
  rewrite !Path_resolve_str_Ok, !mem_append, (canonical_no_NUL R HR).
  split; [split; [reflexivity | now rewrite realpath_canonical]|].
  split; (split; [reflexivity|]).
  - change "/sub/file" with ("/" +:+ "sub/file").
    rewrite (realpath_canonical_then _ R "sub/file" HR).
    change (List.fold_left realpath_step (Py.split "/" "sub/file") R)
      with ((R ++ ["sub"]) ++ ["file"]).
    now rewrite <- app_assoc.
  - change "/../../etc/passwd" with ("/" +:+ "../../etc/passwd").
    rewrite (realpath_canonical_then _ R "../../etc/passwd" HR).
    change (List.fold_left realpath_step (Py.split "/" "../../etc/passwd") R)
      with ((removelast (removelast R) ++ ["etc"]) ++ ["passwd"]).
    now rewrite <- app_assoc.
Qed.

End PathGuardTheorems.

Lemma validate_path_security_confines_witness :
  (exists m,
      SecurityError "Path '/etc/passwd' is outside allowed directory '/tmp/out'"
      = SecurityError m)
  /\ fst (@validate_path_security sample_platform "/tmp/out/sub/file"
            (Some ["tmp"; "out"]) sample_state)
     = Ok ["tmp"; "out"; "sub"; "file"]
  /\ exists m,
      fst (@validate_path_security sample_platform "/tmp/out/../../etc/passwd"
             (Some ["tmp"; "out"]) sample_state)
      = Err (SecurityError m).
Proof.
  destruct (@validate_path_security_confines sample_platform)
    as (_ & Hraise & Hsub & Hesc).
  split; [|split].
  - apply (Hraise "/tmp/out/../../etc/passwd" ["tmp"; "out"]
                  sample_state _ sample_state).
    vm_compute. reflexivity.
  - apply (Hsub ["tmp"; "out"] sample_state); vm_compute; reflexivity.
  - apply (Hesc ["tmp"; "out"] sample_state).
    + vm_compute. reflexivity.
    + vm_compute. reflexivity.
    + intros [rest Hrest]. vm_compute in Hrest. discriminate.
Defined.

(** The claim as first stated asks that [P] itself be free of the forbidden
    characters.  [/tmp/out/a?/../b] contains a question mark, yet its
    canonical form [/tmp/out/b] does not, and the path is accepted. *)
Lemma validate_path_security_raw_characters_counterexample :
  Py.mem "?" "/tmp/out/a?/../b" = true
  /\ @validate_path_security sample_platform "/tmp/out/a?/../b"
       (Some ["tmp"; "out"]) sample_state
     = (Ok ["tmp"; "out"; "b"], sample_state).
Proof. split; vm_compute; reflexivity. Qed.

(** ** The filesystem *)

Lemma fs_wfb_wf f : fs_wfb f = true -> fs_wf f.
Proof.
  unfold fs_wfb, fs_wf. rewrite forallb_forall. intros Hall q n [x Hx].
  apply elem_of_map_to_list in Hx. apply list_elem_of_In in Hx.
  specialize (Hall _ Hx). simpl in Hall.
  rewrite rev_app_distr in Hall. simpl in Hall.
  now rewrite rev_involutive in Hall.
Qed.

Lemma stat_insert_eq (f : FS) p w :
  stat (<[p := Dir w]> f) p = Some (Dir w).
Proof.
  unfold stat. rewrite lookup_insert_eq. destruct p; reflexivity.
Qed.

Lemma stat_insert_ne (f : FS) p q x : p <> q -> stat (<[p := x]> f) q = stat f q.
Proof.
  intros Hne. unfold stat. rewrite lookup_insert_ne by exact Hne. reflexivity.
Qed.

Lemma is_dir_insert_Dir (f : FS) p w q :
  is_dir f q = true -> is_dir (<[p := Dir w]> f) q = true.
Proof.
  unfold is_dir. destruct (decide (p = q)) as [->|Hne].
  - now rewrite stat_insert_eq.
  - now rewrite stat_insert_ne.
Qed.

Lemma stat_snoc (f : FS) q n : stat f (q ++ [n]) = f !! (q ++ [n]).
Proof. unfold stat. destruct q; reflexivity. Qed.

(** In a well-formed filesystem the ancestors of a directory are
    directories. *)
Lemma is_dir_ancestors f p :
  fs_wf f -> is_dir f p = true -> forall q, within q p -> is_dir f q = true.
Proof.
  intros Hwf Hd q [rest ->]. revert Hd.
  induction rest as [|n rest IH] using rev_ind; intros Hd.
  - now rewrite app_nil_r in Hd.
  - apply IH. rewrite app_assoc in Hd. apply (Hwf _ n).
    unfold is_dir in Hd. rewrite stat_snoc in Hd.
    destruct (f !! ((q ++ rest) ++ [n])); [eauto | discriminate].
Qed.

(** Where the walk ends in a directory, that directory is there. *)
Lemma resolve_dir_inr f names : forall here w,
  resolve_dir f here names = inr w -> stat f (here ++ names) = Some (Dir w).
Proof.
  induction names as [|n names IH]; intros here w; cbn [resolve_dir];
    destruct (stat f here) as [[w'|? ?]|] eqn:Hs; try discriminate.
  - intros [= <-]. now rewrite app_nil_r.
  - intros Hr. apply IH in Hr. now rewrite <- app_assoc in Hr.
Qed.

(** Through directories the walk arrives. *)
Lemma resolve_dir_dirs f names : forall here,
  (forall pre post, names = pre ++ post -> is_dir f (here ++ pre) = true) ->
  exists w, resolve_dir f here names = inr w.
Proof.
  induction names as [|n names IH]; intros here Hall; cbn [resolve_dir].
  - specialize (Hall [] [] eq_refl). rewrite app_nil_r in Hall.
    unfold is_dir in Hall.
    destruct (stat f here) as [[w|? ?]|]; try discriminate. eauto.
  - pose proof (Hall [] (n :: names) eq_refl) as Hhere.
    rewrite app_nil_r in Hhere. unfold is_dir in Hhere.
    destruct (stat f here) as [[w|? ?]|]; try discriminate.
    apply IH. intros pre post ->. rewrite <- app_assoc. cbn [app].
    apply (Hall (n :: pre) post). reflexivity.
Qed.

Lemma resolve_dir_wf f q :
  fs_wf f -> is_dir f q = true -> exists w, resolve_dir f [] q = inr w.
Proof.
  intros Hwf Hd. apply resolve_dir_dirs. intros pre post ->. cbn [app].
  apply (is_dir_ancestors f (pre ++ post) Hwf Hd). now exists post.
Qed.

(** Directories added on the way to a path. *)
Lemma dirs_added_refl p f : dirs_added p f f.
Proof. intros q. now left. Qed.

Lemma dirs_added_trans p f f1 f2 :
  dirs_added p f f1 -> dirs_added p f1 f2 -> dirs_added p f f2.
Proof.
  intros H1 H2 q.
  destruct (H2 q) as [E2 | (Hw & Hn & w & Hd)];
    destruct (H1 q) as [E1 | (Hw1 & Hn1 & w1 & Hd1)].
  - left. congruence.
  - right. rewrite E2. eauto.
  - right. rewrite <- E1. eauto.
  - congruence.
Qed.

Lemma dirs_added_mono p p' f f' :
  within p p' -> dirs_added p f f' -> dirs_added p' f f'.
Proof.
  intros [rest ->] Hadd q. destruct (Hadd q) as [E | ([r ->] & Hn & Hd)].
  - now left.
  - right. split; [|auto]. exists (r ++ rest). now rewrite app_assoc.
Qed.

Section FilesystemCalls.

Context `{Platform}.

(** What a successful [os.mkdir] has done. *)
Lemma os_mkdir_Ok w p f f' :
  os_mkdir w p f = Ok f' ->
  f' = <[p := Dir w]> f
  /\ f !! p = None
  /\ exists q n, p = q ++ [n] /\ stat f q = Some (Dir true).
Proof.
  unfold os_mkdir. destruct (mkdir_refused p f); [discriminate|].
  destruct (rev p) as [|n rq] eqn:E; [discriminate|].
  assert (Hp : p = rev rq ++ [n]).
  { rewrite <- (rev_involutive p), E. reflexivity. }
  destruct (resolve_dir f [] (rev rq)) as [e|pw] eqn:Hs; [discriminate|].
  apply resolve_dir_inr in Hs. cbn [app] in Hs.
  destruct (f !! p) eqn:Hl; [discriminate|].
  destruct pw; [|discriminate]. intros [= <-]. eauto 6.
Qed.

Lemma os_mkdir_raises w p f e :
  os_mkdir w p f = Err e -> exists c, e = OSError c (Path_str p).
Proof. unfold os_mkdir. repeat case_match; intros [= <-]; eauto. Qed.

Lemma os_mkdir_is_dir w p f f' :
  os_mkdir w p f = Ok f' -> is_dir f' p = true.
Proof.
  intros Hm. apply os_mkdir_Ok in Hm as (-> & _ & _).
  unfold is_dir. now rewrite stat_insert_eq.
Qed.

Lemma os_mkdir_wf w p f f' : os_mkdir w p f = Ok f' -> fs_wf f -> fs_wf f'.
Proof.
  intros Hm Hwf. apply os_mkdir_Ok in Hm as (-> & Hnone & q & n & -> & Hq).
  intros q' n' Hsome. apply is_dir_insert_Dir.
  destruct (decide (q ++ [n] = q' ++ [n'])) as [Heq|Hne].
  - apply app_inj_tail in Heq as [<- _]. unfold is_dir. now rewrite Hq.
  - rewrite lookup_insert_ne in Hsome by exact Hne. exact (Hwf _ _ Hsome).
Qed.

Lemma os_mkdir_dirs_added w p f f' :
  os_mkdir w p f = Ok f' -> dirs_added p f f'.
Proof.
  intros Hm. apply os_mkdir_Ok in Hm as (-> & Hnone & _). intros q.
  destruct (decide (p = q)) as [<-|Hne].
  - right. split; [exists []; now rewrite app_nil_r|].
    split; [exact Hnone|]. exists w. apply lookup_insert_eq.
  - left. now apply lookup_insert_ne.
Qed.

(** An existing directory makes [os.mkdir] fail, and not with [ENOENT]. *)
Lemma os_mkdir_existing w p f :
  fs_wf f -> is_dir f p = true ->
  exists c, os_mkdir w p f = Err (OSError c (Path_str p)) /\ c <> ENOENT.
Proof.
  intros Hwf Hd. unfold os_mkdir.
  destruct (mkdir_refused p f) as [e|].
  { eexists. split; [reflexivity | discriminate]. }
  destruct (rev p) as [|n rq] eqn:E.
  { eexists. split; [reflexivity | discriminate]. }
  assert (Hp : p = rev rq ++ [n]).
  { rewrite <- (rev_involutive p), E. reflexivity. }
  assert (Hsome : is_Some (f !! p)).
  { unfold is_dir in Hd. rewrite Hp, stat_snoc in Hd. rewrite Hp.
    destruct (f !! (rev rq ++ [n])); [eauto | discriminate]. }
  pose proof Hsome as Hsome'. rewrite Hp in Hsome'.
  apply (Hwf _ _) in Hsome'.
  destruct (resolve_dir_wf f (rev rq) Hwf Hsome') as [pw ->].
  destruct Hsome as [x ->].
  eexists. split; [reflexivity | discriminate].
Qed.

Lemma mkdir_exist_ok_Ok w p f f' :
  mkdir_exist_ok w p f = Ok f' ->
  is_dir f' p = true /\ (fs_wf f -> fs_wf f') /\ dirs_added p f f'.
Proof.
  unfold mkdir_exist_ok. destruct (os_mkdir w p f) as [f1|e] eqn:Hm.
  - intros [= <-].
    split; [eapply os_mkdir_is_dir; eauto|].
    split; [eapply os_mkdir_wf; eauto | eapply os_mkdir_dirs_added; eauto].
  - apply os_mkdir_raises in Hm as [c ->].
    destruct (is_dir f p) eqn:Hd.
    + destruct c; intros [= <-]; auto using dirs_added_refl.
    + destruct c; discriminate.
Qed.

Lemma mkdir_exist_ok_raises w p f e :
  mkdir_exist_ok w p f = Err e -> exists c, e = OSError c (Path_str p).
Proof.
  unfold mkdir_exist_ok. destruct (os_mkdir w p f) as [f1|e0] eqn:Hm;
    [discriminate|].
  apply os_mkdir_raises in Hm as [c ->].
  destruct c; try destruct (is_dir f p); intros [= <-]; eauto.
Qed.

(** What [mkdir(parents=True, exist_ok=True)] does, however it ends: it
    adds directories at the path or above it and touches nothing else; a
    well-formed filesystem stays well-formed; when it returns the path is a
    directory; when it raises, the exception is an [OSError] that names a
    path at the one asked for or above it. *)
Lemma mkdir_parents_spec w rp : forall f r f',
  mkdir_parents w rp f = (r, f') ->
  dirs_added (rev rp) f f'
  /\ (fs_wf f -> fs_wf f')
  /\ (is_ok r = true -> is_dir f' (rev rp) = true)
  /\ (forall e, r = Err e -> exists c name, e = OSError c name).
Proof.
  induction rp as [|n rq IH]; intros f r f'; cbn [mkdir_parents].
  - destruct (os_mkdir w (rev []) f) as [f1|e] eqn:Hm.
    + intros [= <- <-].
      split; [eapply os_mkdir_dirs_added; eauto|].
      split; [eapply os_mkdir_wf; eauto|].
      split; [intros _; eapply os_mkdir_is_dir; eauto | discriminate].
    + apply os_mkdir_raises in Hm as [c ->].
      destruct c; try destruct (is_dir f (rev [])) eqn:Hd;
        intros [= <- <-];
        (split; [apply dirs_added_refl|]); (split; [auto|]);
        (split; [try discriminate; auto | try discriminate;
                 intros e [= <-]; eauto]).
  - destruct (os_mkdir w (rev (n :: rq)) f) as [f1|e] eqn:Hm.
    + intros [= <- <-].
      split; [eapply os_mkdir_dirs_added; eauto|].
      split; [eapply os_mkdir_wf; eauto|].
      split; [intros _; eapply os_mkdir_is_dir; eauto | discriminate].
    + apply os_mkdir_raises in Hm as [c ->].
      assert (Hother : forall e0,
        (if is_dir f (rev (n :: rq)) then (Ok tt, f)
         else (Err (OSError e0 (Path_str (rev (n :: rq)))), f)) = (r, f') ->
        dirs_added (rev (n :: rq)) f f'
        /\ (fs_wf f -> fs_wf f')
        /\ (is_ok r = true -> is_dir f' (rev (n :: rq)) = true)
        /\ (forall e, r = Err e -> exists c name, e = OSError c name)).
      { intros e0. destruct (is_dir f (rev (n :: rq))) eqn:Hd;
          intros [= <- <-];
          (split; [apply dirs_added_refl|]); (split; [auto|]);
          (split; [try discriminate; auto | try discriminate;
                   intros e [= <-]; eauto]). }
      destruct c; try apply Hother.
      destruct (mkdir_parents w rq f) as [[[]|e1] f1] eqn:Hp.
      * apply IH in Hp as (Hadd & Hwf & _ & _).
        assert (Hadd' : dirs_added (rev (n :: rq)) f f1).
        { eapply dirs_added_mono; [|exact Hadd]. exists [n]. reflexivity. }
        destruct (mkdir_exist_ok w (rev (n :: rq)) f1) as [f2|e2] eqn:Hx;
          intros [= <- <-].
        -- apply mkdir_exist_ok_Ok in Hx as (Hd & Hwf2 & Hadd2).
           split; [eapply dirs_added_trans; eauto|]. split; [auto|].
           split; [auto | discriminate].
        -- apply mkdir_exist_ok_raises in Hx as [c ->].
           split; [exact Hadd'|]. split; [exact Hwf|].
           split; [discriminate | intros e [= <-]; eauto].
      * intros [= <- <-]. apply IH in Hp as (Hadd & Hwf & _ & Hraise).
        split; [|split; [exact Hwf|split; [discriminate|]]].
        -- eapply dirs_added_mono; [|exact Hadd]. exists [n]. reflexivity.
        -- intros e [= <-]. eapply Hraise. reflexivity.
Qed.

Lemma mkdir_p_spec w p f :
  dirs_added p f (snd (mkdir_p w p f))
  /\ (fs_wf f -> fs_wf (snd (mkdir_p w p f)))
  /\ (is_ok (fst (mkdir_p w p f)) = true ->
      is_dir (snd (mkdir_p w p f)) p = true)
  /\ (forall e, fst (mkdir_p w p f) = Err e ->
                exists c name, e = OSError c name).
Proof.
  unfold mkdir_p. destruct (mkdir_parents w (rev p) f) as [r f'] eqn:Hm.
  apply mkdir_parents_spec in Hm. now rewrite rev_involutive in Hm.
Qed.

(** The two views of the call agree. *)
Lemma Path_mkdir_mkdir_p w p f f' :
  Path_mkdir w p f = Ok f' <-> mkdir_p w p f = (Ok tt, f').
Proof.
  unfold Path_mkdir. destruct (mkdir_p w p f) as [[[]|e] f1]; split;
    intros [= <-]; reflexivity || discriminate.
Qed.

Lemma Path_mkdir_fst w p f :
  Path_mkdir w p f
  = match fst (mkdir_p w p f) with
    | Ok _ => Ok (snd (mkdir_p w p f))
    | Err e => Err e
    end.
Proof. unfold Path_mkdir. now destruct (mkdir_p w p f) as [[[]|e] f1]. Qed.

Lemma Path_mkdir_Ok w p f f' :
  Path_mkdir w p f = Ok f' ->
  is_dir f' p = true /\ (fs_wf f -> fs_wf f').
Proof.
  intros Hm. apply Path_mkdir_mkdir_p in Hm.
  destruct (mkdir_p_spec w p f) as (_ & Hwf & Hd & _).
  rewrite Hm in Hwf, Hd. cbn [fst snd is_ok] in Hwf, Hd. auto.
Qed.

Lemma Path_mkdir_dirs_added w p f f' :
  Path_mkdir w p f = Ok f' -> dirs_added p f f'.
Proof.
  intros Hm. apply Path_mkdir_mkdir_p in Hm.
  destruct (mkdir_p_spec w p f) as (Hadd & _). now rewrite Hm in Hadd.
Qed.

Lemma Path_mkdir_raises w p f e :
  Path_mkdir w p f = Err e -> exists c name, e = OSError c name.
Proof.
  rewrite Path_mkdir_fst. destruct (mkdir_p_spec w p f) as (_ & _ & _ & Hr).
  destruct (fst (mkdir_p w p f)) as [[]|e0]; [discriminate|].
  intros [= <-]. now apply Hr.
Qed.

(** [mkdir(parents=True, exist_ok=True)] of a directory that is there
    changes nothing. *)
Lemma mkdir_p_existing w p f :
  fs_wf f -> is_dir f p = true -> mkdir_p w p f = (Ok tt, f).
Proof.
  intros Hwf Hd. unfold mkdir_p.
  destruct (rev p) as [|n rq] eqn:E.
  - apply (f_equal (@rev string)) in E. rewrite rev_involutive in E.
    subst p. cbn [mkdir_parents].
    destruct (os_mkdir_existing w (rev []) f Hwf Hd) as (c & -> & Hc).
    change (rev []) with (@nil string) in *. rewrite Hd.
    destruct c; congruence.
  - cbn [mkdir_parents]. rewrite <- E, rev_involutive.
    destruct (os_mkdir_existing w p f Hwf Hd) as (c & -> & Hc). rewrite Hd.
    destruct c; congruence.
Qed.

Lemma Path_mkdir_existing w p f :
  fs_wf f -> is_dir f p = true -> Path_mkdir w p f = Ok f.
Proof.
  intros Hwf Hd. apply Path_mkdir_mkdir_p. now apply mkdir_p_existing.
Qed.

End FilesystemCalls.

(** ** OutputStore *)

Section OutputStore.

Context `{Platform}.

Lemma ensure_output_directory_unfold st :
  ensure_output_directory st
  = let d := match _output_directory st with
             | None => default_output_directory
             | Some d => d
             end in
    match Path_mkdir umask_w d (fs st) with
    | Ok f' => (Ok d, {| fs := f'; _output_directory := Some d;
                         log := log st; renders := renders st |})
    | Err e => (Err (FileOperationError
                       ("Failed to create output directory: " +:+ str_exn e)),
                {| fs := snd (mkdir_p umask_w d (fs st));
                   _output_directory := Some d;
                   log := log st; renders := renders st |})
    end.
Proof.
  unfold ensure_output_directory, default_output_directory, Path_mkdir.
  run_monad.
  destruct st as [f od lg rs].
  change (Path_joinpath gettempdir "mcp_graphviz_output")
    with (gettempdir ++ ["mcp_graphviz_output"]).
  destruct od as [d|]; cbn [_output_directory fs log renders].
  - destruct (mkdir_p umask_w d f) as [[[]|e] f']; reflexivity.
  - destruct (mkdir_p umask_w (gettempdir ++ ["mcp_graphviz_output"]) f)
      as [[[]|e] f']; reflexivity.
Qed.

Lemma set_output_location_file_unfold directory_path st :
  set_output_location_file directory_path st
  = let failed e s :=
      (Err (reraised "Failed to set output directory: "
                     [SecurityError_; FileOperationError_] e),
       with_log s [(ERROR, "Failed to set output directory: " +:+ str_exn e)])
    in
    match validate_path_security directory_path None st with
    | (Err e, st1) => failed e st1
    | (Ok validated_path, st1) =>
        match Path_mkdir umask_w validated_path (fs st1) with
        | Err e =>
            failed e (with_fs st1 (snd (mkdir_p umask_w validated_path
                                          (fs st1))))
        | Ok f' =>
            if access_W_OK f' validated_path
            then (Ok ("Output directory successfully set to: "
                      +:+ Path_str validated_path),
                  {| fs := f'; _output_directory := Some validated_path;
                     log := log st1 ++
                       [(INFO, "Output directory set to: "
                               +:+ Path_str validated_path)];
                     renders := renders st1 |})
            else failed (FileOperationError
                           ("No write permission for directory: "
                            +:+ Path_str validated_path))
                        (with_fs st1 f')
        end
    end.
Proof.
  unfold set_output_location_file, reraised, with_log, Path_mkdir.
  run_monad.
  destruct (validate_path_security directory_path None st) as [[v|e] st1].
  - destruct (mkdir_p umask_w v (fs st1)) as [[[]|e] f'];
      cbn [fst snd fs _output_directory log renders].
    + destruct (access_W_OK f' v); cbn [negb fs _output_directory log renders];
        reflexivity.
    + destruct (isinstance e _); reflexivity.
  - destruct (isinstance e _); reflexivity.
Qed.

(** C6. When [set_output_location_file] raises, [_output_directory] is
    what it was before the call; the exception is a [SecurityError] or a
    [FileOperationError].  When it returns, the path has passed
    [validate_path_security], the directory has been made, it is writable,
    and only then [_output_directory] is that path. *)
Theorem set_output_location_file_atomic directory_path st r st' :
  set_output_location_file directory_path st = (r, st') ->
  (is_ok r = false -> _output_directory st' = _output_directory st)
  /\ (forall e, r = Err e ->
                class_of e = SecurityError_ \/ class_of e = FileOperationError_)
  /\ (is_ok r = true ->
      exists v st1,
        validate_path_security directory_path None st = (Ok v, st1)
        /\ Path_mkdir umask_w v (fs st) = Ok (fs st')
        /\ access_W_OK (fs st') v = true
        /\ _output_directory st' = Some v).
Proof.
  rewrite set_output_location_file_unfold. cbv zeta.
  destruct (validate_path_security directory_path None st) as [[v|e] st1] eqn:Hv.
  - destruct (validate_path_security_state _ _ _ _ _ Hv) as [entries ->].
    cbn [with_log fs].
    destruct (Path_mkdir umask_w v (fs st)) as [f'|e] eqn:Hm.
    + destruct (access_W_OK f' v) eqn:Ha; intros [= <- <-].
      * split; [discriminate|]. split; [discriminate|]. intros _.
        exists v, (with_log st entries). auto.
      * split; [reflexivity|]. split; [|discriminate].
        intros e [= <-]. now right.
    + intros [= <- <-]. split; [reflexivity|]. split; [|discriminate].
      intros e' [= <-]. unfold reraised.
      destruct e; cbn; auto.
  - destruct (validate_path_security_state _ _ _ _ _ Hv) as [entries ->].
    apply validate_path_security_raises in Hv as [m ->].
    intros [= <- <-]. split; [reflexivity|]. split; [|discriminate].
    intros e [= <-]. now left.
Qed.

(** C7, amended. A directory that passes validation and exists or has been
    made, but that the process may not write to, makes
    [set_output_location_file] raise [FileOperationError] (not
    [SecurityError]), and [_output_directory] stays as it was. *)
Theorem set_output_location_file_unwritable directory_path st v st1 f' :
  validate_path_security directory_path None st = (Ok v, st1) ->
  Path_mkdir umask_w v (fs st1) = Ok f' ->
  access_W_OK f' v = false ->
  exists st',
    set_output_location_file directory_path st
    = (Err (FileOperationError
              ("No write permission for directory: " +:+ Path_str v)), st')
    /\ _output_directory st' = _output_directory st.
Proof.
  intros Hv Hm Ha. rewrite set_output_location_file_unfold. cbv zeta.
  rewrite Hv, Hm, Ha.
  destruct (validate_path_security_state _ _ _ _ _ Hv) as [entries ->].
  eexists. split; reflexivity.
Qed.


End OutputStore.

Lemma set_output_location_file_atomic_witness :
  _output_directory
    (snd (@set_output_location_file sample_platform "/srv/ro" sample_state))
  = _output_directory sample_state.
Proof.
  refine (proj1 (@set_output_location_file_atomic sample_platform
                   "/srv/ro" sample_state _ _ _) _).
  - vm_compute. reflexivity.
  - vm_compute. reflexivity.
Defined.

Lemma set_output_location_file_unwritable_witness :
  exists st',
    @set_output_location_file sample_platform "/srv/ro" sample_state
    = (Err (FileOperationError "No write permission for directory: /srv/ro"),
       st')
    /\ _output_directory st' = None.
Proof.
  apply (@set_output_location_file_unwritable sample_platform
           "/srv/ro" sample_state ["srv"; "ro"] sample_state sample_fs);
    vm_compute; reflexivity.
Defined.

(** The claim as first stated has a [SecurityError] here.  [/srv/ro]
    passes validation, exists and is not writable, and the exception is a
    [FileOperationError]. *)
Lemma set_output_location_file_unwritable_counterexample :
  fst (@validate_path_security sample_platform "/srv/ro" None sample_state)
  = Ok ["srv"; "ro"]
  /\ is_dir sample_fs ["srv"; "ro"] = true
  /\ access_W_OK sample_fs ["srv"; "ro"] = false
  /\ raised (fst (@set_output_location_file sample_platform "/srv/ro"
                    sample_state))
     = Some FileOperationError_
  /\ raised (fst (@set_output_location_file sample_platform "/srv/ro"
                    sample_state))
     <> Some SecurityError_.
Proof. repeat split; try (vm_compute; reflexivity). vm_compute. discriminate. Qed.


(** A failure that leaves something behind: the temporary directory
    [/tmp/x] is not there and the umask leaves no write permission, so
    [/tmp/x] is made, [mcp_graphviz_output] below it is refused, and
    [/tmp/x] stays. *)
Example ensure_output_directory_partial :
  let run := @ensure_output_directory sample_platform_umask sample_state in
  fst run
  = Err (FileOperationError
           ("Failed to create output directory: [Errno 13] Permission denied: "
            +:+ "'/tmp/x/mcp_graphviz_output'"))
  /\ is_dir sample_fs ["tmp"; "x"] = false
  /\ is_dir (fs (snd run)) ["tmp"; "x"] = true
  /\ is_dir (fs (snd run)) ["tmp"; "x"; "mcp_graphviz_output"] = false.
Proof. vm_compute. repeat split; reflexivity. Qed.

(** ** RenderOrchestrator *)

(** Both sides agree once the class test of the handler is decided. *)
Ltac by_handler :=
  cbn [fs _output_directory log renders];
  first [ reflexivity | destruct (isinstance _ _); reflexivity ].

Section RenderOrchestrator.

Context `{Platform}.

(** [validate_dot_content] leaves the state alone and raises nothing but
    [DOTSyntaxError]. *)
Lemma validate_dot_content_result d st r st' :
  validate_dot_content d st = (r, st') ->
  st' = st /\ (r = Ok tt \/ exists m, r = Err (DOTSyntaxError m)).
Proof.
  rewrite validate_dot_content_unfold. unfold pipe_verdict.
  repeat case_match; intros [= <- <-]; eauto.
Qed.

Lemma generate_dot_file_unfold d n st :
  generate_dot_file d n st
  = let failed := tool_failed "Failed to generate DOT file: "
                    [DOTSyntaxError_; FileOperationError_; SecurityError_] in
    match validate_dot_content d st with
    | (Err e, st1) => failed e st1
    | (Ok _, st1) =>
        match write_dot d n st1 with
        | (Err e, st2) => failed e st2
        | (Ok file_path, st2) =>
            (Ok ("DOT file successfully created: " +:+ Path_str file_path),
             with_log st2 [(INFO, "DOT file created: " +:+ Path_str file_path)])
        end
    end.
Proof.
  unfold generate_dot_file, write_dot, tool_failed, reraised, with_log.
  run_monad.
  destruct (validate_dot_content d st) as [[[]|e] st1]; [|by_handler].
  destruct (ensure_output_directory st1) as [[od|e] st2]; [|by_handler].
  destruct (validate_path_security _ _ st2) as [[p|e] st3]; [|by_handler].
  destruct (open_w_write _ _ _ (fs st3)) as [[[]|e] f']; by_handler.
Qed.

Lemma generate_png_unfold d n w h st :
  generate_png d n w h st
  = let failed := tool_failed "Failed to generate PNG: "
                    [DOTSyntaxError_; FileOperationError_;
                     SecurityError_; ValueError_] in
    match validate_dot_content d st with
    | (Err e, st1) => failed e st1
    | (Ok _, st1) =>
        if (w <=? 0) || (h <=? 0)
        then failed (ValueError "Width and height must be positive integers")
                    st1
        else if (10000 <? w) || (10000 <? h)
        then failed (ValueError
                       "Width and height must be less than 10000 pixels") st1
        else
          match render_png d n st1 with
          | (Err e, st2) => failed e st2
          | (Ok actual_file_path, st2) =>
              (Ok (png_message actual_file_path w h),
               with_log st2
                 [(INFO, "PNG file created: " +:+ Path_str actual_file_path)])
          end
    end.
Proof.
  unfold generate_png, render_png, png_message, tool_failed, reraised,
    with_log, source_render.
  run_monad.
  destruct (validate_dot_content d st) as [[[]|e] st1]; [|by_handler].
  destruct ((w <=? 0) || (h <=? 0)); [by_handler|].
  destruct ((10000 <? w) || (10000 <? h)); [by_handler|].
  destruct (ensure_output_directory st1) as [[od|e] st2]; [|by_handler].
  destruct (validate_path_security _ _ st2) as [[p|e] st3]; [|by_handler].
  destruct (Path_with_suffix _ "") as [stem|e]; [|by_handler].
  destruct (Source_render _ (fs st3)) as [[out|e] f'];
    cbn [fs _output_directory log renders]; [|by_handler].
  destruct (Path_with_suffix _ ".png") as [actual|e]; [|by_handler].
  destruct (exists_ f' actual); by_handler.
Qed.

End RenderOrchestrator.

Section RenderOrchestratorTheorems.

Context `{Platform}.

Lemma ensure_output_directory_raises st e st' :
  ensure_output_directory st = (Err e, st') ->
  exists m, e = FileOperationError m.
Proof.
  rewrite ensure_output_directory_unfold. cbv zeta.
  case_match; intros [= <- <-]. eauto.
Qed.

(** After the arguments have been accepted, [generate_png] can only fail
    with a [FileOperationError] or a [SecurityError]. *)
Lemma render_png_raises d n st e st' :
  render_png d n st = (Err e, st') ->
  class_of e = FileOperationError_ \/ class_of e = SecurityError_.
Proof.
  unfold render_png, source_render. run_monad.
  destruct (ensure_output_directory st) as [[od|e1] st1] eqn:He.
  2: { intros [= <- <-].
       apply ensure_output_directory_raises in He as [m ->]. now left. }
  destruct (validate_path_security _ _ st1) as [[p|e2] st2] eqn:Hv.
  2: { intros [= <- <-].
       apply validate_path_security_raises in Hv as [m ->]. now right. }
  repeat case_match; intros [= <- <-]; now left.
Qed.

Lemma bad_dimensions_checks w h :
  bad_dimensions w h
  <-> (w <=? 0) || (h <=? 0) = true \/ (10000 <? w) || (10000 <? h) = true.
Proof.
  unfold bad_dimensions.
  rewrite !orb_true_iff, !Z.leb_le, !Z.ltb_lt. tauto.
Qed.

(** C5. For a description that [validate_dot_content] accepts,
    [generate_png] raises [ValueError], the error of its parameter check and
    none of the three classes of the server, exactly when the width or the
    height is not positive or is above 10000.  A width of 0 and a height of
    20000 are such cases. *)
Theorem generate_png_dimensions d n st :
  fst (validate_dot_content d st) = Ok tt ->
  (forall w h,
      raised (fst (generate_png d n w h st)) = Some ValueError_
      <-> bad_dimensions w h)
  /\ (forall h, raised (fst (generate_png d n 0 h st)) = Some ValueError_)
  /\ (forall w, raised (fst (generate_png d n w 20000 st)) = Some ValueError_).
Proof.
  intros Hacc.
  assert (Hiff : forall w h,
             raised (fst (generate_png d n w h st)) = Some ValueError_
             <-> bad_dimensions w h).
  { intros w h. rewrite bad_dimensions_checks, generate_png_unfold. cbv zeta.
    destruct (validate_dot_content d st) as [[[]|e0] st1]; [|discriminate].
    destruct ((w <=? 0) || (h <=? 0)); [cbn; tauto|].
    destruct ((10000 <? w) || (10000 <? h)); [cbn; tauto|].
    destruct (render_png d n st1) as [[p|e] st2] eqn:Hr.
    - cbn. split; [discriminate | intros [|]; discriminate].
    - apply render_png_raises in Hr.
      unfold tool_failed, reraised. cbn [fst raised].
      split; [|intros [|]; discriminate].
      destruct Hr as [Hc|Hc]; destruct e; try discriminate Hc;
        cbn; discriminate. }
  split; [exact Hiff|]. split.
  - intros h. apply Hiff. unfold bad_dimensions. lia.
  - intros w. apply Hiff. unfold bad_dimensions. lia.
Qed.

(** C9. For two pairs of dimensions that both pass the check,
    [generate_png] leaves the same state behind, the filesystem with the
    image and the [render] calls with their arguments included, and ends in
    the same way: with the same exception, or with confirmations that name
    the same file and differ in the dimensions they quote.  The density that
    is computed from the dimensions is passed nowhere: a [render_call] has no
    place for it. *)
Theorem generate_png_dimensions_advisory d n w1 h1 w2 h2 st :
  ~ bad_dimensions w1 h1 ->
  ~ bad_dimensions w2 h2 ->
  snd (generate_png d n w1 h1 st) = snd (generate_png d n w2 h2 st)
  /\ ((exists e, fst (generate_png d n w1 h1 st) = Err e
                 /\ fst (generate_png d n w2 h2 st) = Err e)
      \/ (exists p, fst (generate_png d n w1 h1 st) = Ok (png_message p w1 h1)
                    /\ fst (generate_png d n w2 h2 st)
                       = Ok (png_message p w2 h2))).
Proof.
  intros H1 H2. rewrite bad_dimensions_checks in H1, H2.
  apply Decidable.not_or in H1 as [H1a H1b], H2 as [H2a H2b].
  apply not_true_is_false in H1a, H1b, H2a, H2b.
  rewrite !generate_png_unfold. cbv zeta.
  rewrite H1a, H1b, H2a, H2b.
  destruct (validate_dot_content d st) as [[[]|e0] st1]; [|cbn; eauto].
  destruct (render_png d n st1) as [[p|e] st2]; cbn; eauto.
Qed.

(** C10. When [validate_dot_content] rejects the description, both
    [generate_dot_file] and [generate_png] raise that [DOTSyntaxError], and
    the filesystem, [_output_directory] and the [render] calls are what they
    were: the output root is not created and nothing is written. *)
Theorem syntax_rejection_changes_nothing d n w h st :
  is_ok (fst (validate_dot_content d st)) = false ->
  exists m,
    fst (validate_dot_content d st) = Err (DOTSyntaxError m)
    /\ fst (generate_dot_file d n st) = Err (DOTSyntaxError m)
    /\ fst (generate_png d n w h st) = Err (DOTSyntaxError m)
    /\ fs (snd (generate_dot_file d n st)) = fs st
    /\ fs (snd (generate_png d n w h st)) = fs st
    /\ _output_directory (snd (generate_dot_file d n st)) = _output_directory st
    /\ _output_directory (snd (generate_png d n w h st)) = _output_directory st
    /\ renders (snd (generate_dot_file d n st)) = renders st
    /\ renders (snd (generate_png d n w h st)) = renders st.
Proof.
  rewrite generate_dot_file_unfold, generate_png_unfold. cbv zeta.
  destruct (validate_dot_content d st) as [r st1] eqn:Hv.
  apply validate_dot_content_result in Hv as [-> [-> | [m ->]]];
    [discriminate|].
  intros _. exists m. cbn. repeat split; reflexivity.
Qed.

(** What [open_w_write] does, however it ends: it changes the entry at
    [p] at most, which was no directory and is a regular file afterwards if
    it has changed; when the call returns, the file holds the encoded
    text. *)
Lemma open_w_write_spec w p text f r f' :
  open_w_write w p text f = (r, f') ->
  (f' = f /\ is_ok r = false
   \/ (exists fw data, f' = <[p := File fw data]> f
                       /\ (is_ok r = true -> data = Py.encode_utf8 text))
      /\ (f !! p = None \/ exists fw old, f !! p = Some (File fw old)))
  /\ (is_ok r = true -> exists q n, p = q ++ [n])
  /\ (forall e, r = Err e -> class_of e = OSError_).
Proof.
  unfold open_w_write. cbv zeta.
  assert (Hstore : forall fw,
    match write_cut p (Py.encode_utf8 text) f with
    | Some (e, n) =>
        (Err (OSError0 (Environment e)),
         <[p := File fw (Py.of_chars (take n (Py.chars (Py.encode_utf8 text))))]>
           f)
    | None => (Ok tt, <[p := File fw (Py.encode_utf8 text)]> f)
    end = (r, f') ->
    (exists fw data, f' = <[p := File fw data]> f
                     /\ (is_ok r = true -> data = Py.encode_utf8 text))
    /\ (forall e, r = Err e -> class_of e = OSError_)).
  { intros fw. destruct (write_cut p (Py.encode_utf8 text) f) as [[e n]|];
      intros [= <- <-].
    - split; [exists fw; eexists; split; [reflexivity | discriminate]|].
      intros e0 [= <-]. reflexivity.
    - split; [exists fw; eexists; split; [reflexivity | reflexivity]|].
      discriminate. }
  assert (Hfail : forall e,
    (Err e, f) = (r, f') -> class_of e = OSError_ ->
    (f' = f /\ is_ok r = false
     \/ (exists fw data, f' = <[p := File fw data]> f
                         /\ (is_ok r = true -> data = Py.encode_utf8 text))
        /\ (f !! p = None \/ exists fw old, f !! p = Some (File fw old)))
    /\ (is_ok r = true -> exists q n, p = q ++ [n])
    /\ (forall e, r = Err e -> class_of e = OSError_)).
  { intros e [= <- <-] Hc. split; [now left|].
    split; [discriminate|]. now intros e0 [= <-]. }
  destruct (open_refused p f) as [e|]; [intros E; now apply (Hfail _ E)|].
  destruct (rev p) as [|n rq] eqn:E; [intros E'; now apply (Hfail _ E')|].
  assert (Hp : p = rev rq ++ [n]).
  { rewrite <- (rev_involutive p), E. reflexivity. }
  destruct (resolve_dir f [] (rev rq)) as [e|pw];
    [intros E'; now apply (Hfail _ E')|].
  destruct (f !! p) as [[?|fw old]|] eqn:Hl;
    [intros E'; now apply (Hfail _ E')| |].
  - destruct fw; [|intros E'; now apply (Hfail _ E')].
    intros E'. apply Hstore in E' as [Hst Hcl].
    split; [right; split; [exact Hst | right; eauto]|].
    split; [intros _; now exists (rev rq), n | exact Hcl].
  - destruct pw; [|intros E'; now apply (Hfail _ E')].
    intros E'. apply Hstore in E' as [Hst Hcl].
    split; [right; split; [exact Hst | now left]|].
    split; [intros _; now exists (rev rq), n | exact Hcl].
Qed.

Lemma read_bytes_insert_File (f : FS) q n fw data :
  read_bytes (<[q ++ [n] := File fw data]> f) (q ++ [n]) = Some data.
Proof.
  unfold read_bytes. now rewrite stat_snoc, lookup_insert_eq.
Qed.

Lemma open_w_write_Ok w p text f f' :
  open_w_write w p text f = (Ok tt, f') ->
  read_bytes f' p = Some (Py.encode_utf8 text).
Proof.
  intros Hw. apply open_w_write_spec in Hw as (Hch & Hp & _).
  destruct (Hp eq_refl) as (q & n & ->).
  destruct Hch as [[_ ?] | [(fw & data & -> & Hdata) _]]; [discriminate|].
  rewrite (Hdata eq_refl). apply read_bytes_insert_File.
Qed.

Lemma canonical_app p q : canonical p -> canonical q -> canonical (p ++ q).
Proof. unfold canonical. rewrite forallb_app. intros -> ->. reflexivity. Qed.


(** C3. The call of the claim, [generate_dot_file] on [digraph{a->b}] and
    [t1], evaluated: on every platform and in every state it raises
    [DOTSyntaxError] from the structural check, because the pattern asks
    for whitespace after the keyword, and it leaves the filesystem, the
    output root and the [render] calls as they were; one [ERROR] entry is
    logged. *)
Theorem generate_dot_file_t1 (st : State) :
  generate_dot_file "digraph{a->b}" "t1" st
  = (Err (DOTSyntaxError "DOT content does not match basic graph syntax"),
     with_log st
       [(ERROR, "Failed to generate DOT file: " +:+
                "DOT content does not match basic graph syntax")])
  /\ fs (snd (generate_dot_file "digraph{a->b}" "t1" st)) = fs st
  /\ read_bytes (fs (snd (generate_dot_file "digraph{a->b}" "t1" st)))
       (effective_root st ++ ["t1.dot"])
     = read_bytes (fs st) (effective_root st ++ ["t1.dot"]).
Proof.
  rewrite generate_dot_file_unfold, validate_dot_content_unfold.
  repeat split; reflexivity.
Qed.

End RenderOrchestratorTheorems.

(** The same call in the sample state. *)
Example generate_dot_file_compact_digraph :
  @generate_dot_file sample_platform "digraph{a->b}" "t1" sample_state
  = (Err (DOTSyntaxError "DOT content does not match basic graph syntax"),
     with_log sample_state
       [(ERROR, "Failed to generate DOT file: DOT content does not match basic graph syntax")])
  /\ fs (snd (@generate_dot_file sample_platform "digraph{a->b}" "t1"
                sample_state))
     = sample_fs.
Proof. split; vm_compute; reflexivity. Qed.

(** With a blank after the keyword the same call succeeds, and the file it
    names reads back as the description. *)
Example generate_dot_file_spaced_digraph :
  let run := @generate_dot_file sample_platform "digraph {a->b}" "t1"
               sample_state in
  fst run = Ok "DOT file successfully created: /tmp/mcp_graphviz_output/t1.dot"
  /\ read_bytes (fs (snd run)) ["tmp"; "mcp_graphviz_output"; "t1.dot"]
     = Some "digraph {a->b}".
Proof. vm_compute. split; reflexivity. Qed.

Lemma generate_png_dimensions_witness :
  raised (fst (@generate_png sample_platform "digraph G { a -> b; }" "g"
                 0 500 sample_state))
  = Some ValueError_.
Proof.
  refine (proj1 (proj2 (@generate_png_dimensions sample_platform
                          "digraph G { a -> b; }" "g" sample_state _)) 500).
  vm_compute. reflexivity.
Defined.

Lemma generate_png_dimensions_advisory_witness :
  snd (@generate_png sample_platform "digraph G { a -> b; }" "g"
         500 500 sample_state)
  = snd (@generate_png sample_platform "digraph G { a -> b; }" "g"
           1024 768 sample_state).
Proof.
  refine (proj1 (@generate_png_dimensions_advisory sample_platform
                   "digraph G { a -> b; }" "g" 500 500 1024 768
                   sample_state _ _));
    unfold bad_dimensions; lia.
Defined.

Lemma syntax_rejection_changes_nothing_witness :
  exists m,
    fst (@generate_dot_file sample_platform "not a graph" "g" sample_state)
    = Err (DOTSyntaxError m)
    /\ fs (snd (@generate_dot_file sample_platform "not a graph" "g"
                  sample_state))
       = sample_fs.
Proof.
  destruct (@syntax_rejection_changes_nothing sample_platform
              "not a graph" "g" 500 500 sample_state)
    as (m & _ & Hd & _ & Hfs & _).
  - vm_compute. reflexivity.
  - exists m. split; [exact Hd | exact Hfs].
Defined.

(** The density that [generate_png] computes lies between 72 and 300,
    whatever the dimensions. *)
Lemma dpi_of_clamped width height :
  (inject_Z 72 <= dpi_of width height /\ dpi_of width height <= inject_Z 300)%Q.
Proof.
  unfold dpi_of. cbv zeta. split.
  - apply Q.le_max_l.
  - apply Q.max_lub.
    + unfold Qle. simpl. lia.
    + apply Q.le_min_l.
Qed.

Example dpi_of_default : (dpi_of 500 500 == inject_Z 100)%Q.
Proof. reflexivity. Qed.

(** * Part III: further properties of the code *)

(** ** More on NameSanitizer *)

Lemma sanitize_filename_cases x :
  (stripped_name x = "" /\ sanitize_filename x = "output")
  \/ (stripped_name x <> "" /\ sanitize_filename x = stripped_name x).
Proof.
  rewrite sanitize_filename_unfold.
  destruct (Py.len (stripped_name x) =? 0)%nat eqn:E.
  - left. apply Nat.eqb_eq, len_0 in E. auto.
  - right. split; [|reflexivity]. intros Hx. rewrite Hx in E. discriminate.
Qed.

Lemma stripped_name_chars x :
  Py.chars (stripped_name x)
  = Py.strip_by (fun c => Py.mem c ". ")
      (Py.chars (re_sub_class reserved_chars "_" x)).
Proof. unfold stripped_name, Py.strip_chars. apply chars_of_chars. Qed.

Lemma stripped_name_clean x : stripped_name x <> "" -> clean_name (stripped_name x).
Proof.
  intros Hne. split; [exact Hne|]. rewrite stripped_name_chars.
  split; [|split].
  - apply strip_by_Forall, re_sub_reserved_unreserved.
  - apply strip_by_lstrip_fix.
  - apply strip_by_rstrip_fix.
Qed.

Lemma clean_name_stripped x : clean_name x -> stripped_name x = x.
Proof.
  intros (_ & Hres & Hl & Hr). unfold stripped_name.
  rewrite (re_sub_reserved_id _ Hres). unfold Py.strip_chars, Py.strip_by.
  rewrite Hl. unfold Py.rstrip_by. rewrite Hr, rev_involutive.
  apply of_chars_chars.
Qed.

Lemma unreserved_no_slash l :
  Forall unreserved l -> existsb (Ascii.eqb "/") l = false.
Proof.
  induction 1 as [|c l Hc Hl IH]; [reflexivity|]. cbn [existsb]. rewrite IH.
  destruct (Ascii.eqb "/" c) eqn:E; [|reflexivity].
  apply Ascii.eqb_eq in E. subst c. discriminate Hc.
Qed.

(** A character that the sanitizer neither replaces, inserts nor strips
    is in the result exactly when it is in the name. *)
Lemma existsb_lstrip_by (p : ascii -> bool) c l :
  p c = false ->
  existsb (Ascii.eqb c) (Py.lstrip_by p l) = existsb (Ascii.eqb c) l.
Proof.
  intros Hc. induction l as [|x l IH]; [reflexivity|]. simpl.
  destruct (p x) eqn:Hx; [|reflexivity].
  rewrite IH. destruct (Ascii.eqb c x) eqn:E; [|reflexivity].
  apply Ascii.eqb_eq in E. congruence.
Qed.

Lemma existsb_rev_eq (q : ascii -> bool) l : existsb q (rev l) = existsb q l.
Proof.
  induction l as [|x l IH]; [reflexivity|]. simpl.
  rewrite existsb_app, IH. simpl. rewrite orb_false_r. apply orb_comm.
Qed.

Lemma existsb_strip_by (p : ascii -> bool) c l :
  p c = false ->
  existsb (Ascii.eqb c) (Py.strip_by p l) = existsb (Ascii.eqb c) l.
Proof.
  intros Hc. unfold Py.strip_by, Py.rstrip_by.
  now rewrite existsb_rev_eq, existsb_lstrip_by, existsb_rev_eq,
    existsb_lstrip_by.
Qed.

Lemma mem_re_sub_reserved c x :
  Py.mem c reserved_chars = false -> Ascii.eqb c "_" = false ->
  Py.mem c (re_sub_class reserved_chars "_" x) = Py.mem c x.
Proof.
  intros Hres Hu. unfold Py.mem. rewrite re_sub_class_chars.
  induction (Py.chars x) as [|a l IH]; [reflexivity|].
  cbn [List.map List.concat existsb]. rewrite existsb_app, IH.
  f_equal. destruct (Py.mem a reserved_chars) eqn:Ha.
  - change (Py.chars "_") with ["_"%char]. cbn [existsb]. rewrite Hu.
    destruct (Ascii.eqb c a) eqn:E; [|reflexivity].
    apply Ascii.eqb_eq in E. congruence.
  - cbn [existsb]. apply orb_false_r.
Qed.

Lemma mem_sanitize_filename c x :
  Py.mem c reserved_chars = false -> Py.mem c "_. output" = false ->
  Py.mem c (sanitize_filename x) = Py.mem c x.
Proof.
  intros Hres Hother. unfold Py.mem in Hother.
  change (Py.chars "_. output")
    with (Py.chars "_" ++ Py.chars ". " ++ Py.chars "output") in Hother.
  rewrite !existsb_app in Hother.
  apply orb_false_iff in Hother as [Hu Hother].
  apply orb_false_iff in Hother as [Hds Ho].
  cbn [Py.chars list_ascii_of_string existsb] in Hu.
  rewrite orb_false_r in Hu.
  assert (Hstr : Py.mem c (stripped_name x) = Py.mem c x).
  { unfold Py.mem at 1. rewrite stripped_name_chars.
    rewrite (existsb_strip_by (fun a => Py.mem a ". ") c _ Hds).
    now apply mem_re_sub_reserved. }
  destruct (sanitize_filename_cases x) as [[He ->] | [_ ->]]; [|exact Hstr].
  rewrite He in Hstr. rewrite <- Hstr. exact Ho.
Qed.

(** The sanitized name is clean. *)
Lemma sanitize_filename_clean x : clean_name (sanitize_filename x).
Proof.
  destruct (sanitize_filename_cases x) as [[_ ->] | [Hne ->]].
  - split; [discriminate|]. split; [repeat constructor|]. split; reflexivity.
  - now apply stripped_name_clean.
Qed.

Lemma clean_name_no_slash x :
  clean_name x -> existsb (Ascii.eqb "/") (Py.chars x) = false.
Proof. intros (_ & Hres & _). now apply unreserved_no_slash. Qed.

Lemma clean_name_head x :
  clean_name x -> exists c l, Py.chars x = c :: l /\ Py.mem c ". " = false.
Proof.
  intros (Hne & _ & Hl & _). apply lstrip_by_fix in Hl.
  destruct (Py.chars x) as [|c l] eqn:E.
  - exfalso. apply Hne. apply chars_inj. now rewrite E.
  - eauto.
Qed.

Lemma starts_app pre l : Py.starts pre (pre ++ l) = true.
Proof.
  induction pre as [|a pre IH]; [reflexivity|]. simpl.
  now rewrite Ascii.eqb_refl, IH.
Qed.

Lemma starts_decompose pre l :
  Py.starts pre l = true -> exists m, l = pre ++ m.
Proof.
  revert l. induction pre as [|a pre IH]; intros l; simpl.
  - eauto.
  - destruct l as [|b l]; [discriminate|]. intros Hs.
    apply andb_true_iff in Hs as [Hab Hs]. apply Ascii.eqb_eq in Hab.
    subst b. destruct (IH _ Hs) as [m ->]. eauto.
Qed.

Lemma endswith_append s suf : Py.endswith (s +:+ suf) suf = true.
Proof.
  unfold Py.endswith. rewrite chars_append, rev_app_distr. apply starts_app.
Qed.

Lemma endswith_decompose s suf :
  Py.endswith s suf = true -> exists stem, s = stem +:+ suf.
Proof.
  unfold Py.endswith. intros Hs. apply starts_decompose in Hs as [m Hm].
  exists (Py.of_chars (rev m)). apply chars_inj.
  rewrite chars_append, chars_of_chars.
  rewrite <- (rev_involutive (Py.chars s)), Hm, rev_app_distr.
  now rewrite rev_involutive.
Qed.

(** The derived file name is a stem that is not empty followed by the
    extension, when the extension starts with a dot. *)
Lemma ext_filename_stem ext n :
  Py.startswith ext "." = true ->
  exists stem, stem <> "" /\ ext_filename ext n = stem +:+ ext.
Proof.
  intros Hdot. unfold ext_filename. cbv zeta.
  pose proof (sanitize_filename_clean n) as Hclean.
  destruct (Py.endswith (sanitize_filename n) ext) eqn:He; cbn [negb].
  - apply endswith_decompose in He as [stem Hstem].
    exists stem. split; [|exact Hstem]. intros ->.
    apply clean_name_head in Hclean as (c & l & Hc & Hm).
    rewrite Hstem in Hc. change ("" +:+ ext) with ext in Hc.
    unfold Py.startswith in Hdot. rewrite Hc in Hdot.
    change (Py.chars ".") with ["."%char] in Hdot. cbn [Py.starts] in Hdot.
    rewrite andb_true_r in Hdot.
    apply Ascii.eqb_eq in Hdot. subst c. discriminate Hm.
  - exists (sanitize_filename n). split; [|reflexivity]. apply Hclean.
Qed.

Lemma ext_filename_endswith ext n : Py.endswith (ext_filename ext n) ext = true.
Proof.
  unfold ext_filename. cbv zeta.
  destruct (Py.endswith (sanitize_filename n) ext) eqn:He; cbn [negb].
  - exact He.
  - apply endswith_append.
Qed.

Lemma ext_filename_no_slash ext n :
  Py.mem "/" ext = false ->
  existsb (Ascii.eqb "/") (Py.chars (ext_filename ext n)) = false.
Proof.
  intros Hext. pose proof (clean_name_no_slash _ (sanitize_filename_clean n)) as Hs.
  unfold ext_filename. cbv zeta.
  destruct (Py.endswith (sanitize_filename n) ext); cbn [negb]; [exact Hs|].
  rewrite chars_append, existsb_app, Hs. exact Hext.
Qed.

Lemma ext_filename_is_name ext n :
  Py.startswith ext "." = true -> (1 <? Py.len ext)%nat = true ->
  is_name (ext_filename ext n) = true
  /\ String.eqb (ext_filename ext n) ".." = false.
Proof.
  intros Hdot Hlen. destruct (ext_filename_stem ext n Hdot) as (stem & Hne & ->).
  assert (Hl : (3 <= Py.len (stem +:+ ext))%nat).
  { unfold Py.len in *. rewrite chars_append, length_app.
    apply Nat.ltb_lt in Hlen.
    destruct (Py.chars stem) as [|c l] eqn:E.
    - exfalso. apply Hne. apply chars_inj. now rewrite E.
    - simpl. lia. }
  unfold is_name. split.
  - destruct (String.eqb (stem +:+ ext) "") eqn:E1.
    { apply String.eqb_eq in E1. rewrite E1 in Hl. cbn in Hl. lia. }
    destruct (String.eqb (stem +:+ ext) ".") eqn:E2; [|reflexivity].
    apply String.eqb_eq in E2. rewrite E2 in Hl. cbn in Hl. lia.
  - destruct (String.eqb (stem +:+ ext) "..") eqn:E; [|reflexivity].
    apply String.eqb_eq in E. rewrite E in Hl. cbn in Hl. lia.
Qed.

(** Joining a name without slash that is a name puts it directly under
    the path. *)
Lemma Path_joinpath_single (root : Path) (name : string) :
  existsb (Ascii.eqb "/") (Py.chars name) = false -> is_name name = true ->
  Path_joinpath root name = root ++ [name].
Proof.
  intros Hs Hname.
  unfold Path_joinpath, Py.split, Py.startswith.
  rewrite (split_on_sep_free _ _ Hs). cbn [List.map List.filter].
  rewrite of_chars_chars, Hname.
  destruct (Py.chars name) as [|c l]; [reflexivity|].
  cbn [existsb] in Hs. apply orb_false_iff in Hs as [Hc _].
  change (Py.chars "/") with ["/"%char]. cbn [Py.starts].
  rewrite Hc. reflexivity.
Qed.

Lemma mem_ext_filename c ext n :
  Py.mem c reserved_chars = false -> Py.mem c "_. output" = false ->
  Py.mem c ext = false ->
  Py.mem c (ext_filename ext n) = Py.mem c n.
Proof.
  intros Hres Hother Hext. unfold ext_filename. cbv zeta.
  destruct (Py.endswith (sanitize_filename n) ext); cbn [negb].
  - now apply mem_sanitize_filename.
  - rewrite mem_append, Hext, orb_false_r. now apply mem_sanitize_filename.
Qed.

Lemma ext_filename_no_forbidden ext n :
  no_forbidden ext -> no_forbidden (ext_filename ext n).
Proof.
  intros Hext.
  assert (Hs : no_forbidden (sanitize_filename n)).
  { destruct (sanitize_filename_clean n) as (_ & Hres & _).
    unfold no_forbidden. apply forallb_forall. intros c Hc.
    rewrite Forall_forall in Hres. apply list_elem_of_In in Hc.
    specialize (Hres c Hc). unfold unreserved in Hres.
    apply negb_true_iff.
    destruct (Py.mem c forbidden_chars) eqn:Hf; [|reflexivity].
    exfalso. revert Hres Hf. clear.
    destruct c as [[] [] [] [] [] [] [] []]; vm_compute; congruence. }
  unfold ext_filename. cbv zeta.
  destruct (Py.endswith (sanitize_filename n) ext); cbn [negb]; [exact Hs|].
  unfold no_forbidden in *. now rewrite chars_append, forallb_app, Hs, Hext.
Qed.


Lemma lstrip_by_app_fix (p : ascii -> bool) a b :
  a <> [] -> Py.lstrip_by p a = a -> Py.lstrip_by p (a ++ b) = a ++ b.
Proof.
  intros Hne Ha. apply lstrip_by_fix in Ha. apply lstrip_by_fix.
  destruct a as [|c a]; [congruence | exact Ha].
Qed.

Lemma chars_nonempty s : s <> "" <-> Py.chars s <> [].
Proof.
  split; intros Hne E; apply Hne.
  - apply chars_inj. now rewrite E.
  - now subst s.
Qed.

(** A clean name stays clean when an extension of unreserved characters
    that does not end in a dot or a blank is appended. *)
Lemma clean_name_append c ext :
  clean_name c -> ext <> "" -> Forall unreserved (Py.chars ext) ->
  Py.lstrip_by (fun a => Py.mem a ". ") (rev (Py.chars ext)) = rev (Py.chars ext) ->
  clean_name (c +:+ ext).
Proof.
  intros (Hne & Hres & Hl & Hr) Hext Hures Hlast.
  apply chars_nonempty in Hne. apply chars_nonempty in Hext.
  unfold clean_name. rewrite chars_append, rev_app_distr.
  split; [|split; [|split]].
  - apply chars_nonempty. rewrite chars_append.
    destruct (Py.chars c); [congruence | discriminate].
  - apply Forall_app. now split.
  - now apply lstrip_by_app_fix.
  - apply lstrip_by_app_fix; [|exact Hlast].
    intros E. apply Hext. apply (f_equal (@rev ascii)) in E.
    now rewrite rev_involutive in E.
Qed.

Lemma clean_name_fixed x : clean_name x -> sanitize_filename x = x.
Proof.
  intros Hc. pose proof (clean_name_stripped x Hc) as Hs.
  destruct (sanitize_filename_cases x) as [[He _] | [_ ->]]; [|exact Hs].
  destruct Hc as [Hne _]. congruence.
Qed.

Lemma ext_filename_clean ext n :
  ext <> "" -> Forall unreserved (Py.chars ext) ->
  Py.lstrip_by (fun a => Py.mem a ". ") (rev (Py.chars ext)) = rev (Py.chars ext) ->
  clean_name (ext_filename ext n).
Proof.
  intros Hext Hures Hlast. unfold ext_filename. cbv zeta.
  destruct (Py.endswith (sanitize_filename n) ext); cbn [negb].
  - apply sanitize_filename_clean.
  - apply clean_name_append; auto using sanitize_filename_clean.
Qed.

Lemma ext_filename_idem ext n :
  ext <> "" -> Forall unreserved (Py.chars ext) ->
  Py.lstrip_by (fun a => Py.mem a ". ") (rev (Py.chars ext)) = rev (Py.chars ext) ->
  ext_filename ext (ext_filename ext n) = ext_filename ext n.
Proof.
  intros Hext Hures Hlast.
  pose proof (ext_filename_clean ext n Hext Hures Hlast) as Hc.
  unfold ext_filename at 1. cbv zeta.
  rewrite (clean_name_fixed _ Hc), ext_filename_endswith. reflexivity.
Qed.

Lemma clean_name_is_name y :
  clean_name y -> is_name y = true /\ String.eqb y ".." = false.
Proof.
  intros Hc. destruct (clean_name_head _ Hc) as (c & l & Hy & Hm).
  unfold is_name.
  destruct (String.eqb y "") eqn:E0.
  { apply String.eqb_eq in E0. subst y. discriminate. }
  destruct (String.eqb y ".") eqn:E1.
  { apply String.eqb_eq in E1. subst y. injection Hy as <- _. discriminate. }
  destruct (String.eqb y "..") eqn:E2.
  { apply String.eqb_eq in E2. subst y. injection Hy as <- _. discriminate. }
  auto.
Qed.

(** X1. Whatever the name, [sanitize_filename] returns one path component
    that is safe to use: it has none of the reserved characters
    [< > : quote / \ | ? *], so no separator; it neither starts nor ends with
    a dot or a blank; it is not empty, not [.] and not [..]; and joined to
    any directory it names an entry directly in that directory. *)
Theorem sanitize_filename_safe_component (x : string) :
  let y := sanitize_filename x in
  Forall unreserved (Py.chars y)
  /\ Py.mem "/" y = false
  /\ (forall c l, Py.chars y = c :: l -> Py.mem c ". " = false)
  /\ (forall c l, Py.chars y = l ++ [c] -> Py.mem c ". " = false)
  /\ y <> "" /\ y <> "." /\ y <> ".."
  /\ forall root : Path, Path_joinpath root y = root ++ [y].
Proof.
  intros y. pose proof (sanitize_filename_clean x) as Hc. fold y in Hc.
  pose proof (clean_name_no_slash _ Hc) as Hslash.
  destruct (clean_name_is_name _ Hc) as [Hname Hdd].
  pose proof Hc as (Hne & Hres & Hl & Hr).
  split; [exact Hres|]. split; [exact Hslash|].
  split; [|split].
  - intros c l E. apply lstrip_by_fix in Hl. now rewrite E in Hl.
  - intros c l E. apply lstrip_by_fix in Hr.
    rewrite E, rev_app_distr in Hr. exact Hr.
  - split; [exact Hne|]. split; [|split].
    + intros E. rewrite E in Hname. discriminate.
    + intros E. rewrite E in Hdd. discriminate.
    + intros root. now apply Path_joinpath_single.
Qed.

(** X2. The names that [sanitize_filename] returns unchanged are exactly
    the names that are not empty, have no reserved character and neither
    start nor end with a dot or a blank. *)
Theorem sanitize_filename_fixed_points (x : string) :
  sanitize_filename x = x <-> clean_name x.
Proof.
  split.
  - intros E. rewrite <- E. apply sanitize_filename_clean.
  - apply clean_name_fixed.
Qed.

(** X3. The file names that [generate_dot_file] and [generate_png] derive
    from the name they are given always end in [.dot] and in [.png]; they
    pass through the derivation unchanged when they are given again; and
    joined to the output root they name an entry directly in it. *)
Theorem derived_filenames (filename : string) :
  (Py.endswith (dot_filename filename) ".dot" = true
   /\ dot_filename (dot_filename filename) = dot_filename filename
   /\ forall root : Path,
        Path_joinpath root (dot_filename filename)
        = root ++ [dot_filename filename])
  /\ (Py.endswith (png_filename filename) ".png" = true
      /\ png_filename (png_filename filename) = png_filename filename
      /\ forall root : Path,
           Path_joinpath root (png_filename filename)
           = root ++ [png_filename filename]).
Proof.
  assert (Hgen : forall ext,
    ext <> "" -> Forall unreserved (Py.chars ext) ->
    Py.lstrip_by (fun a => Py.mem a ". ") (rev (Py.chars ext))
    = rev (Py.chars ext) ->
    Py.endswith (ext_filename ext filename) ext = true
    /\ ext_filename ext (ext_filename ext filename) = ext_filename ext filename
    /\ forall root : Path,
         Path_joinpath root (ext_filename ext filename)
         = root ++ [ext_filename ext filename]).
  { intros ext Hext Hures Hlast.
    split; [apply ext_filename_endswith|].
    split; [now apply ext_filename_idem|].
    intros root.
    pose proof (ext_filename_clean ext filename Hext Hures Hlast) as Hc.
    apply Path_joinpath_single.
    - now apply clean_name_no_slash.
    - now apply clean_name_is_name. }
  split.
  - apply (Hgen ".dot"); [discriminate | repeat constructor | reflexivity].
  - apply (Hgen ".png"); [discriminate | repeat constructor | reflexivity].
Qed.

(** ** What the filesystem calls leave alone *)

Section Frames.

Context `{Platform}.

(** What a successful write has done: the entry is now a file with the
    encoded text, it was no directory before, and nothing else changed. *)
Lemma open_w_write_frame w p text f f' :
  open_w_write w p text f = (Ok tt, f') ->
  (exists fw, f' = <[p := File fw (Py.encode_utf8 text)]> f)
  /\ (f !! p = None \/ exists fw old, f !! p = Some (File fw old)).
Proof.
  intros Hw. apply open_w_write_spec in Hw as (Hch & _).
  destruct Hch as [[_ ?] | [(fw & data & -> & Hdata) Hold]]; [discriminate|].
  rewrite (Hdata eq_refl). eauto.
Qed.

End Frames.

(** ** The derived paths *)

Lemma dot_filename_joinpath (root : Path) n :
  Path_joinpath root (dot_filename n) = root ++ [dot_filename n].
Proof.
  apply Path_joinpath_single.
  - now apply ext_filename_no_slash.
  - now apply ext_filename_is_name.
Qed.

Lemma png_filename_joinpath (root : Path) n :
  Path_joinpath root (png_filename n) = root ++ [png_filename n].
Proof.
  apply Path_joinpath_single.
  - now apply ext_filename_no_slash.
  - now apply ext_filename_is_name.
Qed.

Lemma append_empty_r s : s +:+ "" = s.
Proof. apply chars_inj. rewrite chars_append. apply app_nil_r. Qed.

Lemma split_suffix_png stem :
  stem <> "" -> split_suffix (stem +:+ ".png") = (stem, ".png").
Proof.
  intros Hne. apply chars_nonempty in Hne. unfold split_suffix.
  rewrite chars_append, rev_app_distr.
  change (rev (Py.chars ".png")) with ["g"; "n"; "p"; "."]%char.
  cbn [app cut_last_dot Ascii.eqb Bool.eqb].
  destruct (rev (Py.chars stem)) as [|c r'] eqn:E.
  - exfalso. apply Hne. apply (f_equal (@rev ascii)) in E.
    now rewrite rev_involutive in E.
  - rewrite <- E, rev_involutive, of_chars_chars. reflexivity.
Qed.

Lemma png_stem_png n : png_stem n +:+ ".png" = png_filename n.
Proof.
  unfold png_stem, png_filename.
  destruct (ext_filename_stem ".png" n eq_refl) as (stem & Hne & ->).
  now rewrite split_suffix_png.
Qed.

Lemma Path_with_suffix_png (root : Path) n :
  Path_with_suffix (root ++ [png_filename n]) "" = Ok (root ++ [png_stem n])
  /\ Path_with_suffix (root ++ [png_filename n]) ".png"
     = Ok (root ++ [png_filename n]).
Proof.
  unfold Path_with_suffix. rewrite rev_app_distr. cbn [rev app].
  rewrite rev_involutive. fold (png_stem n).
  now rewrite append_empty_r, png_stem_png.
Qed.

Lemma mem_join_last c sep (p : Path) name :
  Py.mem c name = true -> Py.mem c (Py.join sep (p ++ [name])) = true.
Proof.
  intros Hc. induction p as [|a p IH]; [exact Hc|].
  cbn [app]. destruct (p ++ [name]) as [|b l] eqn:E.
  - destruct p; discriminate.
  - cbn [Py.join]. cbn [Py.join] in IH.
    rewrite !mem_append. rewrite IH. now rewrite !orb_true_r.
Qed.

Lemma mem_Path_str_last c (p : Path) name :
  Py.mem c name = true -> Py.mem c (Path_str (p ++ [name])) = true.
Proof.
  intros Hc. unfold Path_str. rewrite mem_append, (mem_join_last _ _ _ _ Hc).
  apply orb_true_r.
Qed.

Section DerivedPaths.

Context `{Platform}.


Lemma write_dot_unfold d n st :
  write_dot d n st
  = let root := effective_root st in
    let file_path := root ++ [dot_filename n] in
    match Path_mkdir umask_w root (fs st) with
    | Err e =>
        (Err (FileOperationError
                ("Failed to create output directory: " +:+ str_exn e)),
         {| fs := snd (mkdir_p umask_w root (fs st));
            _output_directory := Some root;
            log := log st; renders := renders st |})
    | Ok f1 =>
        match validate_path_security (Path_str file_path) (Some root)
                {| fs := f1; _output_directory := Some root;
                   log := log st; renders := renders st |} with
        | (Err e, s2) => (Err e, s2)
        | (Ok _, s2) =>
            match open_w_write umask_w file_path d (fs s2) with
            | (Ok _, f2) => (Ok file_path, with_fs s2 f2)
            | (Err e, f2) =>
                (Err (FileOperationError
                        ("Failed to write DOT file: " +:+ str_exn e)),
                 with_fs s2 f2)
            end
        end
    end.
Proof.
  unfold write_dot. run_monad.
  rewrite ensure_output_directory_unfold. cbv zeta.
  fold (effective_root st). fold (dot_filename n).
  destruct (Path_mkdir umask_w (effective_root st) (fs st)) as [f1|e];
    [|reflexivity].
  rewrite dot_filename_joinpath.
  destruct (validate_path_security _ _ _) as [[q|e] s2]; [|reflexivity].
  destruct (open_w_write _ _ _ (fs s2)) as [[[]|e] f2]; reflexivity.
Qed.

Lemma render_png_unfold d n st :
  render_png d n st
  = let root := effective_root st in
    let file_path := root ++ [png_filename n] in
    match Path_mkdir umask_w root (fs st) with
    | Err e =>
        (Err (FileOperationError
                ("Failed to create output directory: " +:+ str_exn e)),
         {| fs := snd (mkdir_p umask_w root (fs st));
            _output_directory := Some root;
            log := log st; renders := renders st |})
    | Ok f1 =>
        match validate_path_security (Path_str file_path) (Some root)
                {| fs := f1; _output_directory := Some root;
                   log := log st; renders := renders st |} with
        | (Err e, s2) => (Err e, s2)
        | (Ok _, s2) =>
            let call := png_render_call root d n in
            let s3 f2 := {| fs := f2; _output_directory := _output_directory s2;
                            log := log s2; renders := renders s2 ++ [call] |} in
            match Source_render call (fs s2) with
            | (Err e, f2) =>
                (Err (FileOperationError
                        ("Failed to render PNG: " +:+ str_exn e)), s3 f2)
            | (Ok _, f2) =>
                if exists_ f2 file_path then (Ok file_path, s3 f2)
                else (Err (FileOperationError
                             "Failed to render PNG: PNG file was not created successfully"),
                      s3 f2)
            end
        end
    end.
Proof.
  unfold render_png, source_render, png_render_call. run_monad.
  rewrite ensure_output_directory_unfold. cbv zeta.
  fold (effective_root st). fold (ext_filename ".png" n). fold (png_filename n).
  destruct (Path_mkdir umask_w (effective_root st) (fs st)) as [f1|e];
    [|reflexivity].
  rewrite png_filename_joinpath.
  destruct (validate_path_security _ _ _) as [[q|e] s2]; [|reflexivity].
  destruct (Path_with_suffix_png (effective_root st) n) as [-> ->].
  destruct (Source_render _ (fs s2)) as [[out|e] f2];
    cbn [fs _output_directory log renders]; [|reflexivity].
  destruct (exists_ f2 _); reflexivity.
Qed.

End DerivedPaths.

(** ** Texts and paths *)

Lemma encode_utf8_ascii d :
  Forall (fun c => (Py.code c < 128)%nat) (Py.chars d) -> Py.encode_utf8 d = d.
Proof.
  intros Hd. apply chars_inj. unfold Py.encode_utf8. rewrite chars_of_chars.
  apply concat_map_singletons. eapply Forall_impl; [exact Hd|].
  intros c Hc. unfold Py.utf8_char. apply Nat.ltb_lt in Hc. now rewrite Hc.
Qed.

Lemma not_within_child (root : Path) name : ~ within (root ++ [name]) root.
Proof.
  intros [rest E]. apply (f_equal (@length string)) in E.
  rewrite !length_app in E. simpl in E. lia.
Qed.

Lemma child_ne_root (root : Path) name : root ++ [name] <> root.
Proof.
  intros E. apply (f_equal (@length string)) in E.
  rewrite length_app in E. simpl in E. lia.
Qed.

Lemma append_assoc a b c : (a +:+ b) +:+ c = a +:+ (b +:+ c).
Proof. apply chars_inj. rewrite !chars_append. now rewrite app_assoc. Qed.

Lemma join_last_append sep (p : Path) a s :
  Py.join sep (p ++ [a]) +:+ s = Py.join sep (p ++ [a +:+ s]).
Proof.
  induction p as [|b p IH]; [reflexivity|].
  cbn [app]. destruct p as [|b' p].
  - cbn [app Py.join]. now rewrite !append_assoc.
  - cbn [app Py.join] in *. now rewrite !append_assoc, IH.
Qed.

Lemma Path_str_last_append (p : Path) a s :
  Path_str (p ++ [a]) +:+ s = Path_str (p ++ [a +:+ s]).
Proof. unfold Path_str. now rewrite append_assoc, join_last_append. Qed.


(** ** [resolve] gives canonical paths *)

Lemma split_on_Forall sep (P : ascii -> Prop) l :
  Forall P l -> Forall (Forall P) (Py.split_on sep l).
Proof.
  induction 1 as [|c l Hc Hl IH]; cbn [Py.split_on].
  - repeat constructor.
  - destruct (Ascii.eqb c sep).
    + constructor; [constructor | exact IH].
    + destruct (Py.split_on sep l) as [|w ws].
      * repeat constructor. exact Hc.
      * inversion IH; subst. constructor; [constructor|]; assumption.
Qed.

Lemma split_on_no_sep sep l :
  Forall (fun w => existsb (Ascii.eqb sep) w = false) (Py.split_on sep l).
Proof.
  induction l as [|c l IH]; cbn [Py.split_on].
  - repeat constructor.
  - destruct (Ascii.eqb c sep) eqn:E.
    + constructor; [reflexivity | exact IH].
    + rewrite Ascii.eqb_sym in E.
      destruct (Py.split_on sep l) as [|w ws].
      * repeat constructor. cbn [existsb]. now rewrite E.
      * inversion IH; subst. constructor; [|assumption].
        cbn [existsb]. now rewrite E.
Qed.

Lemma existsb_false_Forall (c : ascii) l :
  existsb (Ascii.eqb c) l = false <-> Forall (fun a => Ascii.eqb c a = false) l.
Proof.
  induction l as [|a l IH]; cbn [existsb].
  - split; [constructor | reflexivity].
  - rewrite orb_false_iff, IH. split.
    + intros [Ha Hl]. now constructor.
    + intros Hx. inversion Hx; subst. auto.
Qed.

Lemma canonical_removelast p : canonical p -> canonical (removelast p).
Proof.
  unfold canonical. induction p as [|n p IH]; [auto|].
  cbn [forallb]. intros Hp. apply andb_true_iff in Hp as [Hn Hp].
  destruct p as [|m p]; [reflexivity|].
  change (removelast (n :: m :: p)) with (n :: removelast (m :: p)).
  cbn [forallb]. rewrite Hn. exact (IH Hp).
Qed.

Lemma realpath_step_canonical acc c :
  canonical acc -> Py.mem "/" c = false -> Py.mem "000" c = false ->
  canonical (realpath_step acc c).
Proof.
  intros Hacc Hs Hn. unfold realpath_step.
  destruct (is_name c) eqn:Hname; cbn [negb]; [|exact Hacc].
  destruct (String.eqb c "..") eqn:Hdd.
  - now apply canonical_removelast.
  - apply canonical_app; [exact Hacc|]. unfold canonical, proper_name.
    cbn [forallb]. now rewrite Hname, Hdd, Hs, Hn.
Qed.

Lemma realpath_is_canonical cwd s :
  canonical cwd -> Py.mem "000" s = false -> canonical (realpath cwd s).
Proof.
  intros Hcwd Hn. unfold realpath, Py.split.
  assert (Hstart : canonical (if Py.startswith s "/" then [] else cwd)).
  { destruct (Py.startswith s "/"); [reflexivity | exact Hcwd]. }
  revert Hstart. generalize (if Py.startswith s "/" then [] else cwd).
  pose proof (split_on_no_sep "/" (Py.chars s)) as Hsep.
  apply existsb_false_Forall in Hn.
  pose proof (split_on_Forall "/" _ _ Hn) as Hnul.
  induction (Py.split_on "/" (Py.chars s)) as [|w ws IH]; intros acc Hacc.
  - exact Hacc.
  - inversion Hsep; subst. inversion Hnul; subst.
    cbn [List.map List.fold_left]. apply IH; [assumption | assumption|].
    apply realpath_step_canonical; [exact Hacc | |].
    + unfold Py.mem. now rewrite chars_of_chars.
    + unfold Py.mem. rewrite chars_of_chars. now apply existsb_false_Forall.
Qed.

Section RootFacts.

Context `{Platform}.

Lemma write_dot_root d n st :
  _output_directory (snd (write_dot d n st)) = Some (effective_root st).
Proof.
  rewrite write_dot_unfold. cbv zeta.
  destruct (Path_mkdir _ _ _) as [f1|e]; [|reflexivity].
  destruct (validate_path_security _ _ _) as [[p|e] s2] eqn:Hp;
    apply validate_path_security_state in Hp as [entries ->];
    [|reflexivity].
  cbn [with_log fs]. now destruct (open_w_write _ _ _ _) as [[[]|e] f2].
Qed.

Lemma render_png_root d n st :
  _output_directory (snd (render_png d n st)) = Some (effective_root st).
Proof.
  rewrite render_png_unfold. cbv zeta.
  destruct (Path_mkdir _ _ _) as [f1|e]; [|reflexivity].
  destruct (validate_path_security _ _ _) as [[p|e] s2] eqn:Hp;
    apply validate_path_security_state in Hp as [entries ->];
    [|reflexivity].
  cbn [with_log fs _output_directory log renders].
  destruct (Source_render _ _) as [[out|e] f2]; [|reflexivity].
  now destruct (exists_ f2 _).
Qed.

Lemma ensure_output_directory_root_after st :
  _output_directory (snd (ensure_output_directory st))
  = Some (effective_root st).
Proof.
  rewrite ensure_output_directory_unfold. cbv zeta.
  fold (effective_root st). now destruct (Path_mkdir _ _ _).
Qed.

Lemma generate_dot_file_root_after d n st :
  _output_directory (snd (generate_dot_file d n st))
  = (if is_ok (fst (validate_dot_content d st))
     then Some (effective_root st) else _output_directory st).
Proof.
  rewrite generate_dot_file_unfold. cbv zeta.
  destruct (validate_dot_content d st) as [rv st1] eqn:Hv.
  apply validate_dot_content_result in Hv as [-> _].
  destruct rv as [[]|e]; [|reflexivity]. cbn [fst is_ok].
  pose proof (write_dot_root d n st) as Hr.
  destruct (write_dot d n st) as [[p|e] s2]; exact Hr.
Qed.

Lemma generate_png_root_after d n w h st :
  _output_directory (snd (generate_png d n w h st))
  = (if is_ok (fst (validate_dot_content d st))
        && negb ((w <=? 0) || (h <=? 0))
        && negb ((10000 <? w) || (10000 <? h))
     then Some (effective_root st) else _output_directory st).
Proof.
  rewrite generate_png_unfold. cbv zeta.
  destruct (validate_dot_content d st) as [rv st1] eqn:Hv.
  apply validate_dot_content_result in Hv as [-> _].
  destruct rv as [[]|e]; [|reflexivity]. cbn [fst is_ok andb].
  destruct ((w <=? 0) || (h <=? 0)); [reflexivity|].
  destruct ((10000 <? w) || (10000 <? h)); [reflexivity|].
  cbn [negb andb].
  pose proof (render_png_root d n st) as Hr.
  destruct (render_png d n st) as [[p|e] s2]; exact Hr.
Qed.

(** What [set_output_location_file] records: the validated path when it
    returns, else what was recorded. *)
Lemma set_output_location_file_root_after directory_path st :
  let run := set_output_location_file directory_path st in
  (forall msg, fst run = Ok msg ->
     Py.mem "000" directory_path = false
     /\ no_forbidden (Path_str (realpath getcwd directory_path))
     /\ _output_directory (snd run) = Some (realpath getcwd directory_path)
     /\ msg = "Output directory successfully set to: "
              +:+ Path_str (realpath getcwd directory_path)
     /\ is_dir (fs (snd run)) (realpath getcwd directory_path) = true
     /\ access_W_OK (fs (snd run)) (realpath getcwd directory_path) = true
     /\ (fs_wf (fs st) -> fs_wf (fs (snd run))))
  /\ (is_ok (fst run) = false ->
      _output_directory (snd run) = _output_directory st).
Proof.
  intros run. subst run. rewrite set_output_location_file_unfold. cbv zeta.
  rewrite validate_path_security_unfold. cbv zeta.
  destruct (Py.mem "000" directory_path);
    [split; [discriminate | reflexivity]|].
  destruct (Re.match_anchored DOT_BASIC_VALIDATION _) eqn:Hm; cbn [negb];
    [|split; [discriminate | reflexivity]].
  apply DOT_BASIC_VALIDATION_spec in Hm.
  cbn [with_log fs _output_directory log renders].
  destruct (Path_mkdir _ _ _) as [f'|e] eqn:Hmk;
    [|split; [discriminate | reflexivity]].
  apply Path_mkdir_Ok in Hmk as [Hd Hwf].
  destruct (access_W_OK f' _) eqn:Hw;
    [|split; [discriminate | reflexivity]].
  cbn [fst snd fs _output_directory]. split; [|discriminate].
  intros msg [= <-]. auto 10.
Qed.

End RootFacts.

(** ** The tools: what they write and what they leave alone *)

Lemma warnings_WARNING p : Forall (fun entry => fst entry = WARNING) (warnings p).
Proof.
  unfold warnings. apply Forall_forall. intros x Hx.
  apply list_elem_of_In, in_map_iff in Hx as [part [<- _]]. reflexivity.
Qed.

Lemma logged_as_intro prefix e (s s' : State) warned :
  Forall (fun entry => fst entry = WARNING) warned ->
  log s' = log s ++ warned ->
  logged_as prefix s (Err e, with_log s' [(ERROR, prefix +:+ str_exn e)]) e.
Proof.
  intros Hw Hl. exists warned. split; [exact Hw|].
  cbn [snd with_log log]. now rewrite Hl, <- app_assoc.
Qed.

(** A failure in the outer handler of a tool: the exception is kept, and
    logged after the warnings [warned]. *)
Ltac failed_with warned :=
  unfold tool_failed, reraised;
  cbn [isinstance class_of existsb exn_class_eqb orb fst snd];
  intros [= <-]; split; [reflexivity|];
  apply (logged_as_intro _ _ _ _ warned);
  [ first [ apply warnings_WARNING | constructor ]
  | cbn [log with_log]; first [ reflexivity | now rewrite app_nil_r ] ].

Section RunLemmas.

Context `{Platform}.

Lemma effective_root_clean st :
  clean_root default_output_directory -> root_ok st ->
  clean_root (effective_root st).
Proof.
  intros Hdef Hst. unfold effective_root.
  destruct (_output_directory st) as [d|] eqn:E; [now apply Hst | exact Hdef].
Qed.

(** [validate_path_security] changes nothing but the log, and the log on
    success only. *)
Lemma validate_path_security_outcome file_path base st :
  match validate_path_security file_path base st with
  | (Ok c, st') => st' = with_log st (warnings c)
  | (Err e, st') => st' = st /\ exists m, e = SecurityError m
  end.
Proof.
  rewrite validate_path_security_unfold. cbv zeta.
  repeat case_match; simplify_eq; eauto.
Qed.


(** The path check of an entry directly under the root, where [resolve]
    leaves both as they are and neither has a forbidden character. *)
Lemma validate_resolved_child root name st :
  Path_resolve root = Ok root -> no_forbidden (Path_str root) ->
  no_forbidden name ->
  Path_resolve (root ++ [name]) = Ok (root ++ [name]) ->
  validate_path_security (Path_str (root ++ [name])) (Some root) st
  = (Ok (root ++ [name]), with_log st (warnings (root ++ [name]))).
Proof.
  unfold Path_resolve. intros HR Hfr Hfn HP.
  apply Path_resolve_str_Ok in HR as [HRn HRc].
  apply Path_resolve_str_Ok in HP as [HPn HPc].
  rewrite validate_path_security_unfold. cbv zeta.
  rewrite HPn, HRn, <- HPc, <- HRc.
  assert (Hok : no_forbidden (Path_str (root ++ [name]))).
  { apply no_forbidden_Path_str, Forall_app. split.
    - now apply no_forbidden_Path_str.
    - now repeat constructor. }
  apply DOT_BASIC_VALIDATION_spec in Hok. rewrite Hok. cbn [negb].
  assert (Hpre : is_prefix_of root (root ++ [name]) = true).
  { apply is_prefix_of_within. now exists [name]. }
  now rewrite Hpre.
Qed.

(** A NUL character in the name makes the path check fail. *)
Lemma validate_nul_child ext (root : Path) n base st :
  Py.mem "000" ext = false -> Py.mem "000" n = true ->
  validate_path_security (Path_str (root ++ [ext_filename ext n])) base st
  = (Err (SecurityError "Path validation failed: embedded null byte"), st).
Proof.
  intros Hext Hn. rewrite validate_path_security_unfold.
  rewrite mem_Path_str_last; [reflexivity|].
  rewrite mem_ext_filename; auto.
Qed.

(** What [write_dot] has done when it returns. *)
Lemma write_dot_Ok d n st p st' :
  write_dot d n st = (Ok p, st') ->
  let root := effective_root st in
  p = root ++ [dot_filename n]
  /\ read_bytes (fs st') p = Some (Py.encode_utf8 d)
  /\ is_dir (fs st') root = true
  /\ _output_directory st' = Some root
  /\ renders st' = renders st
  /\ exists validated, log st' = log st ++ warnings validated.
Proof.
  intros Hrun root. revert Hrun. rewrite write_dot_unfold. cbv zeta.
  fold root.
  destruct (Path_mkdir umask_w root (fs st)) as [f1|e] eqn:Hm; [|discriminate].
  apply Path_mkdir_Ok in Hm as [Hdir _].
  pose proof (validate_path_security_outcome
                (Path_str (root ++ [dot_filename n])) (Some root)
                {| fs := f1; _output_directory := Some root;
                   log := log st; renders := renders st |}) as Hv.
  destruct (validate_path_security _ _ _) as [[q|e] s2]; [|discriminate].
  subst s2. cbn [with_log fs].
  destruct (open_w_write umask_w _ d f1) as [[[]|e] f2] eqn:Hw; [|discriminate].
  intros [= <- <-]. cbn [with_log with_fs fs _output_directory log renders].
  pose proof (open_w_write_Ok _ _ _ _ _ Hw) as Hread.
  split; [reflexivity|]. split; [exact Hread|]. split; [|eauto].
  apply open_w_write_frame in Hw as [[fw ->] _].
  unfold is_dir. rewrite stat_insert_ne; [exact Hdir|]. apply child_ne_root.
Qed.

(** What [generate_dot_file] has done when it returns. *)
Lemma generate_dot_file_Ok d n st msg st' :
  generate_dot_file d n st = (Ok msg, st') ->
  let root := effective_root st in
  let file_path := root ++ [dot_filename n] in
  msg = "DOT file successfully created: " +:+ Path_str file_path
  /\ read_bytes (fs st') file_path = Some (Py.encode_utf8 d)
  /\ is_dir (fs st') root = true
  /\ _output_directory st' = Some root
  /\ renders st' = renders st.
Proof.
  intros Hrun root file_path. revert Hrun.
  rewrite generate_dot_file_unfold. cbv zeta.
  destruct (validate_dot_content d st) as [rv st1] eqn:Hv.
  apply validate_dot_content_result in Hv as [-> _].
  destruct rv as [[]|e]; [|discriminate].
  destruct (write_dot d n st) as [[p|e] s2] eqn:Hw; [|discriminate].
  apply write_dot_Ok in Hw as (-> & Hread & Hdir & Hroot & Hrend & _).
  intros [= <- <-]. cbn [with_log fs _output_directory renders]. auto.
Qed.

End RunLemmas.

Section Confinement.

Context `{Platform}.

(** X4. [generate_dot_file] touches the filesystem in two places only.
    It may add directories at the output root or above it, where nothing
    was; they stay when the call fails afterwards.  And it may create or
    overwrite the derived file directly under the root: that entry was no
    directory before and is a regular file afterwards, which holds the
    encoded description when the call returns, and what reached it when the
    write failed.  Every other entry is what it was, and no [render] call
    is made. *)
Theorem generate_dot_file_confined (dot_content filename : string) (st : State) :
  let run := generate_dot_file dot_content filename st in
  let root := effective_root st in
  let file_path := root ++ [dot_filename filename] in
  renders (snd run) = renders st
  /\ forall q : Path,
       fs (snd run) !! q = fs st !! q
       \/ (within q root /\ fs st !! q = None
           /\ exists w, fs (snd run) !! q = Some (Dir w))
       \/ (q = file_path
           /\ (exists w data,
                  fs (snd run) !! q = Some (File w data)
                  /\ (is_ok (fst run) = true
                      -> data = Py.encode_utf8 dot_content))
           /\ (fs st !! q = None
               \/ exists w old, fs st !! q = Some (File w old))).
Proof.
  intros run root file_path. subst run.
  rewrite generate_dot_file_unfold. cbv zeta.
  destruct (validate_dot_content dot_content st) as [rv st1] eqn:Hv.
  apply validate_dot_content_result in Hv as [-> _].
  destruct rv as [[]|e].
  2: { cbn. split; [reflexivity|]. intros q. now left. }
  rewrite write_dot_unfold. cbv zeta. fold root. fold file_path.
  assert (Hdirs : forall (b : bool) (f1 : FS),
    dirs_added root (fs st) f1 ->
    forall q : Path,
      f1 !! q = fs st !! q
      \/ (within q root /\ fs st !! q = None
          /\ exists w, f1 !! q = Some (Dir w))
      \/ (q = file_path
          /\ (exists w data,
                 f1 !! q = Some (File w data)
                 /\ (b = true -> data = Py.encode_utf8 dot_content))
          /\ (fs st !! q = None
              \/ exists w old, fs st !! q = Some (File w old)))).
  { intros b f1 Hm q.
    destruct (Hm q) as [E|Hadd]; [now left | right; now left]. }
  destruct (Path_mkdir umask_w root (fs st)) as [f1|e] eqn:Hm.
  2: { cbn. split; [reflexivity|]. apply Hdirs. apply mkdir_p_spec. }
  apply Path_mkdir_dirs_added in Hm.
  destruct (validate_path_security _ _ _) as [[p|e] s2] eqn:Hp;
    apply validate_path_security_state in Hp as [entries ->].
  2: { cbn. split; [reflexivity | now apply Hdirs]. }
  cbn [with_log fs].
  destruct (open_w_write umask_w file_path dot_content f1) as [r2 f2] eqn:Hw.
  apply open_w_write_spec in Hw as (Hch & _ & _).
  assert (Hgoal : forall b : bool,
    (b = true -> is_ok r2 = true) ->
    forall q : Path,
      f2 !! q = fs st !! q
      \/ (within q root /\ fs st !! q = None
          /\ exists w, f2 !! q = Some (Dir w))
      \/ (q = file_path
          /\ (exists w data,
                 f2 !! q = Some (File w data)
                 /\ (b = true -> data = Py.encode_utf8 dot_content))
          /\ (fs st !! q = None
              \/ exists w old, fs st !! q = Some (File w old)))).
  { intros b Hb q.
    destruct Hch as [[-> _] | [(fw & data & -> & Hdata) Hold]];
      [now apply Hdirs|].
    destruct (decide (q = file_path)) as [->|Hne].
    - right; right. split; [reflexivity|]. split.
      + exists fw, data. split; [apply lookup_insert_eq | auto].
      + destruct (Hm file_path) as [E | (Hwithin & _)].
        * rewrite <- E. exact Hold.
        * exfalso. eapply not_within_child; eauto.
    - rewrite lookup_insert_ne by congruence. now apply Hdirs. }
  destruct r2 as [[]|e]; cbn; (split; [reflexivity|]).
  - now apply Hgoal.
  - apply Hgoal. discriminate.
Qed.

(** X5. When [generate_dot_file] returns, the file it names is the derived
    file name directly under the output root in use, the root is a
    directory and is recorded as the output root, and the file holds the
    UTF-8 encoding of the description, which for a description of ASCII
    characters is the description itself. *)
Theorem generate_dot_file_reads_back (dot_content filename : string)
        (st : State) (msg : string) (st' : State) :
  generate_dot_file dot_content filename st = (Ok msg, st') ->
  let root := effective_root st in
  let file_path := root ++ [dot_filename filename] in
  msg = "DOT file successfully created: " +:+ Path_str file_path
  /\ read_bytes (fs st') file_path = Some (Py.encode_utf8 dot_content)
  /\ (Forall (fun c => (Py.code c < 128)%nat) (Py.chars dot_content) ->
      read_bytes (fs st') file_path = Some dot_content)
  /\ is_dir (fs st') root = true
  /\ _output_directory st' = Some root.
Proof.
  intros Hrun root file_path.
  apply generate_dot_file_Ok in Hrun as (Hmsg & Hread & Hdir & Hroot & _).
  split; [exact Hmsg|]. split; [exact Hread|]. split; [|auto].
  intros Hascii. now rewrite encode_utf8_ascii in Hread.
Qed.

(** X6. The output root that each operation records.
    [ensure_output_directory] records the root in use, which is the default
    when none was set, whether or not the directory can be made.  The two
    tools do the same once the description (and for [generate_png] the
    dimensions) have been accepted, also when they fail afterwards; before
    that point they leave the recorded root as it was.  None of them ever
    replaces a root that has been set. *)
Theorem output_root_after (dot_content filename : string) (width height : Z)
        (st : State) :
  _output_directory (snd (ensure_output_directory st))
  = Some (effective_root st)
  /\ _output_directory (snd (generate_dot_file dot_content filename st))
     = (if is_ok (fst (validate_dot_content dot_content st))
        then Some (effective_root st) else _output_directory st)
  /\ _output_directory (snd (generate_png dot_content filename width height st))
     = (if is_ok (fst (validate_dot_content dot_content st))
           && negb ((width <=? 0) || (height <=? 0))
           && negb ((10000 <? width) || (10000 <? height))
        then Some (effective_root st) else _output_directory st)
  /\ (forall d, _output_directory st = Some d -> effective_root st = d).
Proof.
  split; [apply ensure_output_directory_root_after|].
  split; [apply generate_dot_file_root_after|].
  split; [apply generate_png_root_after|].
  intros d Hd. unfold effective_root. now rewrite Hd.
Qed.

(** X7. The recorded output root stays clean.  When the working directory
    is a canonical path and the default root is canonical and free of
    forbidden characters, then from a state whose recorded root, if any, is
    canonical and free of forbidden characters, each of
    [set_output_location_file], [ensure_output_directory],
    [generate_dot_file] and [generate_png] leads to such a state again,
    whether it returns or raises. *)
Theorem output_root_invariant (st : State) :
  canonical getcwd -> clean_root default_output_directory -> root_ok st ->
  (forall directory_path,
      root_ok (snd (set_output_location_file directory_path st)))
  /\ root_ok (snd (ensure_output_directory st))
  /\ (forall dot_content filename,
         root_ok (snd (generate_dot_file dot_content filename st)))
  /\ (forall dot_content filename width height,
         root_ok (snd (generate_png dot_content filename width height st))).
Proof.
  intros Hcwd Hdef Hst.
  pose proof (effective_root_clean st Hdef Hst) as Heff.
  split; [|split; [|split]].
  - intros p.
    destruct (set_output_location_file_root_after p st) as [Hok Herr].
    destruct (fst (set_output_location_file p st)) as [msg|e] eqn:Hr.
    + destruct (Hok msg eq_refl) as (Hn & Hf & Hroot & _).
      intros d Hd. rewrite Hroot in Hd. injection Hd as <-.
      split; [now apply realpath_is_canonical | exact Hf].
    + intros d Hd. rewrite (Herr eq_refl) in Hd. now apply Hst.
  - intros d Hd. rewrite ensure_output_directory_root_after in Hd.
    now injection Hd as <-.
  - intros dc n d Hd. rewrite generate_dot_file_root_after in Hd.
    destruct (is_ok _); [now injection Hd as <- | now apply Hst].
  - intros dc n w h d Hd. rewrite generate_png_root_after in Hd.
    destruct (_ && _); [now injection Hd as <- | now apply Hst].
Qed.

(** X8. Where [resolve] leaves the output root and the derived paths as
    they are (they are canonical and no symbolic link lies on them) and the
    root has no forbidden character, a [SecurityError] from either tool
    means a NUL character in the file name, and nothing else: the tool
    raises [SecurityError] exactly when the description (and for
    [generate_png] the dimensions) is accepted, the root directory can be
    made, and the name given contains NUL.  No other name, whatever its
    dots, slashes or reserved characters, is refused by the path check. *)
Theorem security_error_iff_nul (dot_content filename : string)
        (width height : Z) (st : State) :
  let root := effective_root st in
  Path_resolve root = Ok root ->
  no_forbidden (Path_str root) ->
  (Py.mem "000" filename = false ->
   Path_resolve (root ++ [dot_filename filename])
   = Ok (root ++ [dot_filename filename])
   /\ Path_resolve (root ++ [png_filename filename])
      = Ok (root ++ [png_filename filename])) ->
  (raised (fst (generate_dot_file dot_content filename st))
   = Some SecurityError_
   <-> fst (validate_dot_content dot_content st) = Ok tt
       /\ is_ok (Path_mkdir umask_w root (fs st)) = true
       /\ Py.mem "000" filename = true)
  /\ (raised (fst (generate_png dot_content filename width height st))
      = Some SecurityError_
      <-> fst (validate_dot_content dot_content st) = Ok tt
          /\ ~ bad_dimensions width height
          /\ is_ok (Path_mkdir umask_w root (fs st)) = true
          /\ Py.mem "000" filename = true).
Proof.
  intros root Hroot Hforb Hfile. split.
  - rewrite generate_dot_file_unfold. cbv zeta.
    destruct (validate_dot_content dot_content st) as [rv st1] eqn:Hv.
    apply validate_dot_content_result in Hv as [-> Hrv].
    destruct Hrv as [-> | [m ->]].
    2: { cbn. split; [discriminate | intros [? _]; discriminate]. }
    rewrite write_dot_unfold. cbv zeta. fold root.
    destruct (Path_mkdir _ _ _) as [f1|e].
    2: { cbn. split; [discriminate | intros (_ & ? & _); discriminate]. }
    destruct (Py.mem "000" filename) eqn:Hn.
    { change (dot_filename filename) with (ext_filename ".dot" filename).
      rewrite (validate_nul_child ".dot" root filename _ _ eq_refl Hn).
      cbn. tauto. }
    destruct (Hfile eq_refl) as [Hdot _].
    rewrite (validate_resolved_child root (dot_filename filename) _
               Hroot Hforb (ext_filename_no_forbidden ".dot" filename eq_refl)
               Hdot).
    cbn [with_log fs].
    destruct (open_w_write _ _ _ _) as [[[]|e] f2]; cbn;
      (split; [discriminate | intros (_ & _ & ?); discriminate]).
  - rewrite generate_png_unfold. cbv zeta. rewrite bad_dimensions_checks.
    destruct (validate_dot_content dot_content st) as [rv st1] eqn:Hv.
    apply validate_dot_content_result in Hv as [-> Hrv].
    destruct Hrv as [-> | [m ->]].
    2: { cbn. split; [discriminate | intros [? _]; discriminate]. }
    destruct ((width <=? 0) || (height <=? 0)).
    { cbn. split; [discriminate | intros (_ & Hb & _)].
      exfalso. apply Hb. now left. }
    destruct ((10000 <? width) || (10000 <? height)).
    { cbn. split; [discriminate | intros (_ & Hb & _)].
      exfalso. apply Hb. now right. }
    assert (Hdims : ~ (false = true \/ false = true)).
    { intros [?|?]; discriminate. }
    rewrite render_png_unfold. cbv zeta. fold root.
    destruct (Path_mkdir _ _ _) as [f1|e].
    2: { cbn. split; [discriminate | intros (_ & _ & ? & _); discriminate]. }
    destruct (Py.mem "000" filename) eqn:Hn.
    { unfold png_filename.
      rewrite (validate_nul_child ".png" root filename _ _ eq_refl Hn).
      cbn. tauto. }
    destruct (Hfile eq_refl) as [_ Hpng].
    rewrite (validate_resolved_child root (png_filename filename) _
               Hroot Hforb (ext_filename_no_forbidden ".png" filename eq_refl)
               Hpng).
    cbn [with_log fs _output_directory log renders].
    destruct (Source_render _ _) as [[out|e] f2].
    + destruct (exists_ f2 _); cbn;
        (split; [discriminate | intros (_ & _ & _ & ?); discriminate]).
    + cbn. split; [discriminate | intros (_ & _ & _ & ?); discriminate].
Qed.

End Confinement.

Section Composition.

Context `{Platform}.

(** X9. A successful [set_output_location_file] followed by
    [generate_dot_file]: in a well-formed filesystem, once the root has been
    set, the directory is there and the second tool has nothing to make.
    If then the description passes validation, [resolve] leaves the root
    and the derived file under it as they are, and the write of that file
    succeeds, [generate_dot_file] returns, names the derived file directly
    under the root that was set, and the file holds the encoded
    description. *)
Theorem set_output_then_generate (directory_path dot_content filename : string)
        (st : State) (msg : string) (st1 : State) (root : Path) (f2 : FS) :
  fs_wf (fs st) ->
  set_output_location_file directory_path st = (Ok msg, st1) ->
  _output_directory st1 = Some root ->
  fst (validate_dot_content dot_content st1) = Ok tt ->
  let file_path := root ++ [dot_filename filename] in
  Path_resolve root = Ok root ->
  Path_resolve file_path = Ok file_path ->
  open_w_write umask_w file_path dot_content (fs st1) = (Ok tt, f2) ->
  exists st2,
    generate_dot_file dot_content filename st1
    = (Ok ("DOT file successfully created: " +:+ Path_str file_path), st2)
    /\ fs st2 = f2
    /\ read_bytes (fs st2) file_path = Some (Py.encode_utf8 dot_content).
Proof.
  intros Hwf Hset Hroot Hacc file_path HR HP Hwrite.
  destruct (set_output_location_file_root_after directory_path st) as [Hok _].
  rewrite Hset in Hok. cbn [fst snd] in Hok.
  destruct (Hok msg eq_refl) as (Hn & Hf & Hroot' & _ & Hdir & Hw & Hwf1).
  rewrite Hroot in Hroot'. injection Hroot' as Hroot'.
  rewrite <- Hroot' in Hf, Hdir.
  rewrite generate_dot_file_unfold. cbv zeta.
  destruct (validate_dot_content dot_content st1) as [rv s] eqn:Hv.
  cbn [fst] in Hacc. subst rv.
  apply validate_dot_content_result in Hv as [-> _].
  rewrite write_dot_unfold. cbv zeta.
  assert (Heff : effective_root st1 = root).
  { unfold effective_root. now rewrite Hroot. }
  rewrite Heff. fold file_path.
  rewrite (Path_mkdir_existing _ _ _ (Hwf1 Hwf) Hdir).
  unfold file_path.
  rewrite (validate_resolved_child root (dot_filename filename) _ HR Hf
             (ext_filename_no_forbidden ".dot" filename eq_refl) HP).
  cbn [with_log fs]. fold file_path. rewrite Hwrite.
  eexists. split; [reflexivity|]. cbn [with_log with_fs fs].
  split; [reflexivity|]. eapply open_w_write_Ok. exact Hwrite.
Qed.

(** X10. Writing twice under the same name overwrites: when two calls of
    [generate_dot_file] with the same file name both return, they name the
    same file, which holds the first description after the first call and
    the second description after the second. *)
Theorem generate_dot_file_overwrites (first second filename : string)
        (st : State) (msg1 : string) (st1 : State) (msg2 : string)
        (st2 : State) :
  generate_dot_file first filename st = (Ok msg1, st1) ->
  generate_dot_file second filename st1 = (Ok msg2, st2) ->
  let file_path := effective_root st ++ [dot_filename filename] in
  msg2 = msg1
  /\ read_bytes (fs st1) file_path = Some (Py.encode_utf8 first)
  /\ read_bytes (fs st2) file_path = Some (Py.encode_utf8 second).
Proof.
  intros H1 H2 file_path.
  apply generate_dot_file_Ok in H1 as (-> & Hread1 & _ & Hroot1 & _).
  apply generate_dot_file_Ok in H2 as (-> & Hread2 & _).
  assert (Heff : effective_root st1 = effective_root st).
  { unfold effective_root at 1. now rewrite Hroot1. }
  rewrite Heff in Hread2. rewrite Heff. auto.
Qed.

(** X11. When [generate_png] returns, the dimensions were in range, the
    renderer has been called exactly once, for the format [png] and with a
    target that, with [.png] appended, is the derived file name directly
    under the output root; that file exists, and it is the file the
    confirmation names. *)
Theorem generate_png_returns (dot_content filename : string)
        (width height : Z) (st : State) (msg : string) (st' : State) :
  generate_png dot_content filename width height st = (Ok msg, st') ->
  let root := effective_root st in
  let file_path := root ++ [png_filename filename] in
  let call := png_render_call root dot_content filename in
  msg = png_message file_path width height
  /\ exists_ (fs st') file_path = true
  /\ renders st' = renders st ++ [call]
  /\ rc_filename call +:+ "." +:+ rc_format call = Path_str file_path
  /\ _output_directory st' = Some root
  /\ ~ bad_dimensions width height.
Proof.
  intros Hrun root file_path call. revert Hrun.
  rewrite generate_png_unfold. cbv zeta. rewrite bad_dimensions_checks.
  destruct (validate_dot_content dot_content st) as [rv st1] eqn:Hv.
  apply validate_dot_content_result in Hv as [-> _].
  destruct rv as [[]|e]; [|discriminate].
  destruct ((width <=? 0) || (height <=? 0)); [discriminate|].
  destruct ((10000 <? width) || (10000 <? height)); [discriminate|].
  rewrite render_png_unfold. cbv zeta. fold root. fold file_path. fold call.
  destruct (Path_mkdir umask_w root (fs st)) as [f1|e]; [|discriminate].
  pose proof (validate_path_security_outcome (Path_str file_path) (Some root)
                {| fs := f1; _output_directory := Some root;
                   log := log st; renders := renders st |}) as Hp.
  destruct (validate_path_security _ _ _) as [[q|e] s2]; [|discriminate].
  subst s2. cbn [with_log fs _output_directory log renders].
  destruct (Source_render call f1) as [[out|e] f2]; [|discriminate].
  destruct (exists_ f2 file_path) eqn:Hex; [|discriminate].
  intros [= <- <-]. cbn [with_log fs _output_directory log renders].
  split; [reflexivity|]. split; [exact Hex|]. split; [reflexivity|].
  split; [|split; [reflexivity|]].
  - unfold call, png_render_call. cbn [rc_filename rc_format].
    change ("." +:+ "png") with ".png".
    rewrite Path_str_last_append, png_stem_png. reflexivity.
  - intros [?|?]; discriminate.
Qed.

(** X12. Dimensions out of range stop [generate_png] before anything
    happens: the call fails, the filesystem, the recorded output root and
    the list of [render] calls are what they were, and the one thing added
    is an [ERROR] entry in the log. *)
Theorem generate_png_bad_dimensions_untouched (dot_content filename : string)
        (width height : Z) (st : State) :
  bad_dimensions width height ->
  let run := generate_png dot_content filename width height st in
  exists e,
    fst run = Err e
    /\ snd run = with_log st [(ERROR, "Failed to generate PNG: " +:+ str_exn e)]
    /\ fs (snd run) = fs st
    /\ _output_directory (snd run) = _output_directory st
    /\ renders (snd run) = renders st.
Proof.
  intros Hbad run. subst run. apply bad_dimensions_checks in Hbad.
  rewrite generate_png_unfold. cbv zeta.
  destruct (validate_dot_content dot_content st) as [rv st1] eqn:Hv.
  apply validate_dot_content_result in Hv as [-> Hrv].
  destruct Hrv as [-> | [m ->]].
  - destruct ((width <=? 0) || (height <=? 0)).
    { eexists. cbn. repeat split; reflexivity. }
    destruct ((10000 <? width) || (10000 <? height)).
    { eexists. cbn. repeat split; reflexivity. }
    destruct Hbad; discriminate.
  - eexists. cbn. repeat split; reflexivity.
Qed.

(** X13. [generate_png] calls the renderer at most once.  Either it has
    not called it: then it has failed, and has done nothing to the
    filesystem but add directories at the output root or above it.  Or it
    has called it once, with the description as given, the format [png],
    the derived file name without its suffix under the output root, and
    [cleanup] set: then it returns only if the image exists afterwards, and
    any failure, the renderer's own included, comes out as a
    [FileOperationError] whose text starts with [Failed to render PNG: ]. *)
Theorem generate_png_render_calls (dot_content filename : string)
        (width height : Z) (st : State) :
  let run := generate_png dot_content filename width height st in
  let root := effective_root st in
  let file_path := root ++ [png_filename filename] in
  (renders (snd run) = renders st
   /\ is_ok (fst run) = false
   /\ dirs_added root (fs st) (fs (snd run)))
  \/ (renders (snd run)
      = renders st
        ++ [{| rc_source := dot_content; rc_format := "png";
               rc_filename := Path_str (root ++ [png_stem filename]);
               rc_cleanup := true; rc_quiet_view := true |}]
      /\ match fst run with
         | Ok _ => exists_ (fs (snd run)) file_path = true
         | Err e =>
             exists m, e = FileOperationError ("Failed to render PNG: " +:+ m)
         end).
Proof.
  intros run root file_path. subst run.
  rewrite generate_png_unfold. cbv zeta.
  destruct (validate_dot_content dot_content st) as [rv st1] eqn:Hv.
  apply validate_dot_content_result in Hv as [-> _].
  destruct rv as [[]|e].
  2: { left. cbn. repeat split; [apply dirs_added_refl]. }
  destruct ((width <=? 0) || (height <=? 0)).
  { left. cbn. repeat split; [apply dirs_added_refl]. }
  destruct ((10000 <? width) || (10000 <? height)).
  { left. cbn. repeat split; [apply dirs_added_refl]. }
  rewrite render_png_unfold. cbv zeta. fold root. fold file_path.
  destruct (Path_mkdir umask_w root (fs st)) as [f1|e] eqn:Hm.
  2: { left. cbn. repeat split; [apply mkdir_p_spec]. }
  apply Path_mkdir_dirs_added in Hm.
  destruct (validate_path_security _ _ _) as [[q|e] s2] eqn:Hp;
    apply validate_path_security_state in Hp as [entries ->].
  2: { left. cbn. repeat split; [exact Hm]. }
  right. cbn [with_log fs _output_directory log renders].
  unfold png_render_call.
  destruct (Source_render _ f1) as [[out|e] f2].
  - destruct (exists_ f2 file_path) eqn:Hex.
    + split; [reflexivity | exact Hex].
    + split; [reflexivity | cbn; eauto].
  - split; [reflexivity | cbn; eauto].
Qed.

(** X14. Every failure of a tool is of one of the classes the tool lets
    through, and is logged: after warnings at most, the last entry of the
    log is an [ERROR] that holds the tool's prefix and the text of the
    exception as it was caught.  For the two generators that text is the
    text of the exception raised; [set_output_location_file] wraps an
    [OSError] of the directory creation into a [FileOperationError] whose
    text already holds the prefix, so there the logged line is the text of
    the exception raised. *)
Theorem tool_failures_logged (directory_path dot_content filename : string)
        (width height : Z) (st : State) :
  (forall e,
      fst (generate_dot_file dot_content filename st) = Err e ->
      isinstance e [DOTSyntaxError_; FileOperationError_; SecurityError_] = true
      /\ logged_as "Failed to generate DOT file: " st
           (generate_dot_file dot_content filename st) e)
  /\ (forall e,
         fst (generate_png dot_content filename width height st) = Err e ->
         isinstance e [DOTSyntaxError_; FileOperationError_;
                       SecurityError_; ValueError_] = true
         /\ logged_as "Failed to generate PNG: " st
              (generate_png dot_content filename width height st) e)
  /\ (forall e,
         fst (set_output_location_file directory_path st) = Err e ->
         isinstance e [SecurityError_; FileOperationError_] = true
         /\ (logged_as "Failed to set output directory: " st
               (set_output_location_file directory_path st) e
             \/ ((exists c f,
                    e = FileOperationError
                          ("Failed to set output directory: "
                           +:+ str_exn (OSError c f)))
                 /\ logged_as "" st
                      (set_output_location_file directory_path st) e))).
Proof.
  split; [|split].
  - intros e. rewrite generate_dot_file_unfold. cbv zeta.
    destruct (validate_dot_content dot_content st) as [rv st1] eqn:Hv.
    apply validate_dot_content_result in Hv as [-> Hrv].
    destruct Hrv as [-> | [m ->]]; [|failed_with (@nil (level * string))].
    rewrite write_dot_unfold. cbv zeta.
    destruct (Path_mkdir _ _ _) as [f1|e1];
      [|failed_with (@nil (level * string))].
    match goal with
    | |- context [validate_path_security ?p ?b ?s] =>
        pose proof (validate_path_security_outcome p b s) as Hp;
        destruct (validate_path_security p b s) as [[q|e2] s2]
    end.
    2: { destruct Hp as [-> [m ->]]. failed_with (@nil (level * string)). }
    subst s2. cbn [with_log fs].
    destruct (open_w_write _ _ _ _) as [[[]|e3] f2]; [discriminate|].
    failed_with (warnings q).
  - intros e. rewrite generate_png_unfold. cbv zeta.
    destruct (validate_dot_content dot_content st) as [rv st1] eqn:Hv.
    apply validate_dot_content_result in Hv as [-> Hrv].
    destruct Hrv as [-> | [m ->]]; [|failed_with (@nil (level * string))].
    destruct ((width <=? 0) || (height <=? 0));
      [failed_with (@nil (level * string))|].
    destruct ((10000 <? width) || (10000 <? height));
      [failed_with (@nil (level * string))|].
    rewrite render_png_unfold. cbv zeta.
    destruct (Path_mkdir _ _ _) as [f1|e1];
      [|failed_with (@nil (level * string))].
    match goal with
    | |- context [validate_path_security ?p ?b ?s] =>
        pose proof (validate_path_security_outcome p b s) as Hp;
        destruct (validate_path_security p b s) as [[q|e2] s2]
    end.
    2: { destruct Hp as [-> [m ->]]. failed_with (@nil (level * string)). }
    subst s2. cbn [with_log fs _output_directory log renders].
    destruct (Source_render _ _) as [[out|e3] f2].
    + destruct (exists_ f2 _); [discriminate|]. failed_with (warnings q).
    + failed_with (warnings q).
  - intros e. rewrite set_output_location_file_unfold. cbv zeta.
    match goal with
    | |- context [validate_path_security ?p ?b ?s] =>
        pose proof (validate_path_security_outcome p b s) as Hp;
        destruct (validate_path_security p b s) as [[q|e2] s2]
    end.
    2: { destruct Hp as [-> [m ->]].
         unfold reraised;
           cbn [isinstance class_of existsb exn_class_eqb orb fst snd].
         intros [= <-]. split; [reflexivity|]. left.
         apply (logged_as_intro _ _ _ _ []);
           [constructor | now rewrite app_nil_r]. }
    subst s2. cbn [with_log fs _output_directory log renders].
    destruct (Path_mkdir _ _ _) as [f'|e1] eqn:Hm.
    + destruct (access_W_OK f' q); [discriminate|].
      unfold reraised;
        cbn [isinstance class_of existsb exn_class_eqb orb fst snd].
      intros [= <-]. split; [reflexivity|]. left.
      apply (logged_as_intro _ _ _ _ (warnings q));
        [apply warnings_WARNING | reflexivity].
    + apply Path_mkdir_raises in Hm as (c & f & ->).
      unfold reraised;
        cbn [isinstance class_of existsb exn_class_eqb orb fst snd].
      intros [= <-]. split; [reflexivity|]. right.
      split; [eauto|].
      exists (warnings q). split; [apply warnings_WARNING|].
      cbn [snd with_log with_fs log]. rewrite <- app_assoc. reflexivity.
Qed.

End Composition.

(** ** Whitespace around a description *)

Lemma filter_lstrip_by (p : ascii -> bool) c l :
  p c = false ->
  List.filter (Ascii.eqb c) (Py.lstrip_by p l) = List.filter (Ascii.eqb c) l.
Proof.
  intros Hc. induction l as [|x l IH]; [reflexivity|]. cbn [Py.lstrip_by].
  destruct (p x) eqn:Hx; [|reflexivity].
  cbn [List.filter]. destruct (Ascii.eqb c x) eqn:E; [|exact IH].
  apply Ascii.eqb_eq in E. congruence.
Qed.

Lemma count_strip c d :
  Py.isspace c = false -> Py.count c (Py.strip d) = Py.count c d.
Proof.
  intros Hc. unfold Py.count, Py.strip, Py.strip_by, Py.rstrip_by.
  rewrite chars_of_chars.
  rewrite <- (length_rev (List.filter _ (rev _))).
  rewrite <- List.filter_rev, rev_involutive.
  rewrite (filter_lstrip_by _ _ _ Hc).
  rewrite <- (length_rev (List.filter _ (rev _))).
  rewrite <- List.filter_rev, rev_involutive.
  now rewrite (filter_lstrip_by _ _ _ Hc).
Qed.

Lemma strip_strip d : Py.strip (Py.strip d) = Py.strip d.
Proof.
  unfold Py.strip. rewrite chars_of_chars. now rewrite strip_by_idem.
Qed.

Section Validation.

Context `{Platform}.

(** X15. The three structural checks of [validate_dot_content] do not see
    whitespace around the description: the pattern is matched against the
    trimmed text, and the brace counts, taken on the text as given, are
    those of the trimmed text.  So a description and its trimmed form are
    rejected by these checks together, with the same message, and
    otherwise each gets the answer of the renderer's check on itself. *)
Theorem validate_dot_content_ignores_outer_whitespace (dot_content : string)
        (st : State) :
  (structurally_valid (Py.strip dot_content) <-> structurally_valid dot_content)
  /\ (~ structurally_valid dot_content ->
      fst (validate_dot_content (Py.strip dot_content) st)
      = fst (validate_dot_content dot_content st))
  /\ (structurally_valid dot_content ->
      fst (validate_dot_content dot_content st)
      = pipe_verdict dot_content (fs st)
      /\ fst (validate_dot_content (Py.strip dot_content) st)
         = pipe_verdict (Py.strip dot_content) (fs st)).
Proof.
  assert (Hiff : structurally_valid (Py.strip dot_content)
                 <-> structurally_valid dot_content).
  { unfold structurally_valid.
    now rewrite strip_strip, !count_strip by reflexivity. }
  split; [exact Hiff|]. split.
  - intros Hno. rewrite !validate_dot_content_unfold.
    rewrite strip_strip, !count_strip by reflexivity.
    rewrite structurally_valid_checks in Hno.
    destruct (Py.len (Py.strip dot_content) =? 0)%nat; [reflexivity|].
    destruct (Re.match_anchored DOT_GRAPH_PATTERN (Py.strip dot_content));
      cbn [negb]; [|reflexivity].
    destruct (Py.count "{" dot_content =? Py.count "}" dot_content)%nat;
      cbn [negb]; [|reflexivity].
    exfalso. apply Hno. auto.
  - intros Hyes. pose proof (proj2 Hiff Hyes) as Hyes'.
    apply structurally_valid_checks in Hyes as (E1 & E2 & E3).
    apply structurally_valid_checks in Hyes' as (F1 & F2 & F3).
    rewrite !validate_dot_content_unfold.
    now rewrite E1, E2, E3, F1, F2, F3.
Qed.

(** X16. [validate_path_security] without a base directory accepts a
    path exactly when its canonical form exists and has none of the
    characters [< > | * ?], and returns that form.  With or without a base
    it changes nothing but the log: on success the log gains one warning
    for each component of the result that starts with a dot and is longer
    than the dot, and nothing else; a failure is a [SecurityError] and
    leaves the state as it was.  A dotted component is warned about, never
    refused. *)
Theorem validate_path_security_unconfined (file_path : string)
        (base_directory : option Path) (st : State) :
  (forall c,
      (exists st', validate_path_security file_path None st = (Ok c, st'))
      <-> Path_resolve_str file_path = Ok c /\ no_forbidden (Path_str c))
  /\ match validate_path_security file_path base_directory st with
     | (Ok c, st') => st' = with_log st (warnings c)
     | (Err e, st') => st' = st /\ exists m, e = SecurityError m
     end.
Proof.
  split; [|apply validate_path_security_outcome].
  intros c. rewrite Path_resolve_str_Ok, <- DOT_BASIC_VALIDATION_spec.
  rewrite validate_path_security_unfold. cbv zeta.
  destruct (Py.mem "000" file_path).
  { split; [intros [st' ?] | intros [[? _] _]]; discriminate. }
  destruct (Re.match_anchored DOT_BASIC_VALIDATION
              (Path_str (realpath getcwd file_path))) eqn:Hm; cbn [negb].
  - split.
    + intros [st' [= <- _]]. auto.
    + intros [[_ ->] _]. eauto.
  - split.
    + intros [st' ?]. discriminate.
    + intros [[_ ->] Hc]. congruence.
Qed.

(** X17. Making the output directory only adds directories, and what has
    been made stays.  After [set_output_location_file] the filesystem is
    the one that [mkdir(parents=True, exist_ok=True)] of the validated path
    has left, whether that call returned or raised and whether the tool
    then failed on the write permission: nothing is rolled back.  After
    [ensure_output_directory] it is the one that the [mkdir] of the root in
    use has left.  Either differs from the filesystem before by directories
    at the path asked for or above it, where nothing was; every other entry
    is what it was.  When the path check fails, nothing is touched.
    Neither function makes a [render] call, and [ensure_output_directory]
    logs nothing. *)
Theorem directory_creation_only_adds (directory_path : string) (st : State) :
  (let run := set_output_location_file directory_path st in
   renders (snd run) = renders st
   /\ match validate_path_security directory_path None st with
      | (Err _, _) => fs (snd run) = fs st
      | (Ok v, _) =>
          fs (snd run) = snd (mkdir_p umask_w v (fs st))
          /\ dirs_added v (fs st) (fs (snd run))
      end)
  /\ (let run := ensure_output_directory st in
      fs (snd run) = snd (mkdir_p umask_w (effective_root st) (fs st))
      /\ dirs_added (effective_root st) (fs st) (fs (snd run))
      /\ renders (snd run) = renders st
      /\ log (snd run) = log st).
Proof.
  split; cbv zeta.
  - rewrite set_output_location_file_unfold. cbv zeta.
    match goal with
    | |- context [validate_path_security ?p ?b ?s] =>
        pose proof (validate_path_security_outcome p b s) as Hp;
        destruct (validate_path_security p b s) as [[v|e] s2]
    end.
    2: { destruct Hp as [-> _]. split; reflexivity. }
    subst s2. cbn [with_log fs _output_directory log renders].
    pose proof (mkdir_p_spec umask_w v (fs st)) as (Hadd & _).
    rewrite Path_mkdir_fst.
    destruct (mkdir_p umask_w v (fs st)) as [[[]|e] f'];
      cbn [fst snd] in *.
    + destruct (access_W_OK f' v); cbn; auto.
    + cbn. auto.
  - rewrite ensure_output_directory_unfold. cbv zeta.
    fold (effective_root st).
    pose proof (mkdir_p_spec umask_w (effective_root st) (fs st))
      as (Hadd & _).
    rewrite Path_mkdir_fst.
    destruct (mkdir_p umask_w (effective_root st) (fs st)) as [[[]|e] f'];
      cbn [fst snd] in *; cbn; auto.
Qed.

(** X18. What [generate_dot_file] needs in order to return.  If the
    description passes validation, the root directory can be made,
    [resolve] leaves the root and the derived file under it as they are (no
    symbolic link lies on them), the root has no forbidden character, and
    the write of the derived file succeeds, then the call returns, names
    that file, and the file holds the encoded description.  The name given
    is asked for nothing: after [sanitize_filename] it stays directly under
    the root and brings no forbidden character. *)
Theorem generate_dot_file_returns (dot_content filename : string)
        (st : State) (f1 f2 : FS) :
  let root := effective_root st in
  let file_path := root ++ [dot_filename filename] in
  fst (validate_dot_content dot_content st) = Ok tt ->
  Path_mkdir umask_w root (fs st) = Ok f1 ->
  Path_resolve root = Ok root ->
  no_forbidden (Path_str root) ->
  Path_resolve file_path = Ok file_path ->
  open_w_write umask_w file_path dot_content f1 = (Ok tt, f2) ->
  exists st',
    generate_dot_file dot_content filename st
    = (Ok ("DOT file successfully created: " +:+ Path_str file_path), st')
    /\ fs st' = f2
    /\ read_bytes (fs st') file_path = Some (Py.encode_utf8 dot_content).
Proof.
  intros root file_path Hacc Hmk HR Hf HP Hwrite.
  rewrite generate_dot_file_unfold. cbv zeta.
  destruct (validate_dot_content dot_content st) as [rv s] eqn:Hv.
  cbn [fst] in Hacc. subst rv.
  apply validate_dot_content_result in Hv as [-> _].
  rewrite write_dot_unfold. cbv zeta. fold root. rewrite Hmk.
  rewrite (validate_resolved_child root (dot_filename filename) _ HR Hf
             (ext_filename_no_forbidden ".dot" filename eq_refl) HP).
  cbn [with_log fs]. fold file_path. rewrite Hwrite.
  eexists. split; [reflexivity|]. cbn [with_log with_fs fs].
  split; [reflexivity|]. eapply open_w_write_Ok. exact Hwrite.
Qed.

(** X19. Setting the same output directory again changes nothing: in a
    well-formed filesystem, when [set_output_location_file] has returned,
    the same call returns again with the same answer, leaves the
    filesystem as it is and records the same root. *)
Theorem set_output_location_file_again (directory_path : string)
        (st : State) (msg : string) (st1 : State) :
  fs_wf (fs st) ->
  set_output_location_file directory_path st = (Ok msg, st1) ->
  fst (set_output_location_file directory_path st1) = Ok msg
  /\ fs (snd (set_output_location_file directory_path st1)) = fs st1
  /\ _output_directory (snd (set_output_location_file directory_path st1))
     = _output_directory st1.
Proof.
  intros Hwf Hset.
  destruct (set_output_location_file_root_after directory_path st) as [Hok _].
  rewrite Hset in Hok. cbn [fst snd] in Hok.
  destruct (Hok msg eq_refl) as (Hn & Hf & Hroot & Hmsg & Hdir & Hw & Hwf1).
  rewrite set_output_location_file_unfold. cbv zeta.
  rewrite validate_path_security_unfold. cbv zeta. rewrite Hn.
  apply DOT_BASIC_VALIDATION_spec in Hf. rewrite Hf. cbn [negb].
  cbn [with_log fs _output_directory log renders].
  rewrite (Path_mkdir_existing _ _ _ (Hwf1 Hwf) Hdir), Hw.
  cbn [fst snd fs _output_directory]. rewrite Hroot, Hmsg. auto.
Qed.

End Validation.

Section RenderReturns.

Context `{Platform}.


End RenderReturns.

(** ** Closed instances *)

Lemma generate_dot_file_reads_back_witness :
  read_bytes
    (fs (snd (@generate_dot_file sample_platform "digraph G { a -> b; }"
                "my graph" sample_state)))
    ["tmp"; "mcp_graphviz_output"; "my graph.dot"]
  = Some "digraph G { a -> b; }".
Proof.
  refine (proj1 (proj2 (@generate_dot_file_reads_back sample_platform
                          "digraph G { a -> b; }" "my graph" sample_state
                          _ _ _))).
  vm_compute. reflexivity.
Defined.

Lemma output_root_invariant_witness :
  root_ok (snd (@generate_dot_file sample_platform "digraph G { a -> b; }"
                  "g" sample_state_srv)).
Proof.
  refine (proj1 (proj2 (proj2 (@output_root_invariant sample_platform
                                 sample_state_srv _ _ _)))
            "digraph G { a -> b; }" "g").
  - vm_compute. reflexivity.
  - split; vm_compute; reflexivity.
  - intros d [= <-]. split; vm_compute; reflexivity.
Defined.

Lemma security_error_iff_nul_witness :
  raised (fst (@generate_dot_file sample_platform "digraph G { a -> b; }"
                 (String "000" "g") sample_state_srv))
  = Some SecurityError_.
Proof.
  refine (proj2 (proj1 (@security_error_iff_nul sample_platform
                          "digraph G { a -> b; }" (String "000" "g") 500 500
                          sample_state_srv _ _ _)) _).
  - vm_compute. reflexivity.
  - vm_compute. reflexivity.
  - intros Hnul. vm_compute in Hnul. discriminate Hnul.
  - repeat split; vm_compute; reflexivity.
Defined.

Lemma set_output_then_generate_witness :
  exists st2,
    @generate_dot_file sample_platform "digraph G { a -> b; }" "a/b"
      (snd (@set_output_location_file sample_platform "/srv/./out/"
              sample_state))
    = (Ok "DOT file successfully created: /srv/out/a_b.dot", st2)
    /\ fs st2
       = <[["srv"; "out"; "a_b.dot"] := File true "digraph G { a -> b; }"]>
           (<[["srv"; "out"] := Dir true]> sample_fs)
    /\ read_bytes (fs st2) ["srv"; "out"; "a_b.dot"]
       = Some "digraph G { a -> b; }".
Proof.
  refine (@set_output_then_generate sample_platform "/srv/./out/"
            "digraph G { a -> b; }" "a/b" sample_state _ _ ["srv"; "out"]
            _ _ _ _ _ _ _ _).
  - apply fs_wfb_wf. vm_compute. reflexivity.
  - vm_compute. reflexivity.
  - vm_compute. reflexivity.
  - vm_compute. reflexivity.
  - vm_compute. reflexivity.
  - vm_compute. reflexivity.
  - vm_compute. reflexivity.
Defined.

Lemma generate_dot_file_overwrites_witness :
  read_bytes
    (fs (snd (@generate_dot_file sample_platform "graph H { c -- d; }" "g"
                (snd (@generate_dot_file sample_platform
                        "digraph G { a -> b; }" "g" sample_state)))))
    ["tmp"; "mcp_graphviz_output"; "g.dot"]
  = Some "graph H { c -- d; }".
Proof.
  refine (proj2 (proj2 (@generate_dot_file_overwrites sample_platform
                          "digraph G { a -> b; }" "graph H { c -- d; }" "g"
                          sample_state _ _ _ _ _ _))).
  - vm_compute. reflexivity.
  - vm_compute. reflexivity.
Defined.

Lemma generate_png_returns_witness :
  exists_
    (fs (snd (@generate_png sample_platform "digraph G { a -> b; }" "g.png"
                800 600 sample_state)))
    ["tmp"; "mcp_graphviz_output"; "g.png"]
  = true.
Proof.
  refine (proj1 (proj2 (@generate_png_returns sample_platform
                          "digraph G { a -> b; }" "g.png" 800 600
                          sample_state _ _ _))).
  vm_compute. reflexivity.
Defined.

Lemma generate_png_bad_dimensions_untouched_witness :
  exists e,
    fst (@generate_png sample_platform "digraph G { a -> b; }" "g"
           0 600 sample_state) = Err e
    /\ snd (@generate_png sample_platform "digraph G { a -> b; }" "g"
              0 600 sample_state)
       = with_log sample_state
           [(ERROR, "Failed to generate PNG: " +:+ str_exn e)]
    /\ fs (snd (@generate_png sample_platform "digraph G { a -> b; }" "g"
                  0 600 sample_state)) = fs sample_state
    /\ _output_directory
         (snd (@generate_png sample_platform "digraph G { a -> b; }" "g"
                 0 600 sample_state)) = _output_directory sample_state
    /\ renders (snd (@generate_png sample_platform "digraph G { a -> b; }" "g"
                       0 600 sample_state)) = renders sample_state.
Proof.
  apply (@generate_png_bad_dimensions_untouched sample_platform
           "digraph G { a -> b; }" "g" 0 600 sample_state).
  unfold bad_dimensions. lia.
Defined.

Lemma generate_dot_file_returns_witness :
  exists st',
    @generate_dot_file sample_platform "digraph G { a -> b; }" "../x y?"
      sample_state_srv
    = (Ok "DOT file successfully created: /srv/_x y_.dot", st')
    /\ fs st'
       = <[["srv"; "_x y_.dot"] := File true "digraph G { a -> b; }"]> sample_fs
    /\ read_bytes (fs st') ["srv"; "_x y_.dot"] = Some "digraph G { a -> b; }".
Proof.
  refine (@generate_dot_file_returns sample_platform "digraph G { a -> b; }"
            "../x y?" sample_state_srv sample_fs _ _ _ _ _ _ _).
  - vm_compute. reflexivity.
  - vm_compute. reflexivity.
  - vm_compute. reflexivity.
  - vm_compute. reflexivity.
  - vm_compute. reflexivity.
  - vm_compute. reflexivity.
Defined.

(** Nothing is rolled back: with a umask that leaves no write permission,
    making [/srv/a/b] fails below the new [/srv/a], and [/srv/a] stays. *)
Lemma directory_creation_only_adds_witness :
  is_ok (fst (@set_output_location_file sample_platform_umask "/srv/a/b"
                sample_state)) = false
  /\ is_dir sample_fs ["srv"; "a"] = false
  /\ is_dir (fs (snd (@set_output_location_file sample_platform_umask
                         "/srv/a/b" sample_state))) ["srv"; "a"] = true.
Proof.
  split; [vm_compute; reflexivity|]. split; [vm_compute; reflexivity|].
  destruct (@directory_creation_only_adds sample_platform_umask "/srv/a/b"
              sample_state) as [Hset _].
  cbv zeta in Hset. destruct Hset as [_ Hfs].
  assert (Hv : @validate_path_security sample_platform_umask "/srv/a/b" None
                 sample_state = (Ok ["srv"; "a"; "b"], sample_state)).
  { vm_compute. reflexivity. }
  rewrite Hv in Hfs. destruct Hfs as [Hfs _]. rewrite Hfs.
  vm_compute. reflexivity.
Defined.

Lemma set_output_location_file_again_witness :
  fst (@set_output_location_file sample_platform "/srv/out"
         (snd (@set_output_location_file sample_platform "/srv/out"
                 sample_state)))
  = Ok "Output directory successfully set to: /srv/out".
Proof.
  refine (proj1 (@set_output_location_file_again sample_platform "/srv/out"
                   sample_state _ _ _ _)).
  - apply fs_wfb_wf. vm_compute. reflexivity.
  - vm_compute. reflexivity.
Defined.

